(** * Sockeye training CLI (sockeye/train.py): resume decision, argument
      snapshot and optimizer parameter assembly

    A shallow embedding of [sockeye/train.py].  Python values are an
    inductive type with the language's own equality, ordering and
    truthiness; floats are IEEE-754 binary64 numbers (Stdlib's [spec_float]);
    dictionaries are [gmap string _]; [main] is a program in a small
    state-and-exception monad over the file system and a trace of the calls
    it makes to its collaborators. *)

From Stdlib Require Import ZArith QArith Ascii String List Bool Lia.
From Stdlib Require Import Floats.SpecFloat.
From stdpp Require Import gmap strings list.

Local Open Scope string_scope.

(** ** Python values *)

Module Py.

(** The values an argparse namespace of this program holds and that
    [json.load] can give back: [None], booleans, integers, floats, strings
    and lists. *)
#[warnings="-register-all"]
Inductive value :=
| VNone
| VBool (b : bool)
| VInt (z : Z)
| VFloat (f : spec_float)
| VStr (s : string)
| VList (l : list value).

(** Python's [float] is binary64. *)
Definition prec : Z := 53.
Definition emax : Z := 1024.

Definition float_zero : spec_float := S754_zero false.
(** The literal [1.0]. *)
Definition float_one : spec_float := SFone prec emax.

(** The rational a finite float stands for. *)
Definition float_to_Q (f : spec_float) : option Q :=
  match f with
  | S754_zero _ => Some 0%Q
  | S754_finite s m e =>
      Some (match e with
            | Zneg p => Qmake (cond_Zopp s (Zpos m)) (Pos.pow 2 p)
            | _ => inject_Z (cond_Zopp s (Zpos m) * 2 ^ e)
            end)
  | _ => None
  end.

(** [float(z)] for an integer: round to nearest even; the caller turns an
    infinite result into [OverflowError]. *)
Definition float_of_int (z : Z) : spec_float := binary_normalize prec emax z 0 false.

Inductive number := NInt (z : Z) | NFloat (f : spec_float).

(** [bool] is a subclass of [int]: [True] is [1] and [False] is [0]. *)
Definition as_number (v : value) : option number :=
  match v with
  | VBool b => Some (NInt (Z.b2z b))
  | VInt z => Some (NInt z)
  | VFloat f => Some (NFloat f)
  | _ => None
  end.

(** Python compares an [int] with a [float] exactly, by value. *)
Definition int_float_compare (z : Z) (f : spec_float) : option comparison :=
  match f with
  | S754_nan => None
  | S754_infinity s => Some (if s then Gt else Lt)
  | S754_zero _ => Some (z ?= 0)%Z
  | S754_finite s m e =>
      let mz := cond_Zopp s (Zpos m) in
      Some (match e with
            | Zneg p => (Z.shiftl z (Zpos p) ?= mz)%Z
            | _ => (z ?= Z.shiftl mz e)%Z
            end)
  end.

(** [None] stands for "unordered" (a NaN is involved). *)
Definition num_compare (a b : number) : option comparison :=
  match a, b with
  | NInt x, NInt y => Some (x ?= y)%Z
  | NFloat x, NFloat y => SFcompare x y
  | NInt x, NFloat y => int_float_compare x y
  | NFloat x, NInt y => option_map CompOpp (int_float_compare y x)
  end.

Definition num_eqb (a b : number) : bool :=
  match num_compare a b with Some Eq => true | _ => false end.

(** [a == b]. Numbers compare by value across [bool], [int] and [float];
    strings and lists by content; [None] only equals [None]. *)
Fixpoint py_eqb (a b : value) {struct a} : bool :=
  match a, b with
  | VNone, VNone => true
  | VStr s, VStr t => String.eqb s t
  | VList l, VList m =>
      (fix all2 (l : list value) (m : list value) {struct l} : bool :=
         match l, m with
         | [], [] => true
         | x :: l', y :: m' => py_eqb x y && all2 l' m'
         | _, _ => false
         end) l m
  | _, _ =>
      match as_number a, as_number b with
      | Some x, Some y => num_eqb x y
      | _, _ => false
      end
  end.

(** [a != b] *)
Definition py_neb (a b : value) : bool := negb (py_eqb a b).

(** [bool(v)], the truth value used by [if v], [not v], [a or b]. *)
Definition truthy (v : value) : bool :=
  match v with
  | VNone => false
  | VBool b => b
  | VInt z => negb (z =? 0)%Z
  | VFloat f => negb (SFeqb f float_zero)
  | VStr s => match s with EmptyString => false | String _ _ => true end
  | VList l => match l with [] => false | _ :: _ => true end
  end.

(** [v is None] *)
Definition is_none (v : value) : bool :=
  match v with VNone => true | _ => false end.

(** [len(v)] is defined on strings and lists only. *)
Definition has_len (v : value) : option nat :=
  match v with
  | VStr s => Some (String.length s)
  | VList l => Some (List.length l)
  | _ => None
  end.

End Py.
Export Py.

(** A dictionary with string keys: [vars(args)], the object read back from
    [args.json]. *)
Abbreviation dict := (gmap string value).

(** ** Exceptions and results *)

Inductive exn :=
| AttributeError (name : string)
| KeyError (key : string)
| TypeError
| ZeroDivisionError
| OverflowError
| FileNotFoundError (path : string)
| FileExistsError (path : string)
| IsADirectoryError (path : string)
| NotADirectoryError (path : string)
| JSONDecodeError
| UnpicklingError
| SockeyeError (msg : string)
| SystemExit (code : Z)
| OtherError (what : string).

Inductive result (A : Type) :=
| Ok (a : A)
| Raise (e : exn).
Arguments Ok {A} a.
Arguments Raise {A} e.

(** The status the interpreter hands to the operating system: 0 on a normal
    return, the code of an uncaught [SystemExit], 1 for any other uncaught
    exception. *)
Definition exit_status {A} (r : result A) : Z :=
  match r with
  | Ok _ => 0
  | Raise (SystemExit code) => code
  | Raise _ => 1
  end.

(** [val < n] and [val > n] against an integer literal [n]: defined on
    numbers, a [TypeError] on anything else. A NaN is neither smaller nor
    greater. *)
Definition lt_int (val : value) (n : Z) : result bool :=
  match as_number val with
  | Some x => Ok (match num_compare x (NInt n) with Some Lt => true | _ => false end)
  | None => Raise TypeError
  end.

Definition gt_int (val : value) (n : Z) : result bool :=
  match as_number val with
  | Some x => Ok (match num_compare x (NInt n) with Some Gt => true | _ => false end)
  | None => Raise TypeError
  end.

(** [x / v] for a float [x]: true division, after converting an integer
    divisor to [float]. *)
Definition float_truediv (x : spec_float) (v : value) : result value :=
  match as_number v with
  | Some (NInt z) =>
      if (z =? 0)%Z then Raise ZeroDivisionError
      else match float_of_int z with
           | S754_infinity _ => Raise OverflowError
           | d => Ok (VFloat (SFdiv prec emax x d))
           end
  | Some (NFloat d) =>
      if SFeqb d float_zero then Raise ZeroDivisionError
      else Ok (VFloat (SFdiv prec emax x d))
  | None => Raise TypeError
  end.

(** [x in container]: membership by [==] in a list; on a string, the
    substring test, which wants a string on the left. *)
Definition py_contains (x container : value) : result bool :=
  match container with
  | VList l => Ok (existsb (py_eqb x) l)
  | VStr s =>
      match x with
      | VStr t => Ok (match String.index 0 t s with Some _ => true | None => false end)
      | _ => Raise TypeError
      end
  | _ => Raise TypeError
  end.

(** ** sockeye/train.py, the two helpers *)

(** [none_if_negative], lines 49-50. *)
Definition none_if_negative (val : value) : result value :=
  match lt_int val 0 with
  | Ok b => Ok (if b then VNone else val)
  | Raise e => Raise e
  end.

(** [_dict_difference], lines 64-69: the loop over [dict1.items()] is the
    fold over the map; the order of iteration does not matter for the set
    it builds. *)
Definition _dict_difference (dict1 dict2 : dict) : gset string :=
  map_fold (fun k v (diffs : gset string) =>
              if match dict2 !! k with
                 | None => true
                 | Some v2 => py_neb v2 v
                 end
              then {[k]} ∪ diffs else diffs)
           ∅ dict1.

(** Two predicates on values. *)

(** A float below zero: a negative finite number or minus infinity. Minus
    zero and NaN are not. *)
Definition negative_float (f : spec_float) : bool :=
  match f with
  | S754_infinity true | S754_finite true _ _ => true
  | _ => false
  end.

(** A value with no NaN in it. *)
Fixpoint nan_free (v : value) : bool :=
  match v with
  | VFloat S754_nan => false
  | VList l => forallb nan_free l
  | _ => true
  end.

(** ** Collaborators

    [train.py] drives modules that are not part of this development
    (vocab, data_io, lr_scheduler, training, ...) and third-party libraries.
    Their objects are opaque types, their constants are parameters, and
    every call into them is answered by an oracle that may return or
    raise. *)

(** Opaque objects handed around by [main]. *)
Class Collaborators := {
  Scheduler : Type;       (* learning-rate scheduler instances *)
  DataIter : Type;        (* data_io iterators *)
  TrainingModel : Type;   (* training.TrainingModel instances *)
  Lexicon : Type;         (* the array made by lexicon.initialize_lexicon *)
  Initializer : Type      (* weight initializers *)
}.

(** The names [main] takes from [constants.py]. *)
Class Constants := {
  ARGS_MAY_DIFFER : list string;
  ARGS_STATE_NAME : string;
  TRAINING_STATE_DIRNAME : string;
  LOG_NAME : string;
  VOCAB_SRC_NAME : string;
  VOCAB_TRG_NAME : string;
  JSON_SUFFIX : string;
  SCHEDULER_STATE_NAME : string;
  TRAINING_STATE_PARAMS_NAME : string;
  BLEU : string;
  RNN_WITH_CONV_EMBED_NAME : string
}.

(** A vocabulary is a [Dict] from words to ids. *)
Abbreviation Vocab := (gmap string Z).

(** [mx.cpu()] and [mx.gpu(gpu_id)]. *)
Inductive device := cpu | gpu (gpu_id : Z).

(** *** Configuration objects

    Modelled from the spec: the configuration classes ([rnn.RNNConfig],
    [encoder.ConvolutionalEmbeddingConfig], [encoder.RecurrentEncoderConfig],
    [decoder.RecurrentDecoderConfig], [coverage.CoverageConfig],
    [attention.AttentionConfig], [loss.LossConfig], [model.ModelConfig],
    [data_io.DataInfo]) are missing from the sources; 3 DATA MODEL calls the
    result a "fully-resolved configuration tree ... built once", so each is
    the record of the keyword arguments [main] passes to it. *)
Record RNNConfig := {
  rnn_cell_type : value; rnn_num_hidden : value; rnn_num_layers : value;
  rnn_dropout : value; rnn_residual : value; rnn_forget_bias : value }.

Record ConvolutionalEmbeddingConfig := {
  conv_num_embed : value; conv_max_filter_width : value; conv_num_filters : value;
  conv_pool_stride : value; conv_num_highway_layers : value; conv_dropout : value }.

Record RecurrentEncoderConfig := {
  enc_vocab_size : nat; enc_num_embed : value;
  enc_rnn_config : RNNConfig; enc_conv_config : option ConvolutionalEmbeddingConfig }.

Record RecurrentDecoderConfig := {
  dec_vocab_size : nat; dec_num_embed : value; dec_rnn_config : RNNConfig;
  dec_dropout : value; dec_weight_tying : value; dec_context_gating : value;
  dec_layer_normalization : value }.

Record CoverageConfig := {
  cov_type : value; cov_num_hidden : value; cov_layer_normalization : value }.

Record AttentionConfig := {
  att_type : value; att_num_hidden : value; att_input_previous_word : value;
  att_rnn_num_hidden : value; att_layer_normalization : value;
  att_config_coverage : option CoverageConfig }.

Record LossConfig := {
  loss_type : value; loss_vocab_size : nat; loss_normalize : value;
  loss_smoothed_cross_entropy_alpha : value }.

Record ModelConfig := {
  max_seq_len : value; vocab_source_size : nat; vocab_target_size : nat;
  config_encoder : RecurrentEncoderConfig; config_decoder : RecurrentDecoderConfig;
  config_attention : AttentionConfig; config_loss : LossConfig;
  lexical_bias : value; learn_lexical_bias : value }.

Record DataInfo := {
  di_source : string; di_target : string;
  di_validation_source : string; di_validation_target : string;
  di_source_vocab : value; di_target_vocab : value }.

Inductive config_object :=
| NewRNNConfig (c : RNNConfig)
| NewConvolutionalEmbeddingConfig (c : ConvolutionalEmbeddingConfig)
| NewRecurrentEncoderConfig (c : RecurrentEncoderConfig)
| NewRecurrentDecoderConfig (c : RecurrentDecoderConfig)
| NewCoverageConfig (c : CoverageConfig)
| NewAttentionConfig (c : AttentionConfig)
| NewLossConfig (c : LossConfig)
| NewModelConfig (c : ModelConfig)
| NewDataInfo (c : DataInfo).

Section Train.
Context `{Collaborators} `{Constants}.

(** An entry of [optimizer_params]: a plain value or the scheduler. *)
Inductive param :=
| PValue (v : value)
| PScheduler (s : Scheduler).

(** The keyword arguments of [training_model.fit], lines 311-323. *)
Record fit_kwargs := {
  fit_output_folder : string;
  fit_max_params_files_to_keep : value;
  fit_metrics : value;
  fit_initializer : Initializer;
  fit_max_updates : value;
  fit_checkpoint_frequency : value;
  fit_optimizer : value;
  fit_optimizer_params : gmap string param;
  fit_optimized_metric : value;
  fit_max_num_not_improved : value;
  fit_min_num_epochs : value;
  fit_monitor_bleu : value;
  fit_use_tensorboard : value }.

(** The calls [main] makes into its collaborators, indexed by the type of
    what they return. *)
Inductive extcall : Type -> Type :=
| np_random_seed (seed : value) : extcall unit
| random_seed (seed : value) : extcall unit
| mx_random_seed (seed : value) : extcall unit
| get_num_gpus : extcall Z
| expand_requested_device_ids (device_ids : value) : extcall (list Z)
| acquire_gpus (device_ids lock_dir : value) : extcall (list Z)
| vocab_build_from_path (data_path num_words min_count : value) : extcall Vocab
| vocab_from_json (path : value) : extcall Vocab
| vocab_from_json_or_pickle (path : string) : extcall Vocab
| vocab_to_json (v : Vocab) (path : string) : extcall unit
| get_training_data_iters
    (source target validation_source validation_target : string)
    (vocab_source vocab_target : Vocab)
    (batch_size fill_up max_seq_len_source max_seq_len_target : value)
    (bucketing : bool) (bucket_width : value) : extcall (DataIter * DataIter)
| get_lr_scheduler
    (scheduler_type checkpoint_frequency learning_rate_half_life
     learning_rate_reduce_factor learning_rate_reduce_num_not_improved : value)
    : extcall (option Scheduler)
| new_TrainingModel
    (config : ModelConfig) (context : list device) (train_iter : DataIter)
    (fused : value) (bucketing : bool) (lr_scheduler : option Scheduler)
    : extcall TrainingModel
| load_params_from_file (m : TrainingModel) (fname : value) : extcall unit
| initialize_lexicon (lex : value) (vocab_source vocab_target : Vocab) : extcall Lexicon
| get_initializer (rnn_h2h_init : value) (lexicon : option Lexicon) : extcall Initializer
| fit (m : TrainingModel) (train_iter eval_iter : DataIter) (kw : fit_kwargs) : extcall unit.

(** What lies outside the program: the working directory behind
    [os.path.abspath], the command line, and the answers of the
    collaborators. *)
Class Environment := {
  abspath : string -> string;
  argv : list string;
  respond : forall A, extcall A -> result A
}.

Context `{Environment}.

(** *** The file system

    Paths to nodes. It holds what [train.py] itself inspects and
    changes ([os.path.exists], [shutil.rmtree], [os.makedirs], [open]); what
    the collaborators do to files shows in the trace as their calls. The
    root and the working directory are not in the table: they are always
    there. *)
Inductive content :=
| CJson (d : dict)                  (* a JSON object, as [json.dump] wrote it *)
| CPickle (o : option Scheduler)    (* a pickled scheduler, or a pickled [None] *)
| CData.                            (* anything else *)

Inductive node :=
| Dir
| File (c : content).

Abbreviation filesystem := (gmap string node).

Inductive level := Info | Error.

Inductive logarg :=
| LStr (s : string)
| LVal (v : value)
| LNat (n : nat)
| LInts (l : list Z)
| LArgs (d : dict)
| LParams (p : gmap string param).

Inductive event :=
| EvCall {A : Type} (c : extcall A)
| EvSetupLogger (file_logging console : bool) (path : option string)
| EvLog (lvl : level) (fmt : string) (args : list logarg)
| EvLogSockeyeVersion
| EvNew (o : config_object)
| EvFreeze (c : ModelConfig)
| EvReleaseGpus (ids : list Z).

(** ** The monad of [main] *)

Record state := State {
  fs : filesystem;
  trace : list event;               (* oldest first *)
  exit_stack : list (list Z)        (* GPU locks entered on the ExitStack *)
}.

Definition M (A : Type) : Type := state -> result A * state.

Definition ret {A} (a : A) : M A := fun st => (Ok a, st).

Definition bind {A B} (m : M A) (f : A -> M B) : M B := fun st =>
  match m st with
  | (Ok a, st') => f a st'
  | (Raise e, st') => (Raise e, st')
  end.

Definition raise {A} (e : exn) : M A := fun st => (Raise e, st).

Definition lift {A} (r : result A) : M A := fun st => (r, st).

Definition add_event (e : event) (st : state) : state :=
  {| fs := fs st; trace := trace st ++ [e]; exit_stack := exit_stack st |}.

Definition emit (e : event) : M unit := fun st => (Ok tt, add_event e st).

Definition get_fs : M filesystem := fun st => (Ok (fs st), st).

Definition put_fs (f : filesystem) : M unit := fun st =>
  (Ok tt, {| fs := f; trace := trace st; exit_stack := exit_stack st |}).

Notation "x <- m ;; k" := (bind m (fun x => k))
  (at level 100, m at next level, right associativity).
Notation "m ;;; k" := (bind m (fun _ => k))
  (at level 100, right associativity).

(** [args.name] *)
Definition attr (args : dict) (name : string) : M value :=
  match args !! name with
  | Some v => ret v
  | None => raise (AttributeError name)
  end.

(** [d[key]] *)
Definition getitem (d : dict) (key : string) : M value :=
  match d !! key with
  | Some v => ret v
  | None => raise (KeyError key)
  end.

(** [len(v)] *)
Definition py_len (v : value) : M nat :=
  match has_len v with
  | Some n => ret n
  | None => raise TypeError
  end.

(** A call into a collaborator: recorded, then answered. *)
Definition call {A} (c : extcall A) : M A :=
  emit (EvCall c) ;;; lift (respond A c).

(** A constructor call of a configuration class. *)
Definition new (o : config_object) : M unit := emit (EvNew o).

(** Modelled from the spec: [sockeye.log] ([setup_main_logger],
    [log_sockeye_version]) and the logger it returns are missing from the
    sources; 6 EXTERNAL INTERFACES has the run log as an append-only file of
    the output folder. Setting the logger up and logging through it are
    entries of the trace. *)
Definition setup_main_logger (file_logging console : bool) (path : option string) : M unit :=
  emit (EvSetupLogger file_logging console path).

Definition logger (lvl : level) (fmt : string) (args : list logarg) : M unit :=
  emit (EvLog lvl fmt args).

Definition log_sockeye_version : M unit := emit EvLogSockeyeVersion.

(** Modelled from the spec: [sockeye.utils.check_condition] is missing from
    the sources; 4.3 says that cross-field validation "raises a
    configuration error (not silently corrected)". *)
Definition check_condition (condition : bool) (error_message : string) : M unit :=
  if condition then ret tt else raise (SockeyeError error_message).

(** [sys.exit(code)] *)
Definition sys_exit {A} (code : Z) : M A := raise (SystemExit code).

(** *** Paths and files *)

Fixpoint ends_with_slash (s : string) : bool :=
  match s with
  | EmptyString => false
  | String c EmptyString => Ascii.eqb c "/"%char
  | String _ s' => ends_with_slash s'
  end.

(** [os.path.join(a, b)] of posixpath. *)
Definition os_path_join (a b : string) : string :=
  if String.prefix "/" b then b
  else if String.eqb a EmptyString || ends_with_slash a then a ++ b
  else a ++ "/" ++ b.

(** [os.path.abspath(v)] *)
Definition os_path_abspath (v : value) : M string :=
  match v with
  | VStr s => ret (abspath s)
  | _ => raise TypeError
  end.

(** [os.path.exists(path)] *)
Definition os_path_exists (path : string) : M bool :=
  f <- get_fs ;;
  ret (match f !! path with Some _ => true | None => false end).

(** [q] is [path] or lies below it. *)
Definition within (path q : string) : bool :=
  String.eqb q path || String.prefix (path ++ "/") q.

(** [shutil.rmtree(path)] *)
Definition shutil_rmtree (path : string) : M unit :=
  f <- get_fs ;;
  match f !! path with
  | None => raise (FileNotFoundError path)
  | Some (File _) => raise (NotADirectoryError path)
  | Some Dir => put_fs (filter (fun kv => negb (within path kv.1) = true) f)
  end.

(** [p[:i]] and [p[i:]] for [i = p.rfind("/") + 1]. *)
Fixpoint split_at_last_slash (p : string) : string * string :=
  match p with
  | EmptyString => (EmptyString, EmptyString)
  | String c rest =>
      match split_at_last_slash rest with
      | (EmptyString, tail) =>
          if Ascii.eqb c "/" then (String c EmptyString, tail)
          else (EmptyString, String c tail)
      | (head, tail) => (String c head, tail)
      end
  end.

(** [s.rstrip("/")] *)
Fixpoint rstrip_slashes (s : string) : string :=
  match s with
  | EmptyString => EmptyString
  | String c rest =>
      match rstrip_slashes rest with
      | EmptyString => if Ascii.eqb c "/" then EmptyString else String c EmptyString
      | rest' => String c rest'
      end
  end.

(** [os.path.split(p)] of posixpath: the head loses the slashes it ends
    with, unless it is made of slashes only. *)
Definition os_path_split (p : string) : string * string :=
  let '(head, tail) := split_at_last_slash p in
  (match rstrip_slashes head with EmptyString => head | stripped => stripped end, tail).

(** The first lines of [os.makedirs]: [head, tail = path.split(name)], and
    once more on [head] when [tail] is empty. *)
Definition makedirs_split (name : string) : string * string :=
  let '(head, tail) := os_path_split name in
  if String.eqb tail "" then os_path_split head else (head, tail).

(** The directories above [name] that the table holds, nearest first: the
    heads [os.makedirs] climbs through while [head and tail]. The root and
    the working directory end the climb, which takes fewer steps than
    [name] has characters. *)
Fixpoint dirs_above_upto (depth : nat) (name : string) : list string :=
  match depth with
  | 0 => []
  | S depth' =>
      let '(head, tail) := makedirs_split name in
      if String.eqb head "" || String.eqb tail "" || String.eqb (rstrip_slashes head) ""
      then []
      else head :: dirs_above_upto depth' head
  end.

Definition dirs_above (name : string) : list string :=
  dirs_above_upto (String.length name) name.

(** [os.mkdir(path)]: the directory above [path] must be there, and
    nothing at [path]. *)
Definition os_mkdir (path : string) : M unit :=
  f <- get_fs ;;
  match (match dirs_above path with [] => Some Dir | parent :: _ => f !! parent end) with
  | None => raise (FileNotFoundError path)
  | Some (File _) => raise (NotADirectoryError path)
  | Some Dir =>
      match f !! path with
      | Some _ => raise (FileExistsError path)
      | None => put_fs (<[path := Dir]> f)
      end
  end.

(** [try: m] with [except FileExistsError: pass] *)
Definition pass_file_exists (m : M unit) : M unit := fun st =>
  match m st with
  | (Raise (FileExistsError _), st') => (Ok tt, st')
  | out => out
  end.

(** The body of [os.makedirs(name)], with the directories [above] it:
    a head that is missing is made first, with those above it, then
    [name]. Paths are as [os.path.abspath] returns them, with no component
    ".", so the branch for a tail "." is not there. *)
Fixpoint makedirs (above : list string) (name : string) : M unit :=
  match above with
  | [] => os_mkdir name
  | head :: above' =>
      head_exists <- os_path_exists head ;;
      if head_exists then os_mkdir name
      else
        pass_file_exists (makedirs above' head) ;;;
        os_mkdir name
  end.

(** [os.makedirs(path)] *)
Definition os_makedirs (path : string) : M unit := makedirs (dirs_above path) path.

(** What [os.mkdir] and [os.makedirs] raise. *)
Definition file_error (e : exn) : Prop :=
  match e with
  | FileNotFoundError _ | FileExistsError _ | NotADirectoryError _ => True
  | _ => False
  end.

Definition is_dir (f : filesystem) (path : string) : bool :=
  match f !! path with Some Dir => true | _ => false end.


(** The table is a tree: above every entry there are directories. *)
Definition tree (f : filesystem) : Prop :=
  map_Forall (fun path _ => forallb (is_dir f) (dirs_above path) = true) f.


(** [g] is [f] with directories added at some of the paths [made], where
    [f] had nothing. *)
Definition with_dirs_at (made : list string) (f g : filesystem) : Prop :=
  forall p, g !! p = f !! p \/ (f !! p = None /\ g !! p = Some Dir /\ p ∈ made).

(** [open(path, "r")] or [open(path, "rb")], and reading all of it. *)
Definition open_read (path : string) : M content :=
  f <- get_fs ;;
  match f !! path with
  | None => raise (FileNotFoundError path)
  | Some Dir => raise (IsADirectoryError path)
  | Some (File c) => ret c
  end.

(** [json.load(fp)] *)
Definition json_load (c : content) : M dict :=
  match c with
  | CJson d => ret d
  | _ => raise JSONDecodeError
  end.

(** [pickle.load(fp)] *)
Definition pickle_load (c : content) : M (option Scheduler) :=
  match c with
  | CPickle o => ret o
  | _ => raise UnpicklingError
  end.

(** [with open(path, "w") as fp: json.dump(d, fp)] *)
Definition json_dump_to (path : string) (d : dict) : M unit :=
  f <- get_fs ;;
  match f !! path with
  | Some Dir => raise (IsADirectoryError path)
  | _ => put_fs (<[path := File (CJson d)]> f)
  end.

(** [with ExitStack() as exit_stack: body]: whatever the body does, the
    contexts entered on the stack are left when the block is. *)
Definition with_exit_stack {A} (body : M A) : M A := fun st =>
  let '(r, st') := body {| fs := fs st; trace := trace st; exit_stack := [] |} in
  (r, {| fs := fs st';
         trace := trace st' ++ map EvReleaseGpus (exit_stack st');
         exit_stack := exit_stack st |}).

(** [exit_stack.enter_context(acquire_gpus(device_ids, lock_dir=lock_dir))] *)
Definition enter_acquire_gpus (device_ids lock_dir : value) : M (list Z) :=
  ids <- call (acquire_gpus device_ids lock_dir) ;;
  (fun st => (Ok ids, {| fs := fs st; trace := trace st;
                         exit_stack := ids :: exit_stack st |})).

(** ** [main], block by block *)

(** Lines 80-83: seed the RNGs. *)
Definition seed_rngs (args : dict) : M unit :=
  seed <- attr args "seed" ;;
  call (np_random_seed seed) ;;;
  seed <- attr args "seed" ;;
  call (random_seed seed) ;;;
  seed <- attr args "seed" ;;
  call (mx_random_seed seed).

(** Lines 85-86. *)
Definition check_fused_rnn (args : dict) : M unit :=
  use_fused_rnn <- attr args "use_fused_rnn" ;;
  if truthy use_fused_rnn then
    use_cpu <- attr args "use_cpu" ;;
    check_condition (negb (truthy use_cpu)) "GPU required for FusedRNN cells"
  else ret tt.

Definition residual_message : string :=
  "Residual connections require at least 3 RNN layers".

(** Lines 88-89. *)
Definition check_rnn_residual_connections (args : dict) : M unit :=
  rnn_residual_connections <- attr args "rnn_residual_connections" ;;
  if truthy rnn_residual_connections then
    rnn_num_layers <- attr args "rnn_num_layers" ;;
    deep <- lift (gt_int rnn_num_layers 2) ;;
    check_condition deep residual_message
  else ret tt.

(** Lines 91-92. *)
Definition check_optimized_metric (args : dict) : M unit :=
  optimized_metric <- attr args "optimized_metric" ;;
  tracked <- (if py_eqb optimized_metric (VStr BLEU) then ret true
              else
                optimized_metric <- attr args "optimized_metric" ;;
                metrics <- attr args "metrics" ;;
                lift (py_contains optimized_metric metrics)) ;;
  check_condition tracked
    "Must optimize either BLEU or one of tracked metrics (--metrics)".

(** Lines 80-92: what [main] does before it looks at the output folder. *)
Definition preflight (args : dict) : M unit :=
  seed_rngs args ;;;
  check_fused_rnn args ;;;
  check_rnn_residual_connections args ;;;
  check_optimized_metric args.

(** Lines 106-113: the saved arguments are read back and compared with the
    current ones; returns [arg_diffs]. *)
Definition remaining_arg_diffs (args : dict) (output_folder : string) : M (gset string) :=
  fp <- open_read (os_path_join output_folder ARGS_STATE_NAME) ;;
  old_args <- json_load fp ;;
  let arg_diffs := _dict_difference args old_args ∪ _dict_difference old_args args in
  (* Remove args that may differ without affecting the training. *)
  let arg_diffs := arg_diffs ∖ list_to_set ARGS_MAY_DIFFER in
  (* allow different device-ids provided their total count is the same *)
  if decide ("device_ids" ∈ arg_diffs) then
    old_ids <- getitem old_args "device_ids" ;;
    old_len <- py_len old_ids ;;
    new_ids <- getitem args "device_ids" ;;
    new_len <- py_len new_ids ;;
    ret (if Nat.eqb old_len new_len then arg_diffs ∖ {["device_ids"]} else arg_diffs)
  else ret arg_diffs.

(** Lines 94-125: the status of the output folder. Returns
    [output_folder], [training_state_dir] and [resume_training]. *)
Definition check_output_folder (args : dict) : M (string * string * bool) :=
  quiet <- attr args "quiet" ;;
  setup_main_logger false (negb (truthy quiet)) None ;;;
  output <- attr args "output" ;;
  output_folder <- os_path_abspath output ;;
  let training_state_dir := os_path_join output_folder TRAINING_STATE_DIRNAME in
  output_exists <- os_path_exists output_folder ;;
  if output_exists then
    overwrite_output <- attr args "overwrite_output" ;;
    if truthy overwrite_output then
      logger Info "Removing existing output folder %s." [LStr output_folder] ;;;
      shutil_rmtree output_folder ;;;
      os_makedirs output_folder ;;;
      ret (output_folder, training_state_dir, false)
    else
      state_exists <- os_path_exists training_state_dir ;;
      if state_exists then
        arg_diffs <- remaining_arg_diffs args output_folder ;;
        if decide (arg_diffs = ∅) then
          ret (output_folder, training_state_dir, true)
        else
          (* We do not have the logger yet *)
          logger Error "Mismatch in arguments for training continuation." [] ;;;
          logger Error "Differing arguments: %s."
                 [LStr (String.concat ", " (elements arg_diffs))] ;;;
          sys_exit 1
      else
        logger Error "Refusing to overwrite existing output folder %s." [LStr output_folder] ;;;
        sys_exit 1
  else
    os_makedirs output_folder ;;;
    ret (output_folder, training_state_dir, false).

(** Lines 127-134: the file logger, and the arguments written to
    [args.json]. *)
Definition log_and_save_args (args : dict) (output_folder : string) : M unit :=
  quiet <- attr args "quiet" ;;
  setup_main_logger true (negb (truthy quiet)) (Some (os_path_join output_folder LOG_NAME)) ;;;
  log_sockeye_version ;;;
  logger Info "Command: %s" [LStr (String.concat " " argv)] ;;;
  logger Info "Arguments: %s" [LArgs args] ;;;
  json_dump_to (os_path_join output_folder ARGS_STATE_NAME) args.

(** Lines 137-152: the devices to train on. *)
Definition device_context (args : dict) : M (list device) :=
  use_cpu <- attr args "use_cpu" ;;
  if truthy use_cpu then
    logger Info "Device: CPU" [] ;;;
    ret [cpu]
  else
    num_gpus <- call get_num_gpus ;;
    check_condition (1 <=? num_gpus)%Z
      "No GPUs found, consider running on the CPU with --use-cpu (note: check depends on nvidia-smi and this could also mean that the nvidia-smi binary isn't on the path)." ;;;
    disable_device_locking <- attr args "disable_device_locking" ;;
    context <-
      (if truthy disable_device_locking then
         device_ids <- attr args "device_ids" ;;
         call (expand_requested_device_ids device_ids)
       else
         device_ids <- attr args "device_ids" ;;
         lock_dir <- attr args "lock_dir" ;;
         enter_acquire_gpus device_ids lock_dir) ;;
    logger Info "Device(s): GPU %s" [LInts context] ;;;
    ret (map gpu context).

(** [_build_or_load_vocab], lines 53-61. *)
Definition _build_or_load_vocab
    (existing_vocab_path data_path num_words word_min_count : value) : M Vocab :=
  if is_none existing_vocab_path then
    call (vocab_build_from_path data_path num_words word_min_count)
  else
    call (vocab_from_json existing_vocab_path).

(** Lines 154-165: load existing or create vocabs. *)
Definition load_or_create_vocabs (args : dict) (output_folder : string)
    (resume_training : bool) : M (Vocab * Vocab) :=
  if resume_training then
    vocab_source <- call (vocab_from_json_or_pickle (os_path_join output_folder VOCAB_SRC_NAME)) ;;
    vocab_target <- call (vocab_from_json_or_pickle (os_path_join output_folder VOCAB_TRG_NAME)) ;;
    ret (vocab_source, vocab_target)
  else
    sub <- attr args "num_words_source" ;;
    num_words_source <-
      (if is_none sub then attr args "num_words" else attr args "num_words_source") ;;
    source_vocab <- attr args "source_vocab" ;;
    source <- attr args "source" ;;
    word_min_count <- attr args "word_min_count" ;;
    vocab_source <- _build_or_load_vocab source_vocab source num_words_source word_min_count ;;
    call (vocab_to_json vocab_source (os_path_join output_folder VOCAB_SRC_NAME ++ JSON_SUFFIX)) ;;;
    sub <- attr args "num_words_target" ;;
    num_words_target <-
      (if is_none sub then attr args "num_words" else attr args "num_words_target") ;;
    target_vocab <- attr args "target_vocab" ;;
    target <- attr args "target" ;;
    word_min_count <- attr args "word_min_count" ;;
    vocab_target <- _build_or_load_vocab target_vocab target num_words_target word_min_count ;;
    call (vocab_to_json vocab_target (os_path_join output_folder VOCAB_TRG_NAME ++ JSON_SUFFIX)) ;;;
    ret (vocab_source, vocab_target).

(** Lines 171-176. *)
Definition make_data_info (args : dict) : M DataInfo :=
  source <- attr args "source" ;;
  source <- os_path_abspath source ;;
  target <- attr args "target" ;;
  target <- os_path_abspath target ;;
  validation_source <- attr args "validation_source" ;;
  validation_source <- os_path_abspath validation_source ;;
  validation_target <- attr args "validation_target" ;;
  validation_target <- os_path_abspath validation_target ;;
  source_vocab <- attr args "source_vocab" ;;
  target_vocab <- attr args "target_vocab" ;;
  let data_info := {| di_source := source; di_target := target;
                      di_validation_source := validation_source;
                      di_validation_target := validation_target;
                      di_source_vocab := source_vocab;
                      di_target_vocab := target_vocab |} in
  new (NewDataInfo data_info) ;;;
  ret data_info.

(** Lines 178-192: create data iterators. Returns [max_seq_len_source]
    with them, which the model configuration uses again. *)
Definition create_data_iters (args : dict) (data_info : DataInfo)
    (vocab_source vocab_target : Vocab) : M (value * (DataIter * DataIter)) :=
  sub <- attr args "max_seq_len_source" ;;
  max_seq_len_source <-
    (if is_none sub then attr args "max_seq_len" else attr args "max_seq_len_source") ;;
  sub <- attr args "max_seq_len_target" ;;
  max_seq_len_target <-
    (if is_none sub then attr args "max_seq_len" else attr args "max_seq_len_target") ;;
  batch_size <- attr args "batch_size" ;;
  fill_up <- attr args "fill_up" ;;
  no_bucketing <- attr args "no_bucketing" ;;
  bucket_width <- attr args "bucket_width" ;;
  iters <- call (get_training_data_iters
                   (di_source data_info) (di_target data_info)
                   (di_validation_source data_info) (di_validation_target data_info)
                   vocab_source vocab_target
                   batch_size fill_up max_seq_len_source max_seq_len_target
                   (negb (truthy no_bucketing)) bucket_width) ;;
  ret (max_seq_len_source, iters).

(** Lines 194-205: learning rate scheduling. *)
Definition learning_rate_scheduling (args : dict) (training_state_dir : string)
    (resume_training : bool) : M (option Scheduler) :=
  half_life <- attr args "learning_rate_half_life" ;;
  learning_rate_half_life <- lift (none_if_negative half_life) ;;
  if negb resume_training then
    scheduler_type <- attr args "learning_rate_scheduler_type" ;;
    checkpoint_frequency <- attr args "checkpoint_frequency" ;;
    reduce_factor <- attr args "learning_rate_reduce_factor" ;;
    reduce_num_not_improved <- attr args "learning_rate_reduce_num_not_improved" ;;
    call (get_lr_scheduler scheduler_type checkpoint_frequency learning_rate_half_life
                           reduce_factor reduce_num_not_improved)
  else
    fp <- open_read (os_path_join training_state_dir SCHEDULER_STATE_NAME) ;;
    pickle_load fp.

(** Lines 207-267: model configuration. *)
Definition model_configuration (args : dict) (vocab_source_size vocab_target_size : nat)
    (max_seq_len_source : value) : M ModelConfig :=
  sub <- attr args "num_embed_source" ;;
  num_embed_source <-
    (if is_none sub then attr args "num_embed" else attr args "num_embed_source") ;;
  sub <- attr args "num_embed_target" ;;
  num_embed_target <-
    (if is_none sub then attr args "num_embed" else attr args "num_embed_target") ;;

  cell_type <- attr args "rnn_cell_type" ;;
  num_hidden <- attr args "rnn_num_hidden" ;;
  num_layers <- attr args "rnn_num_layers" ;;
  dropout <- attr args "dropout" ;;
  residual <- attr args "rnn_residual_connections" ;;
  forget_bias <- attr args "rnn_forget_bias" ;;
  let config_rnn := {| rnn_cell_type := cell_type; rnn_num_hidden := num_hidden;
                       rnn_num_layers := num_layers; rnn_dropout := dropout;
                       rnn_residual := residual; rnn_forget_bias := forget_bias |} in
  new (NewRNNConfig config_rnn) ;;;

  encoder <- attr args "encoder" ;;
  config_conv <-
    (if py_eqb encoder (VStr RNN_WITH_CONV_EMBED_NAME) then
       max_filter_width <- attr args "conv_embed_max_filter_width" ;;
       num_filters <- attr args "conv_embed_num_filters" ;;
       pool_stride <- attr args "conv_embed_pool_stride" ;;
       num_highway_layers <- attr args "conv_embed_num_highway_layers" ;;
       dropout <- attr args "dropout" ;;
       let c := {| conv_num_embed := num_embed_source;
                   conv_max_filter_width := max_filter_width;
                   conv_num_filters := num_filters;
                   conv_pool_stride := pool_stride;
                   conv_num_highway_layers := num_highway_layers;
                   conv_dropout := dropout |} in
       new (NewConvolutionalEmbeddingConfig c) ;;;
       ret (Some c)
     else ret None) ;;

  let config_encoder := {| enc_vocab_size := vocab_source_size;
                           enc_num_embed := num_embed_source;
                           enc_rnn_config := config_rnn;
                           enc_conv_config := config_conv |} in
  new (NewRecurrentEncoderConfig config_encoder) ;;;

  dropout <- attr args "dropout" ;;
  weight_tying <- attr args "weight_tying" ;;
  context_gating <- attr args "context_gating" ;;
  layer_normalization <- attr args "layer_normalization" ;;
  let config_decoder := {| dec_vocab_size := vocab_target_size;
                           dec_num_embed := num_embed_target;
                           dec_rnn_config := config_rnn;
                           dec_dropout := dropout;
                           dec_weight_tying := weight_tying;
                           dec_context_gating := context_gating;
                           dec_layer_normalization := layer_normalization |} in
  new (NewRecurrentDecoderConfig config_decoder) ;;;

  sub <- attr args "attention_num_hidden" ;;
  attention_num_hidden <-
    (if negb (truthy sub) then attr args "rnn_num_hidden"
     else attr args "attention_num_hidden") ;;
  attention_type <- attr args "attention_type" ;;
  config_coverage <-
    (if py_eqb attention_type (VStr "coverage") then
       coverage_type <- attr args "attention_coverage_type" ;;
       coverage_num_hidden <- attr args "attention_coverage_num_hidden" ;;
       layer_normalization <- attr args "layer_normalization" ;;
       let c := {| cov_type := coverage_type; cov_num_hidden := coverage_num_hidden;
                   cov_layer_normalization := layer_normalization |} in
       new (NewCoverageConfig c) ;;;
       ret (Some c)
     else ret None) ;;
  attention_type <- attr args "attention_type" ;;
  input_previous_word <- attr args "attention_use_prev_word" ;;
  layer_normalization <- attr args "layer_normalization" ;;
  let config_attention := {| att_type := attention_type;
                             att_num_hidden := attention_num_hidden;
                             att_input_previous_word := input_previous_word;
                             att_rnn_num_hidden := rnn_num_hidden config_rnn;
                             att_layer_normalization := layer_normalization;
                             att_config_coverage := config_coverage |} in
  new (NewAttentionConfig config_attention) ;;;

  loss <- attr args "loss" ;;
  normalize <- attr args "normalize_loss" ;;
  alpha <- attr args "smoothed_cross_entropy_alpha" ;;
  let config_loss := {| loss_type := loss; loss_vocab_size := vocab_target_size;
                        loss_normalize := normalize;
                        loss_smoothed_cross_entropy_alpha := alpha |} in
  new (NewLossConfig config_loss) ;;;

  lexical <- attr args "lexical_bias" ;;
  learn_lexical <- attr args "learn_lexical_bias" ;;
  let model_config := {| max_seq_len := max_seq_len_source;
                         vocab_source_size := vocab_source_size;
                         vocab_target_size := vocab_target_size;
                         config_encoder := config_encoder;
                         config_decoder := config_decoder;
                         config_attention := config_attention;
                         config_loss := config_loss;
                         lexical_bias := lexical;
                         learn_lexical_bias := learn_lexical |} in
  new (NewModelConfig model_config) ;;;
  emit (EvFreeze model_config) ;;;
  ret model_config.

(** Lines 269-284: create training model. *)
Definition create_training_model (args : dict) (training_state_dir : string)
    (resume_training : bool) (model_config : ModelConfig) (context : list device)
    (train_iter : DataIter) (lr_scheduler_instance : option Scheduler) : M TrainingModel :=
  use_fused_rnn <- attr args "use_fused_rnn" ;;
  no_bucketing <- attr args "no_bucketing" ;;
  training_model <- call (new_TrainingModel model_config context train_iter use_fused_rnn
                                            (negb (truthy no_bucketing))
                                            lr_scheduler_instance) ;;
  (if resume_training then
     logger Info "Found partial training in directory %s. Resuming from saved state."
            [LStr training_state_dir] ;;;
     call (load_params_from_file training_model
             (VStr (os_path_join training_state_dir TRAINING_STATE_PARAMS_NAME)))
   else
     params <- attr args "params" ;;
     if truthy params then
       params <- attr args "params" ;;
       logger Info "Training will initialize from parameters loaded from '%s'" [LVal params] ;;;
       params <- attr args "params" ;;
       call (load_params_from_file training_model params)
     else ret tt) ;;;
  ret training_model.

(** Lines 286-289. *)
Definition make_initializer (args : dict) (vocab_source vocab_target : Vocab) : M Initializer :=
  lexical <- attr args "lexical_bias" ;;
  lexicon_array <-
    (if truthy lexical then
       lexical <- attr args "lexical_bias" ;;
       lex <- call (initialize_lexicon lexical vocab_source vocab_target) ;;
       ret (Some lex)
     else ret None) ;;
  rnn_h2h_init <- attr args "rnn_h2h_init" ;;
  call (get_initializer rnn_h2h_init lexicon_array).

(** Lines 292-307: the optimizer parameters. *)
Definition make_optimizer_params (args : dict) (lr_scheduler_instance : option Scheduler)
    : M (gmap string param) :=
  weight_decay <- attr args "weight_decay" ;;
  initial_learning_rate <- attr args "initial_learning_rate" ;;
  let optimizer_params : gmap string param :=
    <["learning_rate" := PValue initial_learning_rate]> (<["wd" := PValue weight_decay]> ∅) in
  let optimizer_params :=
    match lr_scheduler_instance with
    | Some s => <["lr_scheduler" := PScheduler s]> optimizer_params
    | None => optimizer_params
    end in
  requested <- attr args "clip_gradient" ;;
  clip_gradient <- lift (none_if_negative requested) ;;
  let optimizer_params :=
    if negb (is_none clip_gradient)
    then <["clip_gradient" := PValue clip_gradient]> optimizer_params
    else optimizer_params in
  momentum <- attr args "momentum" ;;
  optimizer_params <-
    (if negb (is_none momentum) then
       momentum <- attr args "momentum" ;;
       ret (<["momentum" := PValue momentum]> optimizer_params)
     else ret optimizer_params) ;;
  normalize_loss <- attr args "normalize_loss" ;;
  if truthy normalize_loss then
    ret (<["rescale_grad" := PValue (VFloat float_one)]> optimizer_params)
  else
    batch_size <- attr args "batch_size" ;;
    rescale <- lift (float_truediv float_one batch_size) ;;
    ret (<["rescale_grad" := PValue rescale]> optimizer_params).

(** Lines 136-323: the body of the [with ExitStack()] block. *)
Definition train (args : dict) (output_folder training_state_dir : string)
    (resume_training : bool) : M unit :=
  context <- device_context args ;;
  vocabs <- load_or_create_vocabs args output_folder resume_training ;;
  let vocab_source := vocabs.1 in
  let vocab_target := vocabs.2 in
  let vocab_source_size := size vocab_source in
  let vocab_target_size := size vocab_target in
  logger Info "Vocabulary sizes: source=%d target=%d"
         [LNat vocab_source_size; LNat vocab_target_size] ;;;
  data_info <- make_data_info args ;;
  data <- create_data_iters args data_info vocab_source vocab_target ;;
  let max_seq_len_source := data.1 in
  let train_iter := data.2.1 in
  let eval_iter := data.2.2 in
  lr_scheduler_instance <- learning_rate_scheduling args training_state_dir resume_training ;;
  model_config <- model_configuration args vocab_source_size vocab_target_size
                                      max_seq_len_source ;;
  training_model <- create_training_model args training_state_dir resume_training
                                          model_config context train_iter
                                          lr_scheduler_instance ;;
  weight_initializer <- make_initializer args vocab_source vocab_target ;;
  optimizer <- attr args "optimizer" ;;
  optimizer_params <- make_optimizer_params args lr_scheduler_instance ;;
  logger Info "Optimizer: %s" [LVal optimizer] ;;;
  logger Info "Optimizer Parameters: %s" [LParams optimizer_params] ;;;
  keep_last_params <- attr args "keep_last_params" ;;
  metrics <- attr args "metrics" ;;
  max_updates <- attr args "max_updates" ;;
  checkpoint_frequency <- attr args "checkpoint_frequency" ;;
  optimized_metric <- attr args "optimized_metric" ;;
  max_num_checkpoint_not_improved <- attr args "max_num_checkpoint_not_improved" ;;
  min_num_epochs <- attr args "min_num_epochs" ;;
  monitor_bleu <- attr args "monitor_bleu" ;;
  use_tensorboard <- attr args "use_tensorboard" ;;
  call (fit training_model train_iter eval_iter
          {| fit_output_folder := output_folder;
             fit_max_params_files_to_keep := keep_last_params;
             fit_metrics := metrics;
             fit_initializer := weight_initializer;
             fit_max_updates := max_updates;
             fit_checkpoint_frequency := checkpoint_frequency;
             fit_optimizer := optimizer;
             fit_optimizer_params := optimizer_params;
             fit_optimized_metric := optimized_metric;
             fit_max_num_not_improved := max_num_checkpoint_not_improved;
             fit_min_num_epochs := min_num_epochs;
             fit_monitor_bleu := monitor_bleu;
             fit_use_tensorboard := use_tensorboard |}).

(** Lines 72-323: [main], after [args = params.parse_args()]. *)
Definition main (args : dict) : M unit :=
  preflight args ;;;
  folder <- check_output_folder args ;;
  let output_folder := folder.1.1 in
  let training_state_dir := folder.1.2 in
  let resume_training := folder.2 in
  log_and_save_args args output_folder ;;;
  with_exit_stack (train args output_folder training_state_dir resume_training).

(** A run of the program from a file system: the trace starts empty. *)
Definition initial_state (f : filesystem) : state :=
  {| fs := f; trace := []; exit_stack := [] |}.

Definition run {A} (m : M A) (f : filesystem) : result A * state :=
  m (initial_state f).

(** ** The specification's side

    Definitions that follow the words of the specification, to be compared
    with what [main] does. *)

(** 3 DATA MODEL, ResumeDecision. *)
Inductive ResumeDecision :=
| FreshStart
| Resume
| Refuse
| AbortIncompatible (diffs : gset string).

(** 4.1 step 3b: a field on which the two dictionaries disagree is a key
    missing from either side or mapped to different values. *)
Definition disagree (current persisted : dict) (k : string) : bool :=
  match current !! k, persisted !! k with
  | Some v, Some w => py_neb v w
  | None, None => false
  | _, _ => true
  end.

Definition spec_differing_fields (current persisted : dict) : gset string :=
  filter (fun k => disagree current persisted k = true) (dom current ∪ dom persisted).

(** 4.1 step 3c: without the resumption-neutral fields. *)
Definition spec_identity_diffs (current persisted : dict) : gset string :=
  spec_differing_fields current persisted ∖ list_to_set ARGS_MAY_DIFFER.

(** 4.1 step 3d: the two device-id lists have the same length. *)
Definition same_device_count (current persisted : dict) : bool :=
  match current !! "device_ids" ≫= has_len, persisted !! "device_ids" ≫= has_len with
  | Some n, Some m => Nat.eqb n m
  | _, _ => false
  end.

Definition spec_remaining_diffs (current persisted : dict) : gset string :=
  let diffs := spec_identity_diffs current persisted in
  if bool_decide ("device_ids" ∈ diffs) && same_device_count current persisted
  then diffs ∖ {["device_ids"]} else diffs.

(** Whenever [device_ids] is among the fields that differ, both
    dictionaries have it, with a value that has a length. *)
Definition device_ids_sized (current persisted : dict) : Prop :=
  "device_ids" ∈ spec_identity_diffs current persisted ->
  is_Some (current !! "device_ids" ≫= has_len) /\
  is_Some (persisted !! "device_ids" ≫= has_len).

(** 4.1 step 3e. *)
Definition spec_compare (current persisted : dict) : ResumeDecision :=
  let diffs := spec_remaining_diffs current persisted in
  if decide (diffs = ∅) then Resume else AbortIncompatible diffs.

(** 4.1, the whole algorithm, on the request and the file system it finds.
    [None] where the specification is silent: a request without an output
    path or an overwrite flag, a snapshot that cannot be loaded. *)
Definition spec_decide (args : dict) (f : filesystem) : option ResumeDecision :=
  match args !! "output" with
  | Some (VStr output) =>
      let output_folder := abspath output in
      match f !! output_folder with
      | None => Some FreshStart
      | Some _ =>
          match args !! "overwrite_output" with
          | None => None
          | Some overwrite =>
              if truthy overwrite then Some FreshStart
              else
                match f !! os_path_join output_folder TRAINING_STATE_DIRNAME with
                | None => Some Refuse
                | Some _ =>
                    match f !! os_path_join output_folder ARGS_STATE_NAME with
                    | Some (File (CJson persisted)) => Some (spec_compare args persisted)
                    | _ => None
                    end
                end
          end
      end
  | _ => None
  end.

(** 4.1 step 3 applies: the output folder exists, contains the
    training-state marker, overwrite is not requested, and [persisted] is
    the snapshot found in [args.json]. (The request has the fields the check
    reads before it gets there.) *)
Definition comparing (args persisted : dict) (f : filesystem) : Prop :=
  is_Some (args !! "quiet") /\
  exists output overwrite,
    args !! "output" = Some (VStr output) /\
    args !! "overwrite_output" = Some overwrite /\
    truthy overwrite = false /\
    is_Some (f !! abspath output) /\
    is_Some (f !! os_path_join (abspath output) TRAINING_STATE_DIRNAME) /\
    f !! os_path_join (abspath output) ARGS_STATE_NAME = Some (File (CJson persisted)).


(** How a decision shows in what [check_output_folder] returns and logs:
    the flag [resume_training] of a normal return, or the error report
    before [sys.exit(1)]. The names of an [AbortIncompatible] are in the
    report in some order, each once. *)
Definition decided (d : ResumeDecision)
    (out : result (string * string * bool) * state) : Prop :=
  match d with
  | FreshStart => exists o t, out.1 = Ok (o, t, false)
  | Resume => exists o t, out.1 = Ok (o, t, true)
  | Refuse =>
      out.1 = Raise (SystemExit 1) /\
      exists before o,
        trace out.2 =
          (before ++
           [EvLog Error "Refusing to overwrite existing output folder %s." [LStr o]])%list
  | AbortIncompatible diffs =>
      out.1 = Raise (SystemExit 1) /\
      exists before names,
        NoDup names /\ (forall k, k ∈ names <-> k ∈ diffs) /\
        trace out.2 =
          (before ++
           [EvLog Error "Mismatch in arguments for training continuation." [];
            EvLog Error "Differing arguments: %s." [LStr (String.concat ", " names)]])%list
  end.

(** ** Predicates on the events of a run *)

(** An event other than the construction of a [ModelConfig]. *)
Definition not_model_config (e : event) : Prop :=
  match e with
  | EvNew (NewModelConfig _) => False
  | _ => True
  end.

(** What lines 292-307 put under the keys clip_gradient, momentum and
    rescale_grad. *)
Definition optimizer_params_ok (args : dict) (p : gmap string param) : Prop :=
  (exists requested below,
     args !! "clip_gradient" = Some requested /\
     lt_int requested 0 = Ok below /\
     p !! "clip_gradient" = if below then None else Some (PValue requested)) /\
  (exists momentum,
     args !! "momentum" = Some momentum /\
     p !! "momentum" = if is_none momentum then None else Some (PValue momentum)) /\
  (exists normalize_loss,
     args !! "normalize_loss" = Some normalize_loss /\
     if truthy normalize_loss
     then p !! "rescale_grad" = Some (PValue (VFloat float_one))
     else exists batch_size rescale,
         args !! "batch_size" = Some batch_size /\
         float_truediv float_one batch_size = Ok rescale /\
         p !! "rescale_grad" = Some (PValue rescale)).

(** An event that is not the handoff, or hands over optimizer parameters
    as lines 292-307 make them. *)
Definition handoff_ok (args : dict) (e : event) : Prop :=
  match e with
  | EvCall c =>
      match c with
      | fit _ _ _ kw => optimizer_params_ok args (fit_optimizer_params kw)
      | _ => True
      end
  | _ => True
  end.


(** What the trace holds before the [with] block: seeding, logging. *)
Definition startup_event (e : event) : Prop :=
  match e with
  | EvCall c =>
      match c with
      | np_random_seed _ | random_seed _ | mx_random_seed _ => True
      | _ => False
      end
  | EvSetupLogger _ _ _ | EvLog _ _ _ | EvLogSockeyeVersion => True
  | _ => False
  end.

(** The scheduler of a fresh start: what [lr_scheduler.get_lr_scheduler]
    returns for the arguments of the request. *)
Definition built_anew (args : dict) (lr : option Scheduler) : Prop :=
  exists scheduler_type checkpoint_frequency half_life learning_rate_half_life
         reduce_factor reduce_num_not_improved,
    args !! "learning_rate_scheduler_type" = Some scheduler_type /\
    args !! "checkpoint_frequency" = Some checkpoint_frequency /\
    args !! "learning_rate_half_life" = Some half_life /\
    none_if_negative half_life = Ok learning_rate_half_life /\
    args !! "learning_rate_reduce_factor" = Some reduce_factor /\
    args !! "learning_rate_reduce_num_not_improved" = Some reduce_num_not_improved /\
    respond _ (get_lr_scheduler scheduler_type checkpoint_frequency
                 learning_rate_half_life reduce_factor reduce_num_not_improved) = Ok lr.



(** ** Further predicates on runs *)

(** The seeding of one of the random number generators. *)
Definition seeding_event (e : event) : Prop :=
  match e with
  | EvCall c =>
      match c with
      | np_random_seed _ | random_seed _ | mx_random_seed _ => True
      | _ => False
      end
  | _ => False
  end.

(** The GPU ids an event puts on the exit stack: those [acquire_gpus]
    returns, when it returns. *)
Definition acquired (e : event) : option (list Z) :=
  match e with
  | EvCall c =>
      match c with
      | acquire_gpus device_ids lock_dir =>
          match respond _ (acquire_gpus device_ids lock_dir) with
          | Ok ids => Some ids
          | Raise _ => None
          end
      | _ => None
      end
  | _ => None
  end.

(** The locks held after the events of [tr], most recent first. *)
Definition held (tr : list event) : list (list Z) := rev (omap acquired tr).

(** The exit stack holds what the trace says was acquired. *)
Definition tracked (st : state) : Prop := exit_stack st = held (trace st).

Definition tracks {A} (m : M A) : Prop :=
  forall st, tracked st -> tracked (m st).2.

Definition not_release (e : event) : Prop :=
  match e with
  | EvReleaseGpus _ => False
  | _ => True
  end.

(** An event that has nothing to do with GPUs. *)
Definition no_gpu_event (e : event) : Prop :=
  match e with
  | EvCall c =>
      match c with
      | get_num_gpus | expand_requested_device_ids _ | acquire_gpus _ _ => False
      | _ => True
      end
  | EvReleaseGpus _ => False
  | _ => True
  end.

(** With device locking disabled: no lock is taken or released, and the
    device ids come from [expand_requested_device_ids] on the ids of the
    request. *)
Definition no_lock_event (args : dict) (e : event) : Prop :=
  match e with
  | EvCall c =>
      match c with
      | acquire_gpus _ _ => False
      | expand_requested_device_ids device_ids => args !! "device_ids" = Some device_ids
      | _ => True
      end
  | EvReleaseGpus _ => False
  | _ => True
  end.

(** On resume: no vocabulary is built, loaded from a user's file or
    written; the two vocabularies come from the output folder. *)
Definition reloads_vocabularies (o : string) (e : event) : Prop :=
  match e with
  | EvCall c =>
      match c with
      | vocab_build_from_path _ _ _ | vocab_from_json _ | vocab_to_json _ _ => False
      | vocab_from_json_or_pickle path =>
          path = os_path_join o VOCAB_SRC_NAME \/ path = os_path_join o VOCAB_TRG_NAME
      | _ => True
      end
  | _ => True
  end.

(** The vocabulary of one side on a fresh start: loaded from the file
    given under [existing], or, when that is None, built from the data
    under [data] with the number of words given under [num_words] (under
    num_words when that is None). *)
Definition vocabulary_of (args : dict) (existing data num_words : string) (v : Vocab) : Prop :=
  exists existing_path data_path given requested min_count,
    args !! existing = Some existing_path /\
    args !! data = Some data_path /\
    args !! num_words = Some given /\
    (if is_none given then args !! "num_words" = Some requested else given = requested) /\
    args !! "word_min_count" = Some min_count /\
    respond _ (if is_none existing_path
               then vocab_build_from_path data_path requested min_count
               else vocab_from_json existing_path) = Ok v.

(** On a fresh start: nothing is read from the output folder; a vocabulary
    is built only for a side without a vocabulary file; what is written,
    and what the data iterators get, are the vocabularies obtained. *)
Definition creates_vocabularies (args : dict) (o : string) (e : event) : Prop :=
  match e with
  | EvCall c =>
      match c with
      | vocab_from_json_or_pickle _ => False
      | vocab_build_from_path data_path _ _ =>
          (args !! "source" = Some data_path /\ args !! "source_vocab" = Some VNone) \/
          (args !! "target" = Some data_path /\ args !! "target_vocab" = Some VNone)
      | vocab_from_json path =>
          path <> VNone /\
          (args !! "source_vocab" = Some path \/ args !! "target_vocab" = Some path)
      | vocab_to_json v path =>
          (path = (os_path_join o VOCAB_SRC_NAME ++ JSON_SUFFIX)%string /\
           vocabulary_of args "source_vocab" "source" "num_words_source" v) \/
          (path = (os_path_join o VOCAB_TRG_NAME ++ JSON_SUFFIX)%string /\
           vocabulary_of args "target_vocab" "target" "num_words_target" v)
      | get_training_data_iters _ _ _ _ vocab_source vocab_target _ _ _ _ _ _ =>
          vocabulary_of args "source_vocab" "source" "num_words_source" vocab_source /\
          vocabulary_of args "target_vocab" "target" "num_words_target" vocab_target
      | _ => True
      end
  | _ => True
  end.

(** Parameters are loaded from the training state on resume, from the file
    of the request on a fresh start that names one, and not otherwise. *)
Definition loads_parameters (args : dict) (t : string) (resume : bool) (e : event) : Prop :=
  match e with
  | EvCall c =>
      match c with
      | load_params_from_file _ fname =>
          if resume then fname = VStr (os_path_join t TRAINING_STATE_PARAMS_NAME)
          else args !! "params" = Some fname /\ truthy fname = true
      | _ => True
      end
  | _ => True
  end.

(** What the weight initializer is made from. *)
Definition lexicon_of (args : dict) (lexicon : option Lexicon) : Prop :=
  exists lexical,
    args !! "lexical_bias" = Some lexical /\
    match lexicon with
    | Some lex =>
        truthy lexical = true /\
        exists vocab_source vocab_target,
          respond _ (initialize_lexicon lexical vocab_source vocab_target) = Ok lex
    | None => truthy lexical = false
    end.

Definition initializes (args : dict) (e : event) : Prop :=
  match e with
  | EvCall c =>
      match c with
      | initialize_lexicon lexical _ _ =>
          args !! "lexical_bias" = Some lexical /\ truthy lexical = true
      | get_initializer rnn_h2h_init lexicon =>
          args !! "rnn_h2h_init" = Some rnn_h2h_init /\ lexicon_of args lexicon
      | _ => True
      end
  | _ => True
  end.

(** The keyword arguments of [fit], from the request. *)
Definition handed_over (args : dict) (o : string) (kw : fit_kwargs) : Prop :=
  fit_output_folder kw = o /\
  args !! "keep_last_params" = Some (fit_max_params_files_to_keep kw) /\
  args !! "metrics" = Some (fit_metrics kw) /\
  args !! "max_updates" = Some (fit_max_updates kw) /\
  args !! "checkpoint_frequency" = Some (fit_checkpoint_frequency kw) /\
  args !! "optimizer" = Some (fit_optimizer kw) /\
  args !! "optimized_metric" = Some (fit_optimized_metric kw) /\
  args !! "max_num_checkpoint_not_improved" = Some (fit_max_num_not_improved kw) /\
  args !! "min_num_epochs" = Some (fit_min_num_epochs kw) /\
  args !! "monitor_bleu" = Some (fit_monitor_bleu kw) /\
  args !! "use_tensorboard" = Some (fit_use_tensorboard kw).

Definition hands_over (args : dict) (o : string) (e : event) : Prop :=
  match e with
  | EvCall c =>
      match c with
      | fit _ _ _ kw => handed_over args o kw
      | _ => True
      end
  | _ => True
  end.

(** The absolute path of the file named under [name]. *)
Definition absolute (args : dict) (name path : string) : Prop :=
  exists given, args !! name = Some (VStr given) /\ path = abspath given.

Definition bucketing_of (args : dict) (bucketing : bool) : Prop :=
  exists no_bucketing,
    args !! "no_bucketing" = Some no_bucketing /\ bucketing = negb (truthy no_bucketing).

Definition data_paths (args : dict) (d : DataInfo) : Prop :=
  absolute args "source" (di_source d) /\
  absolute args "target" (di_target d) /\
  absolute args "validation_source" (di_validation_source d) /\
  absolute args "validation_target" (di_validation_target d).

(** The data iterators read the absolute paths of the four data files;
    they and the training model get the same bucketing flag. *)
Definition feeds_data (args : dict) (e : event) : Prop :=
  match e with
  | EvCall c =>
      match c with
      | get_training_data_iters source target validation_source validation_target _ _
                                batch_size fill_up _ _ bucketing bucket_width =>
          absolute args "source" source /\
          absolute args "target" target /\
          absolute args "validation_source" validation_source /\
          absolute args "validation_target" validation_target /\
          args !! "batch_size" = Some batch_size /\
          args !! "fill_up" = Some fill_up /\
          args !! "bucket_width" = Some bucket_width /\
          bucketing_of args bucketing
      | new_TrainingModel _ _ _ fused bucketing _ =>
          args !! "use_fused_rnn" = Some fused /\ bucketing_of args bucketing
      | _ => True
      end
  | EvNew o =>
      match o with
      | NewDataInfo d => data_paths args d
      | _ => True
      end
  | _ => True
  end.

(** A model configuration whose parts agree with each other and with the
    request. *)
Definition coherent (args : dict) (c : ModelConfig) : Prop :=
  enc_rnn_config (config_encoder c) = dec_rnn_config (config_decoder c) /\
  enc_vocab_size (config_encoder c) = vocab_source_size c /\
  dec_vocab_size (config_decoder c) = vocab_target_size c /\
  loss_vocab_size (config_loss c) = vocab_target_size c /\
  att_rnn_num_hidden (config_attention c) = rnn_num_hidden (enc_rnn_config (config_encoder c)) /\
  args !! "dropout" = Some (rnn_dropout (enc_rnn_config (config_encoder c))) /\
  args !! "dropout" = Some (dec_dropout (config_decoder c)) /\
  (exists encoder,
     args !! "encoder" = Some encoder /\
     match enc_conv_config (config_encoder c) with
     | Some conv =>
         py_eqb encoder (VStr RNN_WITH_CONV_EMBED_NAME) = true /\
         conv_num_embed conv = enc_num_embed (config_encoder c) /\
         args !! "dropout" = Some (conv_dropout conv)
     | None => py_eqb encoder (VStr RNN_WITH_CONV_EMBED_NAME) = false
     end) /\
  args !! "attention_type" = Some (att_type (config_attention c)) /\
  match att_config_coverage (config_attention c) with
  | Some coverage =>
      py_eqb (att_type (config_attention c)) (VStr "coverage") = true /\
      cov_layer_normalization coverage = att_layer_normalization (config_attention c)
  | None => py_eqb (att_type (config_attention c)) (VStr "coverage") = false
  end /\
  (exists requested,
     args !! "attention_num_hidden" = Some requested /\
     if truthy requested then att_num_hidden (config_attention c) = requested
     else args !! "rnn_num_hidden" = Some (att_num_hidden (config_attention c))).

Definition configures_coherently (args : dict) (e : event) : Prop :=
  match e with
  | EvNew o =>
      match o with
      | NewModelConfig c => coherent args c
      | _ => True
      end
  | EvFreeze c => coherent args c
  | EvCall c =>
      match c with
      | new_TrainingModel config _ _ _ _ _ => coherent args config
      | _ => True
      end
  | _ => True
  end.

(** An event other than the seeding of a random number generator. *)
Definition past_seeding (e : event) : Prop :=
  match e with
  | EvCall c =>
      match c with
      | np_random_seed _ | random_seed _ | mx_random_seed _ => False
      | _ => True
      end
  | _ => True
  end.

Definition fused_message : string := "GPU required for FusedRNN cells".

Definition metric_message : string :=
  "Must optimize either BLEU or one of tracked metrics (--metrics)".

(** The keys [optimizer_params] can have. *)
Definition optimizer_keys : gset string :=
  {["wd"; "learning_rate"; "lr_scheduler"; "clip_gradient"; "momentum"; "rescale_grad"]}.

(** The file system [g] is [f] everywhere but in the folder [o] and at
    the path [snapshot], and for directories above [o] that [f] did not
    have. *)
Definition confined (f : filesystem) (o snapshot : string) (g : filesystem) : Prop :=
  forall q, within o q = false -> q <> snapshot ->
    g !! q = f !! q \/ (q ∈ dirs_above o /\ f !! q = None /\ g !! q = Some Dir).

(** The devices of lines 137-152: the CPU, or the GPUs whose ids
    [expand_requested_device_ids] or [acquire_gpus] returned for the
    device ids of the request, once [get_num_gpus] has found one. *)
Definition context_of (args : dict) (context : list device) : Prop :=
  exists use_cpu,
    args !! "use_cpu" = Some use_cpu /\
    if truthy use_cpu then context = [cpu]
    else
      exists num_gpus ids locking device_ids,
        respond _ get_num_gpus = Ok num_gpus /\
        (1 <= num_gpus)%Z /\
        context = map gpu ids /\
        args !! "disable_device_locking" = Some locking /\
        args !! "device_ids" = Some device_ids /\
        if truthy locking
        then respond _ (expand_requested_device_ids device_ids) = Ok ids
        else exists lock_dir,
            args !! "lock_dir" = Some lock_dir /\
            respond _ (acquire_gpus device_ids lock_dir) = Ok ids.

Definition trains_on (args : dict) (e : event) : Prop :=
  match e with
  | EvCall c =>
      match c with
      | new_TrainingModel _ context _ _ _ _ => context_of args context
      | _ => True
      end
  | _ => True
  end.

(** The two vocabularies of a run: read back from the output folder on
    resume, obtained as [vocabulary_of] has it on a fresh start. *)
Definition vocabularies_of (args : dict) (o : string) (resume : bool)
    (vocab_source vocab_target : Vocab) : Prop :=
  if resume then
    respond _ (vocab_from_json_or_pickle (os_path_join o VOCAB_SRC_NAME)) = Ok vocab_source /\
    respond _ (vocab_from_json_or_pickle (os_path_join o VOCAB_TRG_NAME)) = Ok vocab_target
  else
    vocabulary_of args "source_vocab" "source" "num_words_source" vocab_source /\
    vocabulary_of args "target_vocab" "target" "num_words_target" vocab_target.

(** A model configuration with the sizes of the two vocabularies. *)
Definition sized_by (args : dict) (o : string) (resume : bool) (c : ModelConfig) : Prop :=
  exists vocab_source vocab_target,
    vocabularies_of args o resume vocab_source vocab_target /\
    vocab_source_size c = size vocab_source /\
    vocab_target_size c = size vocab_target.

Definition sized_by_vocabularies (args : dict) (o : string) (resume : bool)
    (e : event) : Prop :=
  match e with
  | EvNew o' =>
      match o' with
      | NewModelConfig c => sized_by args o resume c
      | _ => True
      end
  | EvFreeze c => sized_by args o resume c
  | EvCall c =>
      match c with
      | get_training_data_iters _ _ _ _ vocab_source vocab_target _ _ _ _ _ _ =>
          vocabularies_of args o resume vocab_source vocab_target
      | initialize_lexicon _ vocab_source vocab_target =>
          vocabularies_of args o resume vocab_source vocab_target
      | new_TrainingModel config _ _ _ _ _ => sized_by args o resume config
      | _ => True
      end
  | _ => True
  end.

(** The scheduler of a run: unpickled from the scheduler file of the
    training state on resume, built anew on a fresh start. *)
Definition scheduler_of (args : dict) (seen : filesystem) (t : string) (resume : bool)
    (lr : option Scheduler) : Prop :=
  if resume then seen !! os_path_join t SCHEDULER_STATE_NAME = Some (File (CPickle lr))
  else built_anew args lr.

Definition shares_scheduler (args : dict) (seen : filesystem) (t : string) (resume : bool)
    (e : event) : Prop :=
  match e with
  | EvCall c =>
      match c with
      | new_TrainingModel _ _ _ _ _ lr => scheduler_of args seen t resume lr
      | fit _ _ _ kw =>
          exists lr, scheduler_of args seen t resume lr /\
                     fit_optimizer_params kw !! "lr_scheduler" = PScheduler <$> lr
      | _ => True
      end
  | _ => True
  end.

(** ** A program logic for [M]

    [hoare I P m Q]: run from a state whose file system satisfies [I], the
    program [m] leaves a file system that satisfies [I], adds to the trace
    only events that satisfy [P], and, if it returns, returns a value that
    satisfies [Q]. *)
Definition hoare {A} (I : filesystem -> Prop) (P : event -> Prop)
    (m : M A) (Q : A -> Prop) : Prop :=
  forall st, I (fs st) ->
    I (fs (m st).2) /\
    (exists evs, trace (m st).2 = (trace st ++ evs)%list /\ Forall P evs) /\
    (forall a, (m st).1 = Ok a -> Q a).

End Train.

Abbreviation filesystem := (gmap string node).

Notation "x <- m ;; k" := (bind m (fun x => k))
  (at level 100, m at next level, right associativity).
Notation "m ;;; k" := (bind m (fun _ => k))
  (at level 100, right associativity).

(** ** A sample request, environment and output folders *)

Module Sample.

Definition collaborators : Collaborators :=
  {| Scheduler := nat; DataIter := unit; TrainingModel := unit;
     Lexicon := unit; Initializer := unit |}.

#[local] Existing Instance collaborators.

Definition constants : Constants :=
  {| ARGS_MAY_DIFFER := ["overwrite_output"; "use_tensorboard"; "quiet"; "keep_last_params"];
     ARGS_STATE_NAME := "args.json";
     TRAINING_STATE_DIRNAME := "training_state";
     LOG_NAME := "log";
     VOCAB_SRC_NAME := "vocab.src";
     VOCAB_TRG_NAME := "vocab.trg";
     JSON_SUFFIX := ".json";
     SCHEDULER_STATE_NAME := "scheduler.pkl";
     TRAINING_STATE_PARAMS_NAME := "params";
     BLEU := "bleu";
     RNN_WITH_CONV_EMBED_NAME := "rnn-with-conv-embed" |}.

(** Collaborators that always return: one GPU, empty vocabularies,
    scheduler number 7 when one is built. *)
Definition answer (A : Type) (c : extcall A) : result A :=
  match c in extcall T return result T with
  | np_random_seed _ | random_seed _ | mx_random_seed _ => Ok tt
  | get_num_gpus => Ok 1%Z
  | expand_requested_device_ids _ => Ok [0%Z]
  | acquire_gpus _ _ => Ok [0%Z]
  | vocab_build_from_path _ _ _ | vocab_from_json _ | vocab_from_json_or_pickle _ =>
      Ok (∅ : gmap string Z)
  | vocab_to_json _ _ => Ok tt
  | get_training_data_iters _ _ _ _ _ _ _ _ _ _ _ _ => Ok (tt, tt)
  | get_lr_scheduler _ _ _ _ _ => Ok (Some 7)
  | new_TrainingModel _ _ _ _ _ _ => Ok tt
  | load_params_from_file _ _ => Ok tt
  | initialize_lexicon _ _ _ => Ok tt
  | get_initializer _ _ => Ok tt
  | fit _ _ _ _ => Ok tt
  end.

Definition environment : Environment :=
  {| abspath := fun s => "/work/" ++ s;
     argv := ["train.py"; "--use-cpu"];
     respond := answer |}.

#[local] Existing Instance constants.
#[local] Existing Instance environment.

Definition float (z : Z) : value := VFloat (float_of_int z).

(** A request for CPU training into the folder [model], batch size 64,
    without loss normalization. *)
Definition args : dict :=
  list_to_map
    [("seed", VInt 13); ("use_fused_rnn", VBool false); ("use_cpu", VBool true);
     ("rnn_residual_connections", VBool false); ("rnn_num_layers", VInt 1);
     ("optimized_metric", VStr "perplexity"); ("metrics", VList [VStr "perplexity"]);
     ("quiet", VBool false); ("output", VStr "model"); ("overwrite_output", VBool false);
     ("disable_device_locking", VBool false); ("device_ids", VList [VInt 0; VInt 1]);
     ("lock_dir", VStr "/tmp");
     ("num_words", VInt 50000); ("num_words_source", VNone);
     ("num_words_target", VInt 30000);
     ("source_vocab", VNone); ("target_vocab", VNone);
     ("source", VStr "train.src"); ("target", VStr "train.trg");
     ("validation_source", VStr "dev.src"); ("validation_target", VStr "dev.trg");
     ("word_min_count", VInt 1);
     ("max_seq_len", VInt 100); ("max_seq_len_source", VNone);
     ("max_seq_len_target", VNone);
     ("batch_size", VInt 64); ("fill_up", VStr "replicate");
     ("no_bucketing", VBool false); ("bucket_width", VInt 10);
     ("learning_rate_half_life", VInt 10);
     ("learning_rate_scheduler_type", VStr "plateau-reduce");
     ("checkpoint_frequency", VInt 1000); ("learning_rate_reduce_factor", float 1);
     ("learning_rate_reduce_num_not_improved", VInt 3);
     ("num_embed", VInt 512); ("num_embed_source", VNone); ("num_embed_target", VNone);
     ("rnn_cell_type", VStr "lstm"); ("rnn_num_hidden", VInt 1024);
     ("dropout", float 0); ("rnn_forget_bias", float 0);
     ("encoder", VStr "rnn"); ("conv_embed_max_filter_width", VInt 8);
     ("conv_embed_num_filters", VList [VInt 200]); ("conv_embed_pool_stride", VInt 5);
     ("conv_embed_num_highway_layers", VInt 4);
     ("weight_tying", VBool false); ("context_gating", VBool false);
     ("layer_normalization", VBool false);
     ("attention_num_hidden", VNone); ("attention_type", VStr "mlp");
     ("attention_coverage_type", VStr "count");
     ("attention_coverage_num_hidden", VInt 1);
     ("attention_use_prev_word", VBool false);
     ("loss", VStr "cross-entropy"); ("normalize_loss", VBool false);
     ("smoothed_cross_entropy_alpha", float 0);
     ("lexical_bias", VNone); ("learn_lexical_bias", VBool false);
     ("params", VNone); ("rnn_h2h_init", VStr "orthogonal");
     ("optimizer", VStr "adam"); ("weight_decay", float 0);
     ("initial_learning_rate", float 1); ("clip_gradient", float 1);
     ("momentum", VNone);
     ("keep_last_params", VInt (-1)); ("max_updates", VInt (-1));
     ("max_num_checkpoint_not_improved", VInt 8);
     ("min_num_epochs", VInt 0); ("monitor_bleu", VInt 0);
     ("use_tensorboard", VBool false)].

(** The snapshot of an earlier run of the same request, started with
    [--quiet] and on other devices. *)
Definition saved_args : dict :=
  <["quiet" := VBool true]> (<["device_ids" := VList [VInt 2; VInt 3]]> args).

(** The snapshot of a run started on three devices. *)
Definition saved_args_three_devices : dict :=
  <["device_ids" := VList [VInt 0; VInt 1; VInt 2]]> args.

(** The snapshot of a run with another vocabulary size. *)
Definition saved_args_other_vocabulary : dict :=
  <["num_words" := VInt 10000]> args.

(** A snapshot without the field device_ids. *)
Definition saved_args_without_device_ids : dict := delete "device_ids" args.

(** A snapshot without the field num_words. *)
Definition saved_args_without_num_words : dict := delete "num_words" args.

(** An output folder left by an interrupted run. *)
Definition interrupted (saved : dict) : filesystem :=
  <["/work" := Dir]>
    (<["/work/model" := Dir]>
       (<["/work/model/args.json" := File (CJson saved)]>
          (<["/work/model/training_state" := Dir]>
             (<["/work/model/training_state/scheduler.pkl" := File (CPickle (Some 3))]> ∅)))).

(** The same, with the scheduler file gone. *)
Definition interrupted_without_scheduler (saved : dict) : filesystem :=
  delete "/work/model/training_state/scheduler.pkl" (interrupted saved).

(** An output folder that exists and holds no training state. *)
Definition foreign : filesystem :=
  <["/work" := Dir]>
    (<["/work/model" := Dir]> (<["/work/model/notes.txt" := File CData]> ∅)).

(** The states of the sample run from [f] when [main] gets to the output
    folder and when it has decided. *)
Definition after_preflight (f : filesystem) : state := (run (preflight args) f).2.

Definition after_decision (f : filesystem) : state :=
  (check_output_folder args (after_preflight f)).2.

(** The sample request with residual connections and [layers] RNN layers. *)
Definition residual_args (layers : Z) : dict :=
  <["rnn_residual_connections" := VBool true]> (<["rnn_num_layers" := VInt layers]> args).

(** The field quiet of the snapshot in args.json. *)
Definition snapshot_quiet (f : filesystem) : option value :=
  match f !! "/work/model/args.json" with
  | Some (File (CJson saved)) => saved !! "quiet"
  | _ => None
  end.

(** The schedulers of a trace: the one each training model is made with,
    and [None] for each call that builds one or enters the training loop. *)
Definition schedulers_seen (tr : list event) : list (option nat) :=
  omap (fun e => match e with
                 | EvCall c =>
                     match c with
                     | new_TrainingModel _ _ _ _ _ lr => Some lr
                     | get_lr_scheduler _ _ _ _ _ => Some None
                     | fit _ _ _ _ => Some None
                     | _ => None
                     end
                 | _ => None
                 end) tr.

(** The float 2^52 * 2^-58: 1/64. *)
Definition one_over_64 : spec_float := S754_finite false 4503599627370496 (-58).

(** What the sample run from an empty file system hands to the training
    loop. *)
Definition handoff : fit_kwargs :=
  {| fit_output_folder := "/work/model";
     fit_max_params_files_to_keep := VInt (-1);
     fit_metrics := VList [VStr "perplexity"];
     fit_initializer := tt;
     fit_max_updates := VInt (-1);
     fit_checkpoint_frequency := VInt 1000;
     fit_optimizer := VStr "adam";
     fit_optimizer_params :=
       <["rescale_grad" := PValue (VFloat one_over_64)]>
         (<["clip_gradient" := PValue (float 1)]>
            (<["lr_scheduler" := PScheduler 7]>
               (<["learning_rate" := PValue (float 1)]>
                  (<["wd" := PValue (float 0)]> ∅))));
     fit_optimized_metric := VStr "perplexity";
     fit_max_num_not_improved := VInt 8;
     fit_min_num_epochs := VInt 0;
     fit_monitor_bleu := VInt 0;
     fit_use_tensorboard := VBool false |}.

(** The sample request on GPUs, with device locking disabled. *)
Definition unlocked_args : dict :=
  <["disable_device_locking" := VBool true]> (<["use_cpu" := VBool false]> args).

(** The sample request with fused RNN cells (and still on the CPU). *)
Definition fused_args : dict := <["use_fused_rnn" := VBool true]> args.

(** The sample request with [--overwrite-output]. *)
Definition overwrite_args : dict := <["overwrite_output" := VBool true]> args.

(** The sample request with a dropout that is not a number. *)
Definition nan_args : dict := <["dropout" := VFloat S754_nan]> args.

(** A file where the output folder should be. *)
Definition occupied : filesystem :=
  <["/work" := Dir]> (<["/work/model" := File CData]> ∅).

(** The folder of an interrupted run, its snapshot gone. *)
Definition interrupted_without_snapshot : filesystem :=
  delete "/work/model/args.json" (interrupted args).

(** A file of someone else. *)
Definition elsewhere : filesystem :=
  <["/home" := Dir]> (<["/home/notes.txt" := File CData]> ∅).


(** The model configuration of the sample request, over empty
    vocabularies. *)
Definition rnn_config : RNNConfig :=
  {| rnn_cell_type := VStr "lstm"; rnn_num_hidden := VInt 1024; rnn_num_layers := VInt 1;
     rnn_dropout := float 0; rnn_residual := VBool false; rnn_forget_bias := float 0 |}.

Definition model_config : ModelConfig :=
  {| max_seq_len := VInt 100;
     vocab_source_size := 0;
     vocab_target_size := 0;
     config_encoder :=
       {| enc_vocab_size := 0; enc_num_embed := VInt 512;
          enc_rnn_config := rnn_config; enc_conv_config := None |};
     config_decoder :=
       {| dec_vocab_size := 0; dec_num_embed := VInt 512; dec_rnn_config := rnn_config;
          dec_dropout := float 0; dec_weight_tying := VBool false;
          dec_context_gating := VBool false; dec_layer_normalization := VBool false |};
     config_attention :=
       {| att_type := VStr "mlp"; att_num_hidden := VInt 1024;
          att_input_previous_word := VBool false; att_rnn_num_hidden := VInt 1024;
          att_layer_normalization := VBool false; att_config_coverage := None |};
     config_loss :=
       {| loss_type := VStr "cross-entropy"; loss_vocab_size := 0;
          loss_normalize := VBool false; loss_smoothed_cross_entropy_alpha := float 0 |};
     lexical_bias := VNone;
     learn_lexical_bias := VBool false |}.

End Sample.

(** * Facts *)

Local Open Scope list_scope.

(** ** Python equality *)

Section PyFacts.

Lemma value_nested_ind (P : value -> Prop) :
  P VNone ->
  (forall b, P (VBool b)) ->
  (forall z, P (VInt z)) ->
  (forall f, P (VFloat f)) ->
  (forall s, P (VStr s)) ->
  (forall l, Forall P l -> P (VList l)) ->
  forall v, P v.
Proof.
  intros HN HB HI HF HS HL. fix IH 1.
  intros [ | b | z | f | s | l];
    [exact HN | apply HB | apply HI | apply HF | apply HS | ].
  apply HL. induction l as [ | a l IHl]; constructor; [apply IH | apply IHl].
Qed.

Lemma SFcompare_antisym (x y : spec_float) :
  SFcompare y x = option_map CompOpp (SFcompare x y).
Proof.
  destruct x as [sx | sx | | sx mx ex], y as [sy | sy | | sy my ey]; simpl;
    try reflexivity;
    try (destruct sx; reflexivity); try (destruct sy; reflexivity);
    try (destruct sx, sy; reflexivity).
  f_equal. destruct sx, sy; simpl; try reflexivity;
    rewrite (Z.compare_antisym ex ey); destruct (ex ?= ey)%Z; simpl; try reflexivity;
    rewrite ?CompOpp_involutive;
    first [ apply (Pos.compare_cont_antisym my mx Eq)
          | symmetry; apply (Pos.compare_cont_antisym mx my Eq) ].
Qed.

Lemma num_compare_antisym (a b : number) :
  num_compare b a = option_map CompOpp (num_compare a b).
Proof.
  destruct a as [x | x], b as [y | y]; simpl.
  - now rewrite (Z.compare_antisym x y).
  - reflexivity.
  - destruct (int_float_compare y x) as [[ | | ] | ]; reflexivity.
  - apply SFcompare_antisym.
Qed.

Lemma num_eqb_sym (a b : number) : num_eqb a b = num_eqb b a.
Proof.
  unfold num_eqb. rewrite (num_compare_antisym a b).
  destruct (num_compare a b) as [[ | | ] | ]; reflexivity.
Qed.

(** [==] on these values is symmetric. *)
Lemma py_eqb_sym (a b : value) : py_eqb a b = py_eqb b a.
Proof.
  revert b. induction a as [ | x | x | x | x | l IH] using value_nested_ind;
    intros [ | y | y | y | y | m]; simpl; try reflexivity;
    try apply num_eqb_sym.
  - apply String.eqb_sym.
  - revert m. induction IH as [ | a l Ha _ IHl]; intros [ | b m]; try reflexivity.
    now rewrite Ha, IHl.
Qed.

Lemma py_neb_sym (a b : value) : py_neb a b = py_neb b a.
Proof. unfold py_neb. now rewrite py_eqb_sym. Qed.

(** What [_dict_difference] collects. *)
Lemma elem_of_dict_difference (dict1 dict2 : dict) (k : string) :
  k ∈ _dict_difference dict1 dict2 <->
  exists v, dict1 !! k = Some v /\
            match dict2 !! k with None => True | Some v2 => py_neb v2 v = true end.
Proof.
  unfold _dict_difference.
  apply (map_fold_weak_ind
           (fun (r : gset string) (m : dict) =>
              k ∈ r <->
              exists v, m !! k = Some v /\
                        match dict2 !! k with None => True | Some v2 => py_neb v2 v = true end)).
  - split; [set_solver | intros (v & Hv & _); now rewrite lookup_empty in Hv].
  - intros i x m r Hi IH.
    destruct (decide (i = k)) as [-> | Hne].
    + rewrite lookup_insert_eq.
      destruct (dict2 !! k) as [v2 | ] eqn:E2.
      * destruct (py_neb v2 x) eqn:Ex.
        -- split; [intros _; eauto | set_solver].
        -- split.
           ++ intros Hr. apply IH in Hr as (v & Hv & _). congruence.
           ++ intros (v & Hv & Hne). congruence.
      * split; [intros _; eauto | set_solver].
    + rewrite lookup_insert_ne by done.
      destruct (match dict2 !! i with Some v2 => py_neb v2 x | None => true end);
        [ | exact IH].
      rewrite elem_of_union, elem_of_singleton. rewrite <- IH. naive_solver.
Qed.

End PyFacts.

(** ** The comparison of the arguments *)

Section Comparison.
Context `{Collaborators} `{Constants} `{!Environment}.

(** The union of the two one-sided differences is the set of fields on
    which the dictionaries disagree. *)
Lemma dict_differences_spec (current persisted : dict) :
  _dict_difference current persisted ∪ _dict_difference persisted current =
  spec_differing_fields current persisted.
Proof.
  apply set_eq. intros k. unfold spec_differing_fields.
  rewrite elem_of_union, elem_of_filter, elem_of_union, !elem_of_dom,
    !elem_of_dict_difference.
  unfold disagree.
  destruct (current !! k) as [v | ] eqn:Ec, (persisted !! k) as [w | ] eqn:Ep.
  - split.
    + intros [(? & [= <-] & Hne) | (? & [= <-] & Hne)]; (split; [ | eauto]);
        [now rewrite py_neb_sym | done].
    + intros [Hne _]. right. eauto.
  - split; [intros _; split; eauto | intros _; left; eauto].
  - split; [intros _; split; eauto | intros _; right; eauto].
  - split.
    + intros [(? & [=] & _) | (? & [=] & _)].
    + intros [[=] _].
Qed.

(** *** Running the primitives *)

Lemma bind_run {A B} (m : M A) (f : A -> M B) (st : state) :
  bind m f st =
  match (m st).1 with
  | Ok a => f a (m st).2
  | Raise e => (Raise e, (m st).2)
  end.
Proof. unfold bind. now destruct (m st) as [[a | e] st']. Qed.

Lemma ret_run {A} (a : A) (st : state) : ret a st = (Ok a, st).
Proof. reflexivity. Qed.

Lemma raise_run {A} (e : exn) (st : state) : raise (A := A) e st = (Raise e, st).
Proof. reflexivity. Qed.

Lemma sys_exit_run {A} (code : Z) (st : state) :
  sys_exit (A := A) code st = (Raise (SystemExit code), st).
Proof. reflexivity. Qed.

Lemma lift_run {A} (r : result A) (st : state) : lift r st = (r, st).
Proof. reflexivity. Qed.

Lemma emit_run (e : event) (st : state) : emit e st = (Ok tt, add_event e st).
Proof. reflexivity. Qed.

Lemma logger_run (lvl : level) (fmt : string) (a : list logarg) (st : state) :
  logger lvl fmt a st = (Ok tt, add_event (EvLog lvl fmt a) st).
Proof. reflexivity. Qed.

Lemma setup_main_logger_run (file_logging console : bool) (path : option string)
    (st : state) :
  setup_main_logger file_logging console path st =
  (Ok tt, add_event (EvSetupLogger file_logging console path) st).
Proof. reflexivity. Qed.

Lemma log_sockeye_version_run (st : state) :
  log_sockeye_version st = (Ok tt, add_event EvLogSockeyeVersion st).
Proof. reflexivity. Qed.

Lemma call_run {A} (c : extcall A) (st : state) :
  call c st = (respond A c, add_event (EvCall c) st).
Proof. reflexivity. Qed.

Lemma attr_run (args : dict) (name : string) (st : state) :
  attr args name st =
  (match args !! name with Some v => Ok v | None => Raise (AttributeError name) end, st).
Proof. unfold attr. now destruct (args !! name). Qed.

Lemma getitem_run (d : dict) (key : string) (st : state) :
  getitem d key st =
  (match d !! key with Some v => Ok v | None => Raise (KeyError key) end, st).
Proof. unfold getitem. now destruct (d !! key). Qed.

Lemma py_len_run (v : value) (st : state) :
  py_len v st = (match has_len v with Some n => Ok n | None => Raise TypeError end, st).
Proof. unfold py_len. now destruct (has_len v). Qed.

Lemma check_condition_run (condition : bool) (msg : string) (st : state) :
  check_condition condition msg st =
  (if condition then Ok tt else Raise (SockeyeError msg), st).
Proof. now destruct condition. Qed.

Lemma os_path_abspath_run (v : value) (st : state) :
  os_path_abspath v st =
  (match v with VStr s => Ok (abspath s) | _ => Raise TypeError end, st).
Proof. now destruct v. Qed.

Lemma os_path_exists_run (path : string) (st : state) :
  os_path_exists path st =
  (Ok (match fs st !! path with Some _ => true | None => false end), st).
Proof. reflexivity. Qed.

Lemma open_read_run (path : string) (st : state) :
  open_read path st =
  (match fs st !! path with
   | None => Raise (FileNotFoundError path)
   | Some Dir => Raise (IsADirectoryError path)
   | Some (File c) => Ok c
   end, st).
Proof.
  unfold open_read, bind, get_fs. now destruct (fs st !! path) as [[ | c] | ].
Qed.

Lemma json_load_run (c : content) (st : state) :
  json_load c st =
  (match c with CJson d => Ok d | _ => Raise JSONDecodeError end, st).
Proof. now destruct c. Qed.

Lemma pickle_load_run (c : content) (st : state) :
  pickle_load c st =
  (match c with CPickle o => Ok o | _ => Raise UnpicklingError end, st).
Proof. now destruct c. Qed.

Lemma json_dump_to_run (path : string) (d : dict) (st : state) :
  json_dump_to path d st =
  match fs st !! path with
  | Some Dir => (Raise (IsADirectoryError path), st)
  | _ => (Ok tt, {| fs := <[path := File (CJson d)]> (fs st); trace := trace st;
                    exit_stack := exit_stack st |})
  end.
Proof.
  unfold json_dump_to, bind, get_fs. now destruct (fs st !! path) as [[ | c] | ].
Qed.

Lemma shutil_rmtree_run (path : string) (st : state) :
  shutil_rmtree path st =
  match fs st !! path with
  | None => (Raise (FileNotFoundError path), st)
  | Some (File _) => (Raise (NotADirectoryError path), st)
  | Some Dir =>
      (Ok tt, {| fs := filter (fun kv => negb (within path kv.1) = true) (fs st);
                 trace := trace st; exit_stack := exit_stack st |})
  end.
Proof.
  unfold shutil_rmtree, bind, get_fs. now destruct (fs st !! path) as [[ | c] | ].
Qed.

(** *** Paths and directories *)

Lemma split_at_last_slash_length (p : string) :
  String.length (split_at_last_slash p).1 + String.length (split_at_last_slash p).2
  = String.length p.
Proof.
  induction p as [ | c rest IH]; [reflexivity | ].
  cbn [split_at_last_slash].
  destruct (split_at_last_slash rest) as [[ | h0 head] tail]; cbn [fst snd] in *.
  - destruct (Ascii.eqb c "/"); cbn [fst snd String.length] in *; lia.
  - cbn [String.length] in *. lia.
Qed.

Lemma rstrip_slashes_length (s : string) :
  String.length (rstrip_slashes s) <= String.length s.
Proof.
  induction s as [ | c rest IH]; [reflexivity | ].
  cbn [rstrip_slashes].
  destruct (rstrip_slashes rest) as [ | c' rest'].
  - destruct (Ascii.eqb c "/"); cbn [String.length] in *; lia.
  - cbn [String.length] in *. lia.
Qed.

Lemma os_path_split_length (p : string) :
  String.length (os_path_split p).1 + String.length (os_path_split p).2 <= String.length p.
Proof.
  unfold os_path_split.
  pose proof (split_at_last_slash_length p) as Hlen.
  destruct (split_at_last_slash p) as [head tail]. cbn [fst snd] in *.
  pose proof (rstrip_slashes_length head) as Hstrip.
  destruct (rstrip_slashes head); cbn [fst snd] in *; lia.
Qed.

Lemma makedirs_split_length (name : string) :
  String.length (makedirs_split name).1 + String.length (makedirs_split name).2
  <= String.length name.
Proof.
  unfold makedirs_split.
  pose proof (os_path_split_length name) as Hlen.
  destruct (os_path_split name) as [head tail]. cbn [fst snd] in *.
  destruct (String.eqb tail ""); [ | exact Hlen].
  pose proof (os_path_split_length head). lia.
Qed.

(** The head of a path that ends in a name is shorter than the path. *)
Lemma makedirs_split_shorter (name head tail : string) :
  makedirs_split name = (head, tail) -> tail <> "" ->
  String.length head < String.length name.
Proof.
  intros E Htail. pose proof (makedirs_split_length name) as Hlen.
  rewrite E in Hlen. cbn [fst snd] in Hlen.
  destruct tail; [contradiction | ]. cbn [String.length] in Hlen. lia.
Qed.



Lemma dirs_above_upto_shorter (n : nat) (name a : string) :
  a ∈ dirs_above_upto n name -> String.length a < String.length name.
Proof.
  revert name. induction n as [ | n IH]; intros name Hin; cbn [dirs_above_upto] in Hin.
  - now apply elem_of_nil in Hin.
  - destruct (makedirs_split name) as [head tail] eqn:E.
    destruct (String.eqb head "" || String.eqb tail "" || String.eqb (rstrip_slashes head) "")
      eqn:Estop; [now apply elem_of_nil in Hin | ].
    assert (Htail : tail <> "") by (intros ->; rewrite orb_true_r in Estop; discriminate).
    pose proof (makedirs_split_shorter name head tail E Htail).
    apply elem_of_cons in Hin as [-> | Hin]; [lia | ].
    specialize (IH head Hin). lia.
Qed.

Lemma dirs_above_shorter (name a : string) :
  a ∈ dirs_above name -> String.length a < String.length name.
Proof. apply dirs_above_upto_shorter. Qed.

Lemma os_mkdir_run (path : string) (st : state) :
  os_mkdir path st =
  match (match dirs_above path with [] => Some Dir | parent :: _ => fs st !! parent end) with
  | None => (Raise (FileNotFoundError path), st)
  | Some (File _) => (Raise (NotADirectoryError path), st)
  | Some Dir =>
      match fs st !! path with
      | Some _ => (Raise (FileExistsError path), st)
      | None => (Ok tt, {| fs := <[path := Dir]> (fs st); trace := trace st;
                           exit_stack := exit_stack st |})
      end
  end.
Proof.
  unfold os_mkdir, bind, get_fs.
  destruct (match dirs_above path with [] => Some Dir | parent :: _ => fs st !! parent end)
    as [[ | c] | ]; try reflexivity.
  now destruct (fs st !! path).
Qed.

Lemma with_dirs_at_refl (made : list string) (f : filesystem) : with_dirs_at made f f.
Proof. intros p. now left. Qed.

Lemma with_dirs_at_trans (made made' : list string) (f g h : filesystem) :
  with_dirs_at made f g -> with_dirs_at made' g h ->
  with_dirs_at (made' ++ made) f h.
Proof.
  intros Hfg Hgh p.
  destruct (Hfg p) as [Efg | (Hf & Hg & Hin)]; destruct (Hgh p) as [Egh | (Hg' & Hh & Hin')].
  - left. congruence.
  - right. rewrite <- Efg. split; [done | split; [done | ]]. apply elem_of_app. now left.
  - right. split; [done | split; [congruence | ]]. apply elem_of_app. now right.
  - congruence.
Qed.

Lemma with_dirs_at_more (made made' : list string) (f g : filesystem) :
  with_dirs_at made f g -> made ⊆ made' -> with_dirs_at made' f g.
Proof.
  intros Hfg Hsub p. destruct (Hfg p) as [E | (Hf & Hg & Hin)]; [now left | right; auto].
Qed.

(** What [os.mkdir] does to a state, whatever comes of it. *)
Lemma os_mkdir_outcome (name : string) (st : state) :
  trace (os_mkdir name st).2 = trace st /\
  exit_stack (os_mkdir name st).2 = exit_stack st /\
  (forall e, (os_mkdir name st).1 = Raise e -> file_error e) /\
  with_dirs_at [name] (fs st) (fs (os_mkdir name st).2).
Proof.
  rewrite os_mkdir_run.
  destruct (match dirs_above name with [] => Some Dir | parent :: _ => fs st !! parent end)
    as [[ | c] | ]; cbn [fst snd];
    try (repeat split; [now intros e [= <-] | apply with_dirs_at_refl]).
  destruct (fs st !! name) eqn:Ename; cbn [fst snd fs trace exit_stack];
    [repeat split; [now intros e [= <-] | apply with_dirs_at_refl] | ].
  repeat split; [intros e [=] | ].
  intros p. destruct (decide (p = name)) as [-> | Hne].
  - right. rewrite lookup_insert_eq. split; [done | split; [done | apply list_elem_of_here]].
  - left. now rewrite lookup_insert_ne.
Qed.

(** And [os.makedirs]: it raises nothing but file errors, logs nothing, and
    adds directories only, at [name] and above it. *)
Lemma makedirs_outcome (above : list string) (name : string) (st : state) :
  trace (makedirs above name st).2 = trace st /\
  exit_stack (makedirs above name st).2 = exit_stack st /\
  (forall e, (makedirs above name st).1 = Raise e -> file_error e) /\
  with_dirs_at (name :: above) (fs st) (fs (makedirs above name st).2).
Proof.
  revert name st. induction above as [ | head above IH]; intros name st.
  - apply os_mkdir_outcome.
  - cbn [makedirs]. rewrite bind_run, os_path_exists_run. cbn [fst snd].
    destruct (fs st !! head) as [found | ] eqn:Ehead.
    + destruct (os_mkdir_outcome name st) as (Ht & Hx & He & Hfs).
      repeat split; try done.
      eapply with_dirs_at_more; [exact Hfs | ].
      intros p Hp. apply list_elem_of_singleton in Hp as ->. apply list_elem_of_here.
    + rewrite bind_run. unfold pass_file_exists.
      destruct (IH head st) as (Ht & Hx & He & Hfs).
      destruct (makedirs above head st) as [[[] | e] st1]; cbn [fst snd] in *.
      * destruct (os_mkdir_outcome name st1) as (Ht' & Hx' & He' & Hfs').
        split; [congruence | split; [congruence | split; [exact He' | ]]].
        exact (with_dirs_at_trans _ _ _ _ _ Hfs Hfs').
      * pose proof (He e eq_refl) as Hkind.
        destruct e; try contradiction; cbn [fst snd];
          try (split; [done | split; [done | split; [exact He | ]]];
               eapply with_dirs_at_more; [exact Hfs | ];
               intros p Hp; now apply list_elem_of_further).
        destruct (os_mkdir_outcome name st1) as (Ht' & Hx' & He' & Hfs').
        split; [congruence | split; [congruence | split; [exact He' | ]]].
        exact (with_dirs_at_trans _ _ _ _ _ Hfs Hfs').
Qed.

Lemma os_makedirs_outcome (path : string) (st : state) :
  trace (os_makedirs path st).2 = trace st /\
  exit_stack (os_makedirs path st).2 = exit_stack st /\
  (forall e, (os_makedirs path st).1 = Raise e -> file_error e) /\
  with_dirs_at (path :: dirs_above path) (fs st) (fs (os_makedirs path st).2).
Proof. apply makedirs_outcome. Qed.

Lemma fs_add_event (e : event) (st : state) : fs (add_event e st) = fs st.
Proof. reflexivity. Qed.

Lemma trace_add_event (e : event) (st : state) :
  trace (add_event e st) = trace st ++ [e].
Proof. reflexivity. Qed.

(** Lines 106-113 compute the remaining difference of the specification,
    unless [device_ids] differs and one side has no length to compare:
    then the lookup or [len] raises. *)
Lemma remaining_arg_diffs_spec (args persisted : dict) (o : string) (st : state) :
  fs st !! os_path_join o ARGS_STATE_NAME = Some (File (CJson persisted)) ->
  (device_ids_sized args persisted /\
   remaining_arg_diffs args o st = (Ok (spec_remaining_diffs args persisted), st)) \/
  (~ device_ids_sized args persisted /\
   exists e, (e = KeyError "device_ids" \/ e = TypeError) /\
             remaining_arg_diffs args o st = (Raise e, st)).
Proof.
  intros Hfile. unfold remaining_arg_diffs.
  rewrite bind_run, open_read_run, Hfile. cbn [fst snd].
  rewrite bind_run, json_load_run. cbn [fst snd].
  rewrite dict_differences_spec. fold (spec_identity_diffs args persisted).
  unfold spec_remaining_diffs, device_ids_sized, same_device_count.
  destruct (decide ("device_ids" ∈ spec_identity_diffs args persisted)) as [Hin | Hout].
  - rewrite (bool_decide_eq_true_2 _ Hin).
    rewrite bind_run, getitem_run. cbn [fst snd].
    destruct (persisted !! "device_ids") as [ov | ] eqn:Eo; cbn [mbind option_bind];
      [ | right; split; [intros Hs; destruct (Hs Hin) as [_ [? [=]]] | eauto] ].
    rewrite bind_run, py_len_run. cbn [fst snd].
    destruct (has_len ov) as [n | ] eqn:En;
      [ | right; split; [intros Hs; destruct (Hs Hin) as [_ [? [=]]] | eauto] ].
    rewrite bind_run, getitem_run. cbn [fst snd].
    destruct (args !! "device_ids") as [nv | ] eqn:Ea; cbn [mbind option_bind];
      [ | right; split; [intros Hs; destruct (Hs Hin) as [[? [=]] _] | eauto] ].
    rewrite bind_run, py_len_run. cbn [fst snd].
    destruct (has_len nv) as [m | ] eqn:Em;
      [ | right; split; [intros Hs; destruct (Hs Hin) as [[? [=]] _] | eauto] ].
    left. split; [eauto | ]. rewrite ret_run, (Nat.eqb_sym m n). reflexivity.
  - rewrite (bool_decide_eq_false_2 _ Hout). left. split; [ | done].
    intros Hin. contradiction.
Qed.

(** With no readable snapshot the comparison raises, and not [SystemExit]. *)
Lemma remaining_arg_diffs_unreadable (args : dict) (o : string) (st : state) :
  (forall persisted,
     fs st !! os_path_join o ARGS_STATE_NAME <> Some (File (CJson persisted))) ->
  exists e, (forall code, e <> SystemExit code) /\
            remaining_arg_diffs args o st = (Raise e, st).
Proof.
  intros Hfile. unfold remaining_arg_diffs.
  rewrite bind_run, open_read_run.
  destruct (fs st !! os_path_join o ARGS_STATE_NAME) as [[ | [d | o' | ]] | ];
    cbn [fst snd]; try (eexists; split; [ | reflexivity]; congruence).
  now destruct (Hfile d).
Qed.

(** What [check_output_folder] returns, against the decision of the
    specification: a normal return carries the flag of [FreshStart] or
    [Resume]; [sys.exit(1)] is [Refuse] or [AbortIncompatible], reported,
    with the file system as it was found. *)
Lemma check_output_folder_decides (args : dict) (st : state) :
  match (check_output_folder args st).1 with
  | Ok (o, t, resume) =>
      spec_decide args (fs st) = Some (if resume then Resume else FreshStart) /\
      (resume = true -> fs (check_output_folder args st).2 = fs st) /\
      is_Some (args !! "quiet") /\
      exists output, args !! "output" = Some (VStr output) /\
                     o = abspath output /\
                     t = os_path_join o TRAINING_STATE_DIRNAME
  | Raise (SystemExit code) =>
      code = 1%Z /\
      fs (check_output_folder args st).2 = fs st /\
      exists d, spec_decide args (fs st) = Some d /\
                decided d (check_output_folder args st) /\
                (d = Refuse \/ exists diffs, diffs <> ∅ /\ d = AbortIncompatible diffs)
  | Raise _ => True
  end.
Proof.
  unfold check_output_folder, spec_decide.
  rewrite bind_run, attr_run.
  destruct (args !! "quiet") as [q | ] eqn:Eq; cbn [fst snd]; [ | exact Logic.I].
  rewrite bind_run, setup_main_logger_run. cbn [fst snd].
  rewrite bind_run, attr_run.
  destruct (args !! "output") as [ov | ] eqn:Eo; cbn [fst snd]; [ | exact Logic.I].
  rewrite bind_run, os_path_abspath_run.
  destruct ov as [ | | | | output | ]; cbn [fst snd]; try exact Logic.I.
  rewrite bind_run, os_path_exists_run. cbn [fst snd]. rewrite fs_add_event.
  destruct (fs st !! abspath output) as [found | ] eqn:Eex.
  - rewrite bind_run, attr_run.
    destruct (args !! "overwrite_output") as [ow | ] eqn:Eow; cbn [fst snd];
      [ | exact Logic.I].
    destruct (truthy ow) eqn:Etr.
    + rewrite bind_run, logger_run. cbn [fst snd].
      rewrite bind_run, shutil_rmtree_run, !fs_add_event, Eex.
      destruct found as [ | c]; cbn [fst snd]; [ | exact Logic.I].
      rewrite bind_run.
      match goal with
      | |- context [os_makedirs ?p ?s] =>
          destruct (os_makedirs_outcome p s) as (_ & _ & Hkind & _);
          destruct (os_makedirs p s) as [[[] | e] st'] eqn:Emk; cbn [fst snd] in *
      end.
      * rewrite ret_run. cbn [fst snd]. repeat split; eauto. discriminate.
      * specialize (Hkind e eq_refl). now destruct e.
    + rewrite bind_run, os_path_exists_run. cbn [fst snd]. rewrite fs_add_event.
      destruct (fs st !! os_path_join (abspath output) TRAINING_STATE_DIRNAME)
        as [marker | ] eqn:Ets.
      * rewrite bind_run.
        destruct (fs st !! os_path_join (abspath output) ARGS_STATE_NAME)
          as [[ | [persisted | o' | ]] | ] eqn:Ef;
          try (edestruct (remaining_arg_diffs_unreadable args (abspath output)
                            (add_event (EvSetupLogger false (negb (truthy q)) None) st))
                 as (e & Hne & ->);
               [ rewrite fs_add_event, Ef; congruence
               | cbn [fst snd]; destruct e; try exact Logic.I; now destruct (Hne code) ]).
        destruct (remaining_arg_diffs_spec args persisted (abspath output)
                    (add_event (EvSetupLogger false (negb (truthy q)) None) st))
          as [[_ ->] | [_ (e & [-> | ->] & ->)]];
          [ now rewrite fs_add_event | | exact Logic.I | exact Logic.I ].
        cbn [fst snd]. unfold spec_compare.
        destruct (decide (spec_remaining_diffs args persisted = ∅)) as [Hempty | Hdiff].
        -- rewrite ret_run. cbn [fst snd]. repeat split; eauto.
        -- rewrite bind_run, logger_run. cbn [fst snd].
           rewrite bind_run, logger_run. cbn [fst snd].
           rewrite sys_exit_run. cbn [fst snd].
           split; [reflexivity | split; [reflexivity | ]].
           eexists. split; [reflexivity | split; [ | right; eauto]].
           split; [reflexivity | ].
           exists (trace st ++ [EvSetupLogger false (negb (truthy q)) None]),
                  (elements (spec_remaining_diffs args persisted)).
           split; [apply NoDup_elements | split].
           ++ intros k. apply elem_of_elements.
           ++ cbn [snd]. rewrite !trace_add_event, <- !app_assoc. reflexivity.
      * rewrite bind_run, logger_run. cbn [fst snd].
        rewrite sys_exit_run. cbn [fst snd].
        split; [reflexivity | split; [reflexivity | ]].
        exists Refuse. split; [reflexivity | split; [ | now left]].
        split; [reflexivity | ].
        exists (trace st ++ [EvSetupLogger false (negb (truthy q)) None]), (abspath output).
        cbn [snd]. now rewrite !trace_add_event.
  - rewrite bind_run.
    match goal with
    | |- context [os_makedirs ?p ?s] =>
        destruct (os_makedirs_outcome p s) as (_ & _ & Hkind & _);
        destruct (os_makedirs p s) as [[[] | e] st'] eqn:Emk; cbn [fst snd] in *
    end.
    + rewrite ret_run. cbn [fst snd]. repeat split; eauto. discriminate.
    + specialize (Hkind e eq_refl). now destruct e.
Qed.

Lemma comparing_spec_decide (args persisted : dict) (f : filesystem) :
  comparing args persisted f -> spec_decide args f = Some (spec_compare args persisted).
Proof.
  intros (_ & output & ow & Ho & How & Htr & [? Hex] & [? Hts] & Hfile).
  unfold spec_decide. now rewrite Ho, Hex, How, Htr, Hts, Hfile.
Qed.

(** On that path [check_output_folder] sets up the console logger, runs the
    comparison, and returns or reports. *)
Lemma check_output_folder_comparing (args persisted : dict) (st : state) :
  comparing args persisted (fs st) ->
  exists q output,
    args !! "quiet" = Some q /\ args !! "output" = Some (VStr output) /\
    let st1 := add_event (EvSetupLogger false (negb (truthy q)) None) st in
    fs st1 !! os_path_join (abspath output) ARGS_STATE_NAME = Some (File (CJson persisted)) /\
    check_output_folder args st =
    match (remaining_arg_diffs args (abspath output) st1).1 with
    | Ok diffs =>
        if decide (diffs = ∅)
        then (Ok (abspath output, os_path_join (abspath output) TRAINING_STATE_DIRNAME, true),
              (remaining_arg_diffs args (abspath output) st1).2)
        else (Raise (SystemExit 1),
              add_event (EvLog Error "Differing arguments: %s."
                               [LStr (String.concat ", " (elements diffs))])
                (add_event (EvLog Error "Mismatch in arguments for training continuation." [])
                   (remaining_arg_diffs args (abspath output) st1).2))
    | Raise e => (Raise e, (remaining_arg_diffs args (abspath output) st1).2)
    end.
Proof.
  intros ([q Hq] & output & ow & Ho & How & Htr & [? Hex] & [? Hts] & Hfile).
  exists q, output. split; [done | split; [done | ]]. cbv zeta.
  rewrite fs_add_event. split; [done | ].
  unfold check_output_folder.
  rewrite bind_run, attr_run, Hq. cbn [fst snd].
  rewrite bind_run, setup_main_logger_run. cbn [fst snd].
  rewrite bind_run, attr_run, Ho. cbn [fst snd].
  rewrite bind_run, os_path_abspath_run. cbn [fst snd].
  rewrite bind_run, os_path_exists_run. cbn [fst snd]. rewrite fs_add_event, Hex.
  rewrite bind_run, attr_run, How. cbn [fst snd]. rewrite Htr.
  rewrite bind_run, os_path_exists_run. cbn [fst snd]. rewrite fs_add_event, Hts.
  rewrite bind_run.
  destruct (remaining_arg_diffs args (abspath output) _) as [[diffs | e] st2];
    cbn [fst snd]; [ | reflexivity].
  destruct (decide (diffs = ∅)); [reflexivity | ].
  rewrite bind_run, logger_run. cbn [fst snd].
  rewrite bind_run, logger_run. cbn [fst snd]. reflexivity.
Qed.

(** The decision [check_output_folder] takes on that path, when the device
    ids can be compared. *)
Lemma check_output_folder_compares (args persisted : dict) (st : state) :
  comparing args persisted (fs st) ->
  device_ids_sized args persisted ->
  decided (spec_compare args persisted) (check_output_folder args st).
Proof.
  intros Hcmp Hsized.
  destruct (check_output_folder_comparing args persisted st Hcmp)
    as (q & output & Hq & Ho & Hfile & ->).
  destruct (remaining_arg_diffs_spec args persisted (abspath output) _ Hfile)
    as [[_ ->] | [Hno _]]; [ | contradiction].
  cbn [fst snd]. unfold spec_compare.
  destruct (decide (spec_remaining_diffs args persisted = ∅)) as [Hempty | Hdiff].
  - simpl. eauto.
  - split; [reflexivity | ].
    exists (trace st ++ [EvSetupLogger false (negb (truthy q)) None]),
           (elements (spec_remaining_diffs args persisted)).
    split; [apply NoDup_elements | split].
    + intros k. apply elem_of_elements.
    + cbn [snd]. rewrite !trace_add_event, <- !app_assoc. reflexivity.
Qed.

(** A decision other than FreshStart and Refuse comes from the comparison
    with the snapshot. *)
Lemma spec_decide_compared (args : dict) (f : filesystem) (d : ResumeDecision) :
  is_Some (args !! "quiet") ->
  spec_decide args f = Some d ->
  d = Resume \/ (exists diffs, d = AbortIncompatible diffs) ->
  exists persisted, comparing args persisted f /\ d = spec_compare args persisted.
Proof.
  intros Hq Hd Hkind. unfold spec_decide in Hd.
  assert (Hfresh : Some FreshStart <> Some d).
  { intros [= <-]. destruct Hkind as [? | [? ?]]; discriminate. }
  assert (Hrefuse : Some Refuse <> Some d).
  { intros [= <-]. destruct Hkind as [? | [? ?]]; discriminate. }
  destruct (args !! "output") as [[ | | | | output | ] | ] eqn:Ho; try discriminate Hd.
  destruct (f !! abspath output) eqn:Eex; [ | contradiction].
  destruct (args !! "overwrite_output") as [ow | ] eqn:Eow; [ | discriminate Hd].
  destruct (truthy ow) eqn:Etr; [contradiction | ].
  destruct (f !! os_path_join (abspath output) TRAINING_STATE_DIRNAME) eqn:Ets;
    [ | contradiction].
  destruct (f !! os_path_join (abspath output) ARGS_STATE_NAME)
    as [[ | [persisted | o' | ]] | ] eqn:Ef; try discriminate Hd.
  injection Hd as <-. exists persisted. split; [ | reflexivity].
  split; [done | ]. exists output, ow. repeat split; eauto.
Qed.

(** With no difference left, the device ids could be compared. *)
Lemma no_remaining_diffs_sized (args persisted : dict) :
  spec_remaining_diffs args persisted = ∅ -> device_ids_sized args persisted.
Proof.
  unfold spec_remaining_diffs, device_ids_sized, same_device_count. intros Hempty Hin.
  rewrite (bool_decide_eq_true_2 _ Hin) in Hempty. cbn [andb] in Hempty.
  destruct (args !! "device_ids" ≫= has_len) as [n | ];
    destruct (persisted !! "device_ids" ≫= has_len) as [m | ]; eauto;
    rewrite Hempty in Hin; now apply not_elem_of_empty in Hin.
Qed.

(** The folder without training state is refused, and reported. *)
Lemma check_output_folder_refuses (args : dict) (st : state) :
  is_Some (args !! "quiet") ->
  spec_decide args (fs st) = Some Refuse ->
  decided Refuse (check_output_folder args st).
Proof.
  intros [q Hq] Hd. unfold spec_decide in Hd. unfold check_output_folder.
  destruct (args !! "output") as [[ | | | | output | ] | ] eqn:Ho; try discriminate Hd.
  destruct (fs st !! abspath output) eqn:Eex; [ | discriminate Hd].
  destruct (args !! "overwrite_output") as [ow | ] eqn:Eow; [ | discriminate Hd].
  destruct (truthy ow) eqn:Etr; [discriminate Hd | ].
  destruct (fs st !! os_path_join (abspath output) TRAINING_STATE_DIRNAME) eqn:Ets.
  { destruct (fs st !! os_path_join (abspath output) ARGS_STATE_NAME)
      as [[ | [persisted | o' | ]] | ]; try discriminate Hd.
    unfold spec_compare in Hd. now destruct (decide _). }
  rewrite bind_run, attr_run, Hq. cbn [fst snd].
  rewrite bind_run, setup_main_logger_run. cbn [fst snd].
  rewrite bind_run, attr_run, Ho. cbn [fst snd].
  rewrite bind_run, os_path_abspath_run. cbn [fst snd].
  rewrite bind_run, os_path_exists_run. cbn [fst snd]. rewrite fs_add_event, Eex.
  rewrite bind_run, attr_run, Eow. cbn [fst snd]. rewrite Etr.
  rewrite bind_run, os_path_exists_run. cbn [fst snd]. rewrite fs_add_event, Ets.
  rewrite bind_run, logger_run. cbn [fst snd]. rewrite sys_exit_run.
  split; [reflexivity | ].
  exists (trace st ++ [EvSetupLogger false (negb (truthy q)) None]), (abspath output).
  cbn [snd]. now rewrite !trace_add_event.
Qed.

(** Where the decision is Refuse or AbortIncompatible, the check raises,
    whatever it raises, and leaves the files as they were found. *)
Lemma check_output_folder_stopped (args : dict) (st : state) (d : ResumeDecision) :
  spec_decide args (fs st) = Some d ->
  d = Refuse \/ (exists diffs, d = AbortIncompatible diffs) ->
  (exists e, (check_output_folder args st).1 = Raise e) /\
  fs (check_output_folder args st).2 = fs st.
Proof.
  intros Hd Hkind. unfold spec_decide in Hd. unfold check_output_folder.
  assert (Hfresh : Some FreshStart <> Some d).
  { intros [= <-]. destruct Hkind as [? | [? ?]]; discriminate. }
  rewrite bind_run, attr_run.
  destruct (args !! "quiet") as [q | ] eqn:Eq; cbn [fst snd]; [ | eauto].
  rewrite bind_run, setup_main_logger_run. cbn [fst snd].
  rewrite bind_run, attr_run.
  destruct (args !! "output") as [[ | | | | output | ] | ] eqn:Ho; try discriminate Hd.
  cbn [fst snd].
  rewrite bind_run, os_path_abspath_run. cbn [fst snd].
  rewrite bind_run, os_path_exists_run. cbn [fst snd]. rewrite fs_add_event.
  destruct (fs st !! abspath output) eqn:Eex; [ | contradiction].
  rewrite bind_run, attr_run.
  destruct (args !! "overwrite_output") as [ow | ] eqn:Eow; [ | discriminate Hd].
  cbn [fst snd].
  destruct (truthy ow) eqn:Etr; [contradiction | ].
  rewrite bind_run, os_path_exists_run. cbn [fst snd]. rewrite fs_add_event.
  destruct (fs st !! os_path_join (abspath output) TRAINING_STATE_DIRNAME) eqn:Ets.
  - destruct (fs st !! os_path_join (abspath output) ARGS_STATE_NAME)
      as [[ | [persisted | o' | ]] | ] eqn:Ef; try discriminate Hd.
    injection Hd as <-. rewrite bind_run.
    destruct (remaining_arg_diffs_spec args persisted (abspath output)
                (add_event (EvSetupLogger false (negb (truthy q)) None) st))
      as [[_ ->] | [_ (e & _ & ->)]];
      [ now rewrite fs_add_event | | cbn [fst snd]; eauto ].
    cbn [fst snd]. unfold spec_compare in Hkind.
    destruct (decide (spec_remaining_diffs args persisted = ∅)) as [Hempty | Hdiff].
    + destruct Hkind as [? | [? ?]]; discriminate.
    + rewrite bind_run, logger_run. cbn [fst snd].
      rewrite bind_run, logger_run. cbn [fst snd].
      rewrite sys_exit_run. cbn [fst snd]. eauto.
  - rewrite bind_run, logger_run. cbn [fst snd]. rewrite sys_exit_run. cbn [fst snd]. eauto.
Qed.

(** The decision of the comparison, whenever the device ids can be
    compared. For every pair of current arguments and persisted snapshot
    compared when the output folder exists, contains the training-state
    marker and overwrite is not requested, and in which device_ids,
    whenever it is among the differing fields that are not
    resumption-neutral, has a length on both sides: the decision is Resume
    if and only if the fields on which the two dictionaries disagree, less
    the resumption-neutral ones and less device_ids when the two lengths are
    equal, are none; otherwise it is AbortIncompatible with exactly the
    names of that remaining set in the report. *)
Lemma resume_iff_no_remaining_difference (args persisted : dict) (st : state) :
  comparing args persisted (fs st) ->
  device_ids_sized args persisted ->
  (decided Resume (check_output_folder args st) <->
   spec_remaining_diffs args persisted = ∅) /\
  (spec_remaining_diffs args persisted <> ∅ ->
   decided (AbortIncompatible (spec_remaining_diffs args persisted))
           (check_output_folder args st)).
Proof.
  intros Hcmp Hsized.
  pose proof (check_output_folder_compares args persisted st Hcmp Hsized) as Hdec.
  unfold spec_compare in Hdec.
  destruct (decide (spec_remaining_diffs args persisted = ∅)) as [Hempty | Hdiff].
  - split; [tauto | contradiction].
  - split; [ | auto]. split; [ | contradiction].
    intros (o & t & Hok). destruct Hdec as [Hexit _]. congruence.
Qed.

(** C5. When the fields that differ, less the resumption-neutral ones, are
    exactly device_ids, and both sides hold a list under it: lists of equal
    length, whatever their members, give Resume; lists of different lengths
    give AbortIncompatible of device_ids alone. *)
Theorem device_ids_count_decides (args persisted : dict) (st : state)
    (current_ids persisted_ids : list value) :
  comparing args persisted (fs st) ->
  spec_identity_diffs args persisted = {["device_ids"]} ->
  args !! "device_ids" = Some (VList current_ids) ->
  persisted !! "device_ids" = Some (VList persisted_ids) ->
  (length current_ids = length persisted_ids ->
   decided Resume (check_output_folder args st)) /\
  (length current_ids <> length persisted_ids ->
   decided (AbortIncompatible {["device_ids"]}) (check_output_folder args st)).
Proof.
  intros Hcmp Hdiffs Hcur Hold.
  assert (Hsized : device_ids_sized args persisted).
  { intros _. rewrite Hcur, Hold. simpl. eauto. }
  pose proof (check_output_folder_compares args persisted st Hcmp Hsized) as Hdec.
  unfold spec_compare, spec_remaining_diffs, same_device_count in Hdec.
  rewrite Hdiffs, Hcur, Hold in Hdec. simpl in Hdec.
  rewrite bool_decide_eq_true_2 in Hdec by set_solver. simpl in Hdec.
  split; intros Hlen.
  - rewrite Hlen, Nat.eqb_refl in Hdec.
    destruct (decide _) as [_ | Hne]; [exact Hdec | ]. set_solver.
  - apply Nat.eqb_neq in Hlen. rewrite Hlen in Hdec.
    destruct (decide _) as [Hempty | _]; [set_solver | exact Hdec].
Qed.

End Comparison.

(** ** The program logic *)

Section Logic.
Context `{Collaborators} `{Constants} `{!Environment}.
Context (I : filesystem -> Prop) (P : event -> Prop).

Lemma hoare_ret {A} (a : A) (Q : A -> Prop) : Q a -> hoare I P (ret a) Q.
Proof.
  intros HQ st HI. simpl. split; [done | split].
  - exists []. now rewrite app_nil_r.
  - intros ? [= <-]. exact HQ.
Qed.

Lemma hoare_raise {A} (e : exn) (Q : A -> Prop) : hoare I P (raise e) Q.
Proof.
  intros st HI. simpl. split; [done | split].
  - exists []. now rewrite app_nil_r.
  - intros ? [=].
Qed.

Lemma hoare_lift {A} (r : result A) (Q : A -> Prop) :
  (forall a, r = Ok a -> Q a) -> hoare I P (lift r) Q.
Proof.
  intros HQ st HI. simpl. split; [done | split].
  - exists []. now rewrite app_nil_r.
  - exact HQ.
Qed.

Lemma hoare_bind {A B} (m : M A) (f : A -> M B) (Q : A -> Prop) (Q' : B -> Prop) :
  hoare I P m Q -> (forall a, Q a -> hoare I P (f a) Q') -> hoare I P (bind m f) Q'.
Proof.
  intros Hm Hf st HI. unfold bind.
  destruct (Hm st HI) as (HI1 & (evs1 & Ht1 & HP1) & HQ1).
  destruct (m st) as [[a | e] st1] eqn:E; simpl in *.
  - destruct (Hf a (HQ1 a eq_refl) st1 HI1) as (HI2 & (evs2 & Ht2 & HP2) & HQ2).
    split; [done | split; [ | done]].
    exists (evs1 ++ evs2). rewrite Ht2, Ht1, app_assoc. split; [done | ].
    now apply Forall_app.
  - split; [done | split; [eauto | intros ? [=]]].
Qed.

Lemma hoare_weaken {A} (m : M A) (Q Q' : A -> Prop) :
  hoare I P m Q -> (forall a, Q a -> Q' a) -> hoare I P m Q'.
Proof.
  intros Hm HQ st HI. destruct (Hm st HI) as (? & ? & ?). eauto.
Qed.

Lemma hoare_open_read_at (f : filesystem) (path : string) :
  hoare (eq f) P (open_read path) (fun c => f !! path = Some (File c)).
Proof.
  intros st ->. rewrite open_read_run. cbn [fst snd]. split; [done | split].
  - exists []. now rewrite app_nil_r.
  - intros c. destruct (fs st !! path) as [[ | c'] | ]; now intros [= <-].
Qed.

Lemma hoare_if {A} (b : bool) (m1 m2 : M A) (Q1 Q2 : A -> Prop) :
  hoare I P m1 Q1 -> hoare I P m2 Q2 ->
  hoare I P (if b then m1 else m2) (fun a => if b then Q1 a else Q2 a).
Proof. now destruct b. Qed.

Lemma hoare_if_dec {A} {X Y : Prop} (b : {X} + {Y}) (m1 m2 : M A) (Q1 Q2 : A -> Prop) :
  hoare I P m1 Q1 -> hoare I P m2 Q2 ->
  hoare I P (if b then m1 else m2) (fun a => if b then Q1 a else Q2 a).
Proof. now destruct b. Qed.

Lemma hoare_emit (e : event) (Q : unit -> Prop) :
  P e -> Q tt -> hoare I P (emit e) Q.
Proof.
  intros HP HQ st HI. simpl. split; [done | split].
  - exists [e]. split; [done | ]. now constructor.
  - now intros [].
Qed.

Lemma hoare_get_fs (Q : filesystem -> Prop) :
  (forall f, I f -> Q f) -> hoare I P get_fs Q.
Proof.
  intros HQ st HI. simpl. split; [done | split].
  - exists []. now rewrite app_nil_r.
  - intros ? [= <-]. auto.
Qed.

Lemma hoare_put_fs (f : filesystem) (Q : unit -> Prop) :
  I f -> Q tt -> hoare I P (put_fs f) Q.
Proof.
  intros Hf HQ st HI. simpl. split; [done | split].
  - exists []. now rewrite app_nil_r.
  - now intros [].
Qed.

Lemma hoare_attr (args : dict) (name : string) (Q : value -> Prop) :
  (forall v, args !! name = Some v -> Q v) -> hoare I P (attr args name) Q.
Proof.
  intros HQ. unfold attr. destruct (args !! name) as [v | ].
  - apply hoare_ret. auto.
  - apply hoare_raise.
Qed.

Lemma hoare_getitem (d : dict) (key : string) (Q : value -> Prop) :
  (forall v, d !! key = Some v -> Q v) -> hoare I P (getitem d key) Q.
Proof.
  intros HQ. unfold getitem. destruct (d !! key) as [v | ].
  - apply hoare_ret. auto.
  - apply hoare_raise.
Qed.

Lemma hoare_py_len (v : value) (Q : nat -> Prop) :
  (forall n, has_len v = Some n -> Q n) -> hoare I P (py_len v) Q.
Proof.
  intros HQ. unfold py_len. destruct (has_len v) as [n | ].
  - apply hoare_ret. auto.
  - apply hoare_raise.
Qed.

Lemma hoare_call {A} (c : extcall A) (Q : A -> Prop) :
  P (EvCall c) -> (forall a, respond A c = Ok a -> Q a) -> hoare I P (call c) Q.
Proof.
  intros HP HQ. unfold call.
  apply hoare_bind with (Q := fun _ => True).
  - now apply hoare_emit.
  - intros _ _. now apply hoare_lift.
Qed.

Lemma hoare_new (o : config_object) (Q : unit -> Prop) :
  P (EvNew o) -> Q tt -> hoare I P (new o) Q.
Proof. apply hoare_emit. Qed.

Lemma hoare_setup_main_logger (file_logging console : bool) (path : option string)
    (Q : unit -> Prop) :
  P (EvSetupLogger file_logging console path) -> Q tt ->
  hoare I P (setup_main_logger file_logging console path) Q.
Proof. apply hoare_emit. Qed.

Lemma hoare_logger (lvl : level) (fmt : string) (a : list logarg) (Q : unit -> Prop) :
  P (EvLog lvl fmt a) -> Q tt -> hoare I P (logger lvl fmt a) Q.
Proof. apply hoare_emit. Qed.

Lemma hoare_log_sockeye_version (Q : unit -> Prop) :
  P EvLogSockeyeVersion -> Q tt -> hoare I P log_sockeye_version Q.
Proof. apply hoare_emit. Qed.

Lemma hoare_check_condition (condition : bool) (msg : string) (Q : unit -> Prop) :
  (condition = true -> Q tt) -> hoare I P (check_condition condition msg) Q.
Proof.
  intros HQ. unfold check_condition. destruct condition.
  - apply hoare_ret. auto.
  - apply hoare_raise.
Qed.

Lemma hoare_sys_exit {A} (code : Z) (Q : A -> Prop) : hoare I P (sys_exit code) Q.
Proof. apply hoare_raise. Qed.

Lemma hoare_os_path_abspath (v : value) (Q : string -> Prop) :
  (forall s, v = VStr s -> Q (abspath s)) -> hoare I P (os_path_abspath v) Q.
Proof.
  intros HQ. unfold os_path_abspath.
  destruct v; try apply hoare_raise. apply hoare_ret. auto.
Qed.

Lemma hoare_os_path_exists (path : string) (Q : bool -> Prop) :
  (forall f, I f -> Q (match f !! path with Some _ => true | None => false end)) ->
  hoare I P (os_path_exists path) Q.
Proof.
  intros HQ. unfold os_path_exists.
  apply hoare_bind with (Q := I).
  - now apply hoare_get_fs.
  - intros f Hf. apply hoare_ret. auto.
Qed.

Lemma hoare_open_read (path : string) (Q : content -> Prop) :
  (forall f c, I f -> f !! path = Some (File c) -> Q c) ->
  hoare I P (open_read path) Q.
Proof.
  intros HQ. unfold open_read.
  apply hoare_bind with (Q := I).
  - now apply hoare_get_fs.
  - intros f Hf. destruct (f !! path) as [[ | c] | ] eqn:E; try apply hoare_raise.
    apply hoare_ret. eauto.
Qed.

Lemma hoare_json_load (c : content) (Q : dict -> Prop) :
  (forall d, c = CJson d -> Q d) -> hoare I P (json_load c) Q.
Proof.
  intros HQ. unfold json_load. destruct c; try apply hoare_raise.
  apply hoare_ret. auto.
Qed.

Lemma hoare_pickle_load (c : content) (Q : option Scheduler -> Prop) :
  (forall o, c = CPickle o -> Q o) -> hoare I P (pickle_load c) Q.
Proof.
  intros HQ. unfold pickle_load. destruct c; try apply hoare_raise.
  apply hoare_ret. auto.
Qed.

Lemma hoare_shutil_rmtree (path : string) (Q : unit -> Prop) :
  (forall f, I f -> I (filter (fun kv => negb (within path kv.1) = true) f)) ->
  Q tt -> hoare I P (shutil_rmtree path) Q.
Proof.
  intros HI HQ. unfold shutil_rmtree.
  apply hoare_bind with (Q := I).
  - now apply hoare_get_fs.
  - intros f Hf. destruct (f !! path) as [[ | c] | ]; try apply hoare_raise.
    apply hoare_put_fs; auto.
Qed.

Lemma hoare_os_mkdir (path : string) (Q : unit -> Prop) :
  (forall f, I f -> f !! path = None -> I (<[path := Dir]> f)) ->
  Q tt -> hoare I P (os_mkdir path) Q.
Proof.
  intros HI HQ st Hst. rewrite os_mkdir_run.
  destruct (match dirs_above path with [] => Some Dir | parent :: _ => fs st !! parent end)
    as [[ | c] | ]; cbn [fst snd];
    try (split; [done | split; [ | intros a [=]]];
         exists []; now rewrite app_nil_r).
  destruct (fs st !! path) eqn:Epath; cbn [fst snd fs trace].
  - split; [done | split; [ | intros a [=]]]. exists []. now rewrite app_nil_r.
  - split; [auto | split; [ | now intros [] _]]. exists []. now rewrite app_nil_r.
Qed.

Lemma hoare_pass_file_exists (m : M unit) (Q Q' : unit -> Prop) :
  hoare I P m Q -> Q' tt -> hoare I P (pass_file_exists m) Q'.
Proof.
  intros Hm HQ st Hst. destruct (Hm st Hst) as (HI & Hev & _).
  unfold pass_file_exists. destruct (m st) as [[[] | e] st']; cbn [fst snd] in *.
  - split; [done | split; [done | now intros [] _]].
  - destruct e; cbn [fst snd];
      (split; [done | split; [done | first [now intros [] _ | intros a [=]]]]).
Qed.

Lemma hoare_makedirs (above : list string) (name : string) (Q : unit -> Prop) :
  (forall f p, I f -> f !! p = None -> p ∈ name :: above -> I (<[p := Dir]> f)) ->
  Q tt -> hoare I P (makedirs above name) Q.
Proof.
  revert name Q. induction above as [ | head above IH]; intros name Q HI HQ.
  - apply hoare_os_mkdir; [ | done].
    intros f Hf Hnone. apply HI; [done | done | apply list_elem_of_here].
  - cbn [makedirs]. apply hoare_bind with (Q := fun _ => True).
    + now apply hoare_os_path_exists.
    + intros head_exists _.
      assert (Hmk : hoare I P (os_mkdir name) Q).
      { apply hoare_os_mkdir; [ | done].
        intros f Hf Hnone. apply HI; [done | done | apply list_elem_of_here]. }
      destruct head_exists; [exact Hmk | ].
      apply hoare_bind with (Q := fun _ => True); [ | intros _ _; exact Hmk].
      apply hoare_pass_file_exists with (Q := fun _ => True); [ | done].
      apply IH; [ | done].
      intros f p Hf Hnone Hin. apply HI; [done | done | now apply list_elem_of_further].
Qed.

Lemma hoare_os_makedirs (path : string) (Q : unit -> Prop) :
  (forall f p, I f -> f !! p = None -> p ∈ path :: dirs_above path -> I (<[p := Dir]> f)) ->
  Q tt -> hoare I P (os_makedirs path) Q.
Proof. apply hoare_makedirs. Qed.

Lemma hoare_json_dump_to (path : string) (d : dict) (Q : unit -> Prop) :
  (forall f, I f -> I (<[path := File (CJson d)]> f)) ->
  Q tt -> hoare I P (json_dump_to path d) Q.
Proof.
  intros HI HQ. unfold json_dump_to.
  apply hoare_bind with (Q := I).
  - now apply hoare_get_fs.
  - intros f Hf. destruct (f !! path) as [[ | c] | ]; try apply hoare_raise;
      apply hoare_put_fs; auto.
Qed.

Lemma hoare_enter_acquire_gpus (device_ids lock_dir : value) (Q : list Z -> Prop) :
  P (EvCall (acquire_gpus device_ids lock_dir)) ->
  (forall ids, respond _ (acquire_gpus device_ids lock_dir) = Ok ids -> Q ids) ->
  hoare I P (enter_acquire_gpus device_ids lock_dir) Q.
Proof.
  intros HP HQ. unfold enter_acquire_gpus.
  apply hoare_bind with (Q := Q).
  - now apply hoare_call.
  - intros ids Hids st HI. simpl. split; [done | split].
    + exists []. now rewrite app_nil_r.
    + now intros ? [= <-].
Qed.

Lemma hoare_with_exit_stack {A} (body : M A) (Q : A -> Prop) :
  (forall ids, P (EvReleaseGpus ids)) ->
  hoare I P body Q -> hoare I P (with_exit_stack body) Q.
Proof.
  intros HP Hb st HI. unfold with_exit_stack.
  destruct (Hb {| fs := fs st; trace := trace st; exit_stack := [] |} HI)
    as (HI1 & (evs & Ht & HPs) & HQ).
  destruct (body _) as [r st1]; simpl in *.
  split; [done | split; [ | done]].
  exists (evs ++ map EvReleaseGpus (exit_stack st1)).
  rewrite Ht, app_assoc. split; [done | ].
  apply Forall_app. split; [done | ].
  apply Forall_forall. intros e Hin. apply list_elem_of_In, in_map_iff in Hin.
  destruct Hin as (ids & <- & _). apply HP.
Qed.

End Logic.

Lemma hoare_events `{Collaborators} `{Constants} `{!Environment} {A}
    (I : filesystem -> Prop) (P P' : event -> Prop) (m : M A) (Q : A -> Prop) :
  hoare I P m Q -> (forall e, P e -> P' e) -> hoare I P' m Q.
Proof.
  intros Hm HP st HI. destruct (Hm st HI) as (HI' & (evs & Ht & Hall) & HQ).
  split; [done | split; [ | done]].
  exists evs. split; [done | ]. eapply Forall_impl; eauto.
Qed.

(** *** Stepping through a program *)

(** The side conditions of the rules: an event that satisfies [P] outright,
    a postcondition that is the fact the rule provides, or [True]. *)
Ltac hoare_event := try solve [exact Logic.I | simpl; exact Logic.I].

Ltac hoare_true :=
  cbv beta;
  lazymatch goal with
  | |- True => exact Logic.I
  | |- ?Q ?x =>
      is_evar Q; let T := type of x in unify Q (fun _ : T => True); exact Logic.I
  end.

Ltac hoare_unit := intros; try hoare_true.

Ltac hoare_fact :=
  intros;
  try first [ match goal with Hfact : _ |- ?Q _ => is_evar Q; exact Hfact end
            | hoare_true ].

Ltac hoare_returned :=
  try first [ lazymatch goal with
              | |- ?Q ?x => is_evar Q; unify Q (fun a => a = x); reflexivity
              end
            | hoare_true ].

Ltac hoare_any_post :=
  try lazymatch goal with
      | |- hoare _ _ _ ?Q =>
          is_evar Q;
          lazymatch type of Q with
          | ?T -> Prop => unify Q (fun _ : T => True)
          end
      end.

Ltac hoare_primitive :=
  lazymatch goal with
  | |- hoare _ _ (ret _) _ => apply hoare_ret; hoare_returned
  | |- hoare _ _ (raise _) _ => hoare_any_post; apply hoare_raise
  | |- hoare _ _ (sys_exit _) _ => hoare_any_post; apply hoare_sys_exit
  | |- hoare _ _ (lift _) _ => apply hoare_lift; hoare_fact
  | |- hoare _ _ (attr _ _) _ => apply hoare_attr; hoare_fact
  | |- hoare _ _ (getitem _ _) _ => apply hoare_getitem; hoare_fact
  | |- hoare _ _ (py_len _) _ => apply hoare_py_len; hoare_fact
  | |- hoare _ _ (call _) _ => apply hoare_call; [hoare_event | hoare_fact]
  | |- hoare _ _ (new _) _ => apply hoare_new; [hoare_event | hoare_unit]
  | |- hoare _ _ (emit _) _ => apply hoare_emit; [hoare_event | hoare_unit]
  | |- hoare _ _ (setup_main_logger _ _ _) _ =>
      apply hoare_setup_main_logger; [hoare_event | hoare_unit]
  | |- hoare _ _ (logger _ _ _) _ => apply hoare_logger; [hoare_event | hoare_unit]
  | |- hoare _ _ log_sockeye_version _ =>
      apply hoare_log_sockeye_version; [hoare_event | hoare_unit]
  | |- hoare _ _ (check_condition _ _) _ => apply hoare_check_condition; hoare_unit
  | |- hoare _ _ (os_path_abspath _) _ => apply hoare_os_path_abspath; hoare_fact
  | |- hoare _ _ (os_path_exists _) _ => apply hoare_os_path_exists; hoare_unit
  | |- hoare _ _ (open_read _) _ => apply hoare_open_read; hoare_fact
  | |- hoare _ _ (json_load _) _ => apply hoare_json_load; hoare_fact
  | |- hoare _ _ (pickle_load _) _ => apply hoare_pickle_load; hoare_fact
  | |- hoare _ _ (shutil_rmtree _) _ => apply hoare_shutil_rmtree; hoare_unit
  | |- hoare _ _ (os_makedirs _) _ => apply hoare_os_makedirs; hoare_unit
  | |- hoare _ _ (json_dump_to _ _) _ => apply hoare_json_dump_to; hoare_unit
  | |- hoare _ _ (enter_acquire_gpus _ _) _ =>
      apply hoare_enter_acquire_gpus; [hoare_event | hoare_fact]
  end.

(** One block of [main], opened. *)
Ltac unfold_block :=
  lazymatch goal with
  | |- hoare _ _ (main _) _ => unfold main
  | |- hoare _ _ (preflight _) _ => unfold preflight
  | |- hoare _ _ (seed_rngs _) _ => unfold seed_rngs
  | |- hoare _ _ (check_fused_rnn _) _ => unfold check_fused_rnn
  | |- hoare _ _ (check_rnn_residual_connections _) _ =>
      unfold check_rnn_residual_connections
  | |- hoare _ _ (check_optimized_metric _) _ => unfold check_optimized_metric
  | |- hoare _ _ (check_output_folder _) _ => unfold check_output_folder
  | |- hoare _ _ (remaining_arg_diffs _ _) _ => unfold remaining_arg_diffs
  | |- hoare _ _ (log_and_save_args _ _) _ => unfold log_and_save_args
  | |- hoare _ _ (train _ _ _ _) _ => unfold train
  | |- hoare _ _ (device_context _) _ => unfold device_context
  | |- hoare _ _ (load_or_create_vocabs _ _ _) _ => unfold load_or_create_vocabs
  | |- hoare _ _ (_build_or_load_vocab _ _ _ _) _ => unfold _build_or_load_vocab
  | |- hoare _ _ (make_data_info _) _ => unfold make_data_info
  | |- hoare _ _ (create_data_iters _ _ _ _) _ => unfold create_data_iters
  | |- hoare _ _ (learning_rate_scheduling _ _ _) _ => unfold learning_rate_scheduling
  | |- hoare _ _ (model_configuration _ _ _ _) _ => unfold model_configuration
  | |- hoare _ _ (create_training_model _ _ _ _ _ _ _) _ => unfold create_training_model
  | |- hoare _ _ (make_initializer _ _ _) _ => unfold make_initializer
  | |- hoare _ _ (make_optimizer_params _ _) _ => unfold make_optimizer_params
  end;
  cbn [negb]; cbv beta iota zeta.

(** Walks a program: [known] is tried first on every part that is not a
    sequence or a conditional (lemmas on whole blocks go there), then the
    rules of the primitives, then the blocks are unfolded. What cannot be
    closed (an event [P] has something to say about, a postcondition asked
    for) is left to the proof. *)
Ltac hoare_walk_with known :=
  lazymatch goal with
  | |- hoare _ _ (bind _ _) _ =>
      eapply hoare_bind; [hoare_walk_with known | intros ? ?; hoare_walk_with known]
  | |- hoare _ _ (if _ then _ else _) ?Q =>
      tryif is_evar Q
      then first [ eapply hoare_if; hoare_walk_with known
                 | eapply hoare_if_dec; hoare_walk_with known
                 | eapply hoare_weaken;
                   [ first [eapply hoare_if | eapply hoare_if_dec]; hoare_walk_with known
                   | intros; exact Logic.I ] ]
      else (lazymatch goal with
            | |- hoare _ _ (if ?b then _ else _) _ => destruct b eqn:?
            end; hoare_walk_with known)
  | |- hoare _ _ (with_exit_stack _) _ =>
      apply hoare_with_exit_stack; [intros; hoare_event | hoare_walk_with known]
  | |- hoare _ _ _ _ =>
      first [ known
            | hoare_primitive
            | unfold_block; hoare_walk_with known
            | idtac ]
  | |- _ => idtac
  end.

Ltac hoare_walk := hoare_walk_with fail.

(** ** Before the decision: no configuration, no file *)

Section BeforeTraining.
Context `{Collaborators} `{Constants} `{!Environment}.

(** What a [hoare] judgement says of one run. *)
Lemma hoare_run {A} (I : filesystem -> Prop) (P : event -> Prop) (m : M A)
    (Q : A -> Prop) (st st' : state) (r : result A) :
  hoare I P m Q -> I (fs st) -> m st = (r, st') ->
  I (fs st') /\
  (exists evs, trace st' = trace st ++ evs /\ Forall P evs) /\
  (forall a, r = Ok a -> Q a).
Proof. intros Hm HI E. specialize (Hm st HI). now rewrite E in Hm. Qed.

(** [main], stage by stage. *)
Lemma main_run (args : dict) (st : state) :
  main args st =
  match preflight args st with
  | (Raise e, st1) => (Raise e, st1)
  | (Ok _, st1) =>
      match check_output_folder args st1 with
      | (Raise e, st2) => (Raise e, st2)
      | (Ok folder, st2) =>
          match log_and_save_args args folder.1.1 st2 with
          | (Raise e, st3) => (Raise e, st3)
          | (Ok _, st3) =>
              with_exit_stack (train args folder.1.1 folder.1.2 folder.2) st3
          end
      end
  end.
Proof. reflexivity. Qed.

(** Lines 80-92 leave the files alone. *)
Lemma preflight_hoare (args : dict) (f : filesystem) :
  hoare (eq f) not_model_config (preflight args) (fun _ => True).
Proof. hoare_walk. Qed.

Lemma check_output_folder_hoare (args : dict) :
  hoare (fun _ => True) not_model_config (check_output_folder args) (fun _ => True).
Proof. hoare_walk. Qed.

Lemma no_model_config_in (evs : list event) (c : ModelConfig) :
  Forall not_model_config evs -> EvNew (NewModelConfig c) ∉ evs.
Proof.
  intros Hall Hin. rewrite Forall_forall in Hall. exact (Hall _ Hin).
Qed.

(** C3. When the decision is Refuse or AbortIncompatible, no ModelConfig is
    constructed and [main] does not return: it stops before the
    configuration is assembled. A ModelConfig is constructed only when the
    decision was FreshStart or Resume. *)
Theorem model_config_only_after_go_ahead (args : dict) (f : filesystem) :
  (forall d, spec_decide args f = Some d ->
             (d = Refuse \/ exists diffs, d = AbortIncompatible diffs) ->
             (forall c, EvNew (NewModelConfig c) ∉ trace (run (main args) f).2) /\
             exists e, (run (main args) f).1 = Raise e) /\
  (forall c, EvNew (NewModelConfig c) ∈ trace (run (main args) f).2 ->
             spec_decide args f = Some FreshStart \/ spec_decide args f = Some Resume).
Proof.
  assert (Hgo : (forall c, EvNew (NewModelConfig c) ∉ trace (run (main args) f).2) /\
                (exists e, (run (main args) f).1 = Raise e) \/
                spec_decide args f = Some FreshStart \/ spec_decide args f = Some Resume).
  { unfold run. rewrite main_run.
    destruct (preflight args (initial_state f)) as [[[] | e] st1] eqn:Epre;
      destruct (hoare_run (eq f) _ _ _ (initial_state f) st1 _
                  (preflight_hoare args f) eq_refl Epre)
        as (Hfs & (evs1 & Ht1 & Hev1) & _); cbn [initial_state fs trace] in *.
    - pose proof (check_output_folder_decides args st1) as Hdec.
      destruct (check_output_folder args st1) as [[[[o t] resume] | e] st2] eqn:Echk;
        cbn [fst snd] in Hdec.
      + right. destruct Hdec as (Hspec & _). rewrite <- Hfs in Hspec.
        destruct resume; auto.
      + left. destruct (hoare_run _ _ _ _ _ _ _ (check_output_folder_hoare args)
                          Logic.I Echk) as (_ & (evs2 & Ht2 & Hev2) & _).
        cbn [fst snd]. split; [ | eauto].
        intros c. rewrite Ht2, Ht1, app_nil_l.
        apply no_model_config_in. now apply Forall_app.
    - left. cbn [fst snd]. split; [ | eauto].
      intros c. rewrite Ht1, app_nil_l. now apply no_model_config_in. }
  split.
  - intros d Hd Hstop. destruct Hgo as [Hno | [Hs | Hs]]; [exact Hno | | ];
      rewrite Hs in Hd; injection Hd as <-; destruct Hstop as [? | [? ?]]; discriminate.
  - intros c Hin. destruct Hgo as [[Hno _] | Hs]; [ | exact Hs].
    now destruct (Hno c).
Qed.

(** Where the decision is Refuse, or AbortIncompatible on a snapshot whose
    device ids can be compared, [main] stops at the check of the output
    folder with [sys.exit(1)]: the process ends with status 1, the report
    carries the decision (for AbortIncompatible, the names of the differing
    fields), and the file system is as it was found. *)
Lemma refuse_and_abort_stop_main
    (args : dict) (f : filesystem) (st1 : state) (d : ResumeDecision) :
  run (preflight args) f = (Ok tt, st1) ->
  is_Some (args !! "quiet") ->
  spec_decide args f = Some d ->
  d = Refuse \/ (exists diffs, d = AbortIncompatible diffs) ->
  (forall persisted, comparing args persisted f -> device_ids_sized args persisted) ->
  (run (main args) f).1 = Raise (SystemExit 1) /\
  exit_status (run (main args) f).1 = 1%Z /\
  fs (run (main args) f).2 = f /\
  decided d (Raise (SystemExit 1), (run (main args) f).2).
Proof.
  intros Epre Hq Hd Hkind Hsized. unfold run in *.
  destruct (hoare_run (eq f) _ _ _ (initial_state f) st1 _
              (preflight_hoare args f) eq_refl Epre) as (Hfs & _).
  cbn [initial_state fs] in Hfs. rewrite Hfs in Hd, Hsized.
  assert (Hdec : decided d (check_output_folder args st1)).
  { destruct Hkind as [-> | [diffs ->]].
    - now apply check_output_folder_refuses.
    - destruct (spec_decide_compared args (fs st1) _ Hq Hd) as (persisted & Hcmp & ->);
        [right; eauto | ].
      apply check_output_folder_compares; auto. }
  assert (Hexit : (check_output_folder args st1).1 = Raise (SystemExit 1)).
  { destruct Hkind as [-> | [diffs ->]]; now destruct Hdec. }
  destruct (check_output_folder_stopped args st1 d Hd Hkind) as (_ & Hsame).
  rewrite main_run, Epre.
  destruct (check_output_folder args st1) as [r st2]. cbn [fst snd] in *. subst r.
  cbn [fst snd exit_status]. rewrite Hsame, Hfs. auto.
Qed.

End BeforeTraining.

(** ** The snapshot of the arguments *)

Section Snapshot.
Context `{Collaborators} `{Constants} `{!Environment}.

(** After [args.json] is written, [main] only reads the file system. *)
Lemma train_reads_only (args : dict) (o t : string) (resume : bool) (f : filesystem) :
  hoare (eq f) (fun _ => True) (train args o t resume) (fun _ => True).
Proof. hoare_walk. Qed.

Lemma spec_decide_resume (args : dict) (f : filesystem) :
  spec_decide args f = Some Resume ->
  exists output persisted,
    args !! "output" = Some (VStr output) /\
    f !! os_path_join (abspath output) ARGS_STATE_NAME = Some (File (CJson persisted)) /\
    spec_remaining_diffs args persisted = ∅.
Proof.
  unfold spec_decide, spec_compare. intros Hd.
  repeat case_match; simplify_eq. eauto.
Qed.

(** Lines 127-134 on a folder where [args.json] is not a directory. *)
Lemma log_and_save_args_writes (args : dict) (o : string) (st : state) :
  is_Some (args !! "quiet") ->
  fs st !! os_path_join o ARGS_STATE_NAME <> Some Dir ->
  exists st', log_and_save_args args o st = (Ok tt, st') /\
              fs st' = <[os_path_join o ARGS_STATE_NAME := File (CJson args)]> (fs st).
Proof.
  intros [q Hq] Hfile. unfold log_and_save_args.
  rewrite bind_run, attr_run, Hq. cbn [fst snd].
  rewrite bind_run, setup_main_logger_run. cbn [fst snd].
  rewrite bind_run, log_sockeye_version_run. cbn [fst snd].
  rewrite bind_run, logger_run. cbn [fst snd].
  rewrite bind_run, logger_run. cbn [fst snd].
  rewrite json_dump_to_run, !fs_add_event.
  destruct (fs st !! os_path_join o ARGS_STATE_NAME) as [[ | c] | ];
    [contradiction | eauto | eauto].
Qed.

(** Lines 127-134 on a folder where [args.json] is a directory. *)
Lemma log_and_save_args_blocked (args : dict) (o : string) (st : state) :
  is_Some (args !! "quiet") ->
  fs st !! os_path_join o ARGS_STATE_NAME = Some Dir ->
  exists st', log_and_save_args args o st
              = (Raise (IsADirectoryError (os_path_join o ARGS_STATE_NAME)), st') /\
              fs st' = fs st.
Proof.
  intros [q Hq] Hdir. unfold log_and_save_args.
  rewrite bind_run, attr_run, Hq. cbn [fst snd].
  rewrite bind_run, setup_main_logger_run. cbn [fst snd].
  rewrite bind_run, log_sockeye_version_run. cbn [fst snd].
  rewrite bind_run, logger_run. cbn [fst snd].
  rewrite bind_run, logger_run. cbn [fst snd].
  rewrite json_dump_to_run, !fs_add_event, Hdir. eauto.
Qed.

(** Past the decision: on resume the snapshot was read, and nothing
    changed; then [args.json] is written, unless a directory is in its
    place. *)
Lemma snapshot_past_decision
    (args : dict) (f : filesystem) (st1 st2 : state) (o t : string) (resume : bool) :
  run (preflight args) f = (Ok tt, st1) ->
  check_output_folder args st1 = (Ok (o, t, resume), st2) ->
  let snapshot := os_path_join o ARGS_STATE_NAME in
  (resume = true ->
   fs st2 = f /\
   exists persisted,
     f !! snapshot = Some (File (CJson persisted)) /\
     spec_remaining_diffs args persisted = ∅) /\
  (fs st2 !! snapshot <> Some Dir ->
   fs (run (main args) f).2 = <[snapshot := File (CJson args)]> (fs st2)) /\
  (fs st2 !! snapshot = Some Dir ->
   resume = false /\
   (run (main args) f).1 = Raise (IsADirectoryError snapshot) /\
   fs (run (main args) f).2 = fs st2).
Proof.
  intros Epre Echk. cbv zeta. unfold run in *.
  destruct (hoare_run (eq f) _ _ _ (initial_state f) st1 _
              (preflight_hoare args f) eq_refl Epre) as (Hfs & _).
  cbn [initial_state fs] in Hfs.
  pose proof (check_output_folder_decides args st1) as Hdec.
  rewrite Echk in Hdec. cbn [fst snd] in Hdec.
  destruct Hdec as (Hspec & Hsame & Hquiet & output & Ho & -> & ->).
  assert (Hres : resume = true ->
                 fs st2 = f /\
                 exists persisted,
                   f !! os_path_join (abspath output) ARGS_STATE_NAME
                     = Some (File (CJson persisted)) /\
                   spec_remaining_diffs args persisted = ∅).
  { intros ->. rewrite (Hsame eq_refl), <- Hfs. split; [done | ].
    destruct (spec_decide_resume _ _ Hspec) as (output' & persisted & Ho' & Hfile & Hr).
    rewrite Ho in Ho'. injection Ho' as <-. rewrite <- Hfs in Hfile. eauto. }
  split; [exact Hres | ].
  rewrite main_run, Epre, Echk. cbn [fst snd]. split.
  - intros Hnodir.
    destruct (log_and_save_args_writes args (abspath output) st2 Hquiet Hnodir)
      as (st3 & Esave & Hfs3).
    rewrite Esave. unfold with_exit_stack.
    destruct (train _ _ _ _ _) as [r st4] eqn:Etrain.
    destruct (hoare_run (eq (fs st3)) _ _ _
                {| fs := fs st3; trace := trace st3; exit_stack := [] |} st4 r
                (train_reads_only args _ _ resume (fs st3)) eq_refl Etrain) as (Hfs4 & _).
    cbn [fst snd fs]. now rewrite <- Hfs4, Hfs3.
  - intros Hdir.
    destruct (log_and_save_args_blocked args (abspath output) st2 Hquiet Hdir)
      as (st3 & Esave & Hfs3).
    rewrite Esave. cbn [fst snd]. split; [ | auto].
    destruct resume; [ | reflexivity].
    destruct (Hres eq_refl) as (E & persisted & Hfile & _).
    rewrite E, Hfile in Hdir. discriminate Hdir.
Qed.

(** C2, as the code has it. Every invocation that gets past the decision
    writes args.json with the current arguments: at a fresh start, and
    again on every resuming invocation, where the snapshot is first read
    for the comparison (it differs from the current arguments in no field
    that remains after the neutral ones and device_ids of equal length are
    set aside) and then overwritten. The write fails only at a fresh start
    with a directory at the path of the snapshot: then [IsADirectoryError]
    is raised and nothing is written. Where the decision is Refuse or
    AbortIncompatible, [main] raises and the file system is as it was
    found; where it is Resume, the file system at the end is the one found
    with args.json holding the current arguments. *)
Theorem args_snapshot_rewritten_on_every_start
    (args : dict) (f : filesystem) (st1 : state) :
  run (preflight args) f = (Ok tt, st1) ->
  (forall o t resume st2,
     check_output_folder args st1 = (Ok (o, t, resume), st2) ->
     let snapshot := os_path_join o ARGS_STATE_NAME in
     (resume = true ->
      fs st2 = f /\
      exists persisted,
        f !! snapshot = Some (File (CJson persisted)) /\
        spec_remaining_diffs args persisted = ∅) /\
     (fs st2 !! snapshot <> Some Dir ->
      fs (run (main args) f).2 = <[snapshot := File (CJson args)]> (fs st2)) /\
     (fs st2 !! snapshot = Some Dir ->
      resume = false /\
      (run (main args) f).1 = Raise (IsADirectoryError snapshot) /\
      fs (run (main args) f).2 = fs st2)) /\
  (forall d,
     spec_decide args f = Some d ->
     d = Refuse \/ (exists diffs, d = AbortIncompatible diffs) ->
     (exists e, (run (main args) f).1 = Raise e) /\
     fs (run (main args) f).2 = f) /\
  (forall output,
     args !! "output" = Some (VStr output) ->
     is_Some (args !! "quiet") ->
     spec_decide args f = Some Resume ->
     fs (run (main args) f).2 =
       <[os_path_join (abspath output) ARGS_STATE_NAME := File (CJson args)]> f).
Proof.
  intros Epre.
  assert (Hfs : f = fs st1).
  { unfold run in Epre.
    now destruct (hoare_run (eq f) _ _ _ (initial_state f) st1 _
                    (preflight_hoare args f) eq_refl Epre) as (Hfs & _). }
  split; [ | split].
  - intros o t resume st2 Echk.
    exact (snapshot_past_decision args f st1 st2 o t resume Epre Echk).
  - intros d Hd Hkind. rewrite Hfs in Hd.
    destruct (check_output_folder_stopped args st1 d Hd Hkind) as ((e & He) & Hsame).
    unfold run in *. rewrite main_run, Epre.
    destruct (check_output_folder args st1) as [r st2]. cbn [fst snd] in *. subst r.
    cbn [fst snd]. split; [eauto | congruence].
  - intros output Ho Hq Hd.
    destruct (spec_decide_compared args f Resume Hq Hd (or_introl eq_refl))
      as (persisted & Hcmp & Hcompare).
    assert (Hempty : spec_remaining_diffs args persisted = ∅).
    { unfold spec_compare in Hcompare. now destruct (decide _). }
    rewrite Hfs in Hcmp.
    pose proof (check_output_folder_compares args persisted st1 Hcmp
                  (no_remaining_diffs_sized _ _ Hempty)) as Hdec.
    rewrite <- Hcompare in Hdec. destruct Hdec as (o & t & Hok).
    destruct (check_output_folder args st1) as [r st2] eqn:Echk. cbn [fst] in Hok. subst r.
    pose proof (check_output_folder_decides args st1) as Hfolder.
    rewrite Echk in Hfolder. cbn [fst snd] in Hfolder.
    destruct Hfolder as (_ & _ & _ & output' & Ho' & -> & _).
    rewrite Ho in Ho'. injection Ho' as <-.
    destruct (snapshot_past_decision args f st1 st2 _ t true Epre Echk)
      as (Hres & Hwrite & _).
    destruct (Hres eq_refl) as (E & persisted' & Hfile & _).
    rewrite Hwrite; [now rewrite E | ]. rewrite E, Hfile. discriminate.
Qed.

End Snapshot.

(** ** The optimizer parameters *)

Section OptimizerParams.
Context `{Collaborators} `{Constants} `{!Environment}.

Lemma none_if_negative_inv (val clip : value) :
  none_if_negative val = Ok clip ->
  exists below, lt_int val 0 = Ok below /\
                clip = (if below then VNone else val) /\
                (below = false -> is_none clip = false).
Proof.
  unfold none_if_negative, lt_int.
  destruct val; simpl; intros [= <-]; eexists; (split; [reflexivity | ]);
    (split; [reflexivity | ]); intros ->; reflexivity.
Qed.

(** [make_optimizer_params] touches neither the files nor the trace. *)
Lemma make_optimizer_params_run (args : dict) (lr : option Scheduler) (st : state) :
  exists r, make_optimizer_params args lr st = (r, st) /\
            forall p, r = Ok p -> optimizer_params_ok args p.
Proof.
  unfold make_optimizer_params.
  rewrite bind_run, attr_run.
  destruct (args !! "weight_decay") as [wd | ]; cbn [fst snd];
    [ | eexists; split; [reflexivity | intros ? [=]] ].
  rewrite bind_run, attr_run.
  destruct (args !! "initial_learning_rate") as [lr0 | ]; cbn [fst snd];
    [ | eexists; split; [reflexivity | intros ? [=]] ].
  match goal with
  | |- context [match lr with Some s => @?a s | None => ?b end] =>
      set (p0 := match lr with Some s => a s | None => b end)
  end.
  assert (Hp0 : p0 !! "clip_gradient" = None /\ p0 !! "momentum" = None).
  { subst p0. destruct lr; now simplify_map_eq. }
  destruct Hp0 as [Hclip0 Hmom0]. clearbody p0.
  rewrite bind_run, attr_run.
  destruct (args !! "clip_gradient") as [requested | ] eqn:Ecg; cbn [fst snd];
    [ | eexists; split; [reflexivity | intros ? [=]] ].
  rewrite bind_run, lift_run. cbn [fst snd].
  destruct (none_if_negative requested) as [clip | e] eqn:Eclip;
    [ | eexists; split; [reflexivity | intros ? [=]] ].
  destruct (none_if_negative_inv _ _ Eclip) as (below & Hbelow & -> & Hset).
  match goal with
  | |- context [if negb (is_none ?c) then ?x else p0] =>
      set (p1 := if negb (is_none c) then x else p0)
  end.
  assert (Hp1 : p1 !! "clip_gradient" = (if below then None else Some (PValue requested)) /\
                p1 !! "momentum" = None).
  { subst p1. destruct below; simpl.
    - done.
    - rewrite (Hset eq_refl). simpl. now simplify_map_eq. }
  destruct Hp1 as [Hclip1 Hmom1]. clearbody p1.
  rewrite bind_run, attr_run.
  destruct (args !! "momentum") as [momentum | ] eqn:Emom; cbn [fst snd];
    [ | eexists; split; [reflexivity | intros ? [=]] ].
  rewrite bind_run.
  assert (Hp2 : exists p2,
             (if negb (is_none momentum)
              then momentum' <- attr args "momentum" ;;
                   ret (<["momentum" := PValue momentum']> p1)
              else ret p1) st = (Ok p2, st) /\
             p2 !! "clip_gradient" = (if below then None else Some (PValue requested)) /\
             p2 !! "momentum" = (if is_none momentum then None else Some (PValue momentum))).
  { destruct (is_none momentum); simpl.
    - eauto.
    - rewrite bind_run, attr_run, Emom. cbn [fst snd]. rewrite ret_run.
      eexists. split; [reflexivity | ]. now simplify_map_eq. }
  destruct Hp2 as (p2 & -> & Hclip2 & Hmom2). cbn [fst snd].
  rewrite bind_run, attr_run.
  destruct (args !! "normalize_loss") as [normalize_loss | ] eqn:Enl; cbn [fst snd];
    [ | eexists; split; [reflexivity | intros ? [=]] ].
  destruct (truthy normalize_loss) eqn:Etr.
  - rewrite ret_run. eexists. split; [reflexivity | ]. intros p [= <-].
    repeat split.
    + exists requested, below. now simplify_map_eq.
    + exists momentum. now simplify_map_eq.
    + exists normalize_loss. rewrite Etr. now simplify_map_eq.
  - rewrite bind_run, attr_run.
    destruct (args !! "batch_size") as [batch_size | ] eqn:Ebs; cbn [fst snd];
      [ | eexists; split; [reflexivity | intros ? [=]] ].
    rewrite bind_run, lift_run. cbn [fst snd].
    destruct (float_truediv float_one batch_size) as [rescale | e] eqn:Ediv;
      [ | eexists; split; [reflexivity | intros ? [=]] ].
    rewrite ret_run. eexists. split; [reflexivity | ]. intros p [= <-].
    repeat split.
    + exists requested, below. now simplify_map_eq.
    + exists momentum. now simplify_map_eq.
    + exists normalize_loss. rewrite Etr. split; [done | ].
      exists batch_size, rescale. now simplify_map_eq.
Qed.

Lemma hoare_make_optimizer_params (I : filesystem -> Prop) (P : event -> Prop)
    (args : dict) (lr : option Scheduler) (Q : gmap string param -> Prop) :
  (forall p, optimizer_params_ok args p -> Q p) ->
  hoare I P (make_optimizer_params args lr) Q.
Proof.
  intros HQ st HI.
  destruct (make_optimizer_params_run args lr st) as (r & -> & Hok). simpl.
  split; [done | split].
  - exists []. now rewrite app_nil_r.
  - intros p ->. auto.
Qed.

Lemma main_handoff (args : dict) :
  hoare (fun _ => True) (handoff_ok args) (main args) (fun _ => True).
Proof.
  hoare_walk_with ltac:(apply hoare_make_optimizer_params; hoare_fact).
  simpl. assumption.
Qed.

Lemma handoff_in_main (args : dict) (f : filesystem)
    (m : TrainingModel) (train_iter eval_iter : DataIter) (kw : fit_kwargs) :
  EvCall (fit m train_iter eval_iter kw) ∈ trace (run (main args) f).2 ->
  optimizer_params_ok args (fit_optimizer_params kw).
Proof.
  intros Hin. unfold run in Hin.
  destruct (main_handoff args (initial_state f) Logic.I) as (_ & (evs & Ht & Hall) & _).
  rewrite Ht in Hin. cbn [initial_state trace] in Hin. rewrite app_nil_l in Hin.
  rewrite Forall_forall in Hall. exact (Hall _ Hin).
Qed.

Lemma float_truediv_int (x : spec_float) (z : Z) (r : value) :
  float_truediv x (VInt z) = Ok r ->
  z <> 0%Z /\ r = VFloat (SFdiv prec emax x (float_of_int z)).
Proof.
  unfold float_truediv. simpl. destruct (Z.eqb_spec z 0) as [-> | Hz]; [discriminate | ].
  destruct (float_of_int z); intros [= <-]; auto.
Qed.

(** C7. At the training handoff, the optimizer parameter rescale_grad is
    1.0 when loss normalization is enabled, whatever the batch size;
    otherwise it is the float quotient of 1.0 by the batch size (for an
    integer batch size, 1.0 divided by its conversion to float; for 64,
    exactly 1/64). *)
Theorem rescale_grad_at_handoff (args : dict) (f : filesystem)
    (m : TrainingModel) (train_iter eval_iter : DataIter) (kw : fit_kwargs) :
  EvCall (fit m train_iter eval_iter kw) ∈ trace (run (main args) f).2 ->
  exists normalize_loss,
    args !! "normalize_loss" = Some normalize_loss /\
    (truthy normalize_loss = true ->
     fit_optimizer_params kw !! "rescale_grad" = Some (PValue (VFloat float_one)) /\
     exists q, float_to_Q float_one = Some q /\ (q == 1)%Q) /\
    (truthy normalize_loss = false ->
     exists batch_size rescale,
       args !! "batch_size" = Some batch_size /\
       float_truediv float_one batch_size = Ok rescale /\
       fit_optimizer_params kw !! "rescale_grad" = Some (PValue rescale) /\
       (forall z, batch_size = VInt z ->
                  z <> 0%Z /\
                  rescale = VFloat (SFdiv prec emax float_one (float_of_int z))) /\
       (batch_size = VInt 64 ->
        exists x q, rescale = VFloat x /\ float_to_Q x = Some q /\ (q == 1 # 64)%Q)).
Proof.
  intros Hin. destruct (handoff_in_main _ _ _ _ _ _ Hin) as (_ & _ & nl & Hnl & Hres).
  exists nl. split; [exact Hnl | split].
  - intros Htr. rewrite Htr in Hres. split; [exact Hres | ].
    eexists. split; reflexivity.
  - intros Htr. rewrite Htr in Hres. destruct Hres as (b & r & Hb & Hdiv & Hp).
    exists b, r. repeat split; try assumption.
    + subst b. now destruct (float_truediv_int _ _ _ Hdiv).
    + subst b. now destruct (float_truediv_int _ _ _ Hdiv).
    + intros ->. vm_compute in Hdiv. injection Hdiv as <-.
      eexists _, _. split; [reflexivity | split; [reflexivity | reflexivity]].
Qed.

Lemma lt_int_zero_int (z : Z) : lt_int (VInt z) 0 = Ok (z <? 0)%Z.
Proof.
  unfold lt_int. simpl. unfold Z.ltb. now destruct (z ?= 0)%Z.
Qed.

(** C10. In the optimizer parameters handed over, the key clip_gradient is
    present if and only if the requested value is not negative (for an
    integer, zero or more), and the key momentum if and only if the
    requested momentum is not None; a key that is present maps to the
    requested value. *)
Theorem clip_gradient_and_momentum_keys (args : dict) (f : filesystem)
    (m : TrainingModel) (train_iter eval_iter : DataIter) (kw : fit_kwargs) :
  EvCall (fit m train_iter eval_iter kw) ∈ trace (run (main args) f).2 ->
  (exists requested,
     args !! "clip_gradient" = Some requested /\
     (is_Some (fit_optimizer_params kw !! "clip_gradient") <->
      lt_int requested 0 = Ok false) /\
     (forall z, requested = VInt z ->
                (is_Some (fit_optimizer_params kw !! "clip_gradient") <-> (0 <= z)%Z)) /\
     (forall x, fit_optimizer_params kw !! "clip_gradient" = Some x ->
                x = PValue requested)) /\
  (exists momentum,
     args !! "momentum" = Some momentum /\
     (is_Some (fit_optimizer_params kw !! "momentum") <-> momentum <> VNone) /\
     (forall x, fit_optimizer_params kw !! "momentum" = Some x -> x = PValue momentum)).
Proof.
  intros Hin.
  destruct (handoff_in_main _ _ _ _ _ _ Hin)
    as ((requested & below & Hreq & Hlt & Hclip) & (momentum & Hmom & Hm) & _).
  split.
  - exists requested. split; [exact Hreq | ].
    assert (Hiff : is_Some (fit_optimizer_params kw !! "clip_gradient") <->
                   lt_int requested 0 = Ok false).
    { rewrite Hclip, Hlt. destruct below; split;
        [intros [? [=]] | discriminate | reflexivity | eauto]. }
    split; [exact Hiff | split].
    + intros z ->. rewrite Hiff, lt_int_zero_int.
      destruct (Z.ltb_spec z 0); split; try reflexivity; try discriminate; lia.
    + intros x. rewrite Hclip. destruct below; now intros [= <-].
  - exists momentum. split; [exact Hmom | ]. rewrite Hm. split.
    + destruct momentum; simpl; split;
        try (intros [? [=]]); try congruence; try discriminate; eauto.
    + intros x. destruct (is_none momentum); now intros [= <-].
Qed.

End OptimizerParams.

(** ** Validation and defaulting *)

Section Validation.
Context `{Collaborators} `{Constants} `{!Environment}.

Lemma gt_int_int (z n : Z) : gt_int (VInt z) n = Ok (n <? z)%Z.
Proof.
  unfold gt_int. simpl. rewrite Z.ltb_antisym. unfold Z.leb.
  now destruct (z ?= n)%Z.
Qed.

(** C8. With residual connections requested, the check of lines 88-89
    raises the configuration error if and only if the number of RNN layers
    is 2 or fewer, and passes if and only if it is 3 or more; in [main],
    once the checks before it have passed, 2 or fewer layers end the run
    with that error. *)
Theorem residual_connections_need_three_layers
    (args : dict) (requested : value) (layers : Z) :
  args !! "rnn_residual_connections" = Some requested ->
  truthy requested = true ->
  args !! "rnn_num_layers" = Some (VInt layers) ->
  (forall st,
     (check_rnn_residual_connections args st
        = (Raise (SockeyeError residual_message), st) <-> (layers <= 2)%Z) /\
     (check_rnn_residual_connections args st = (Ok tt, st) <-> (3 <= layers)%Z)) /\
  (forall f st1,
     run (seed_rngs args ;;; check_fused_rnn args) f = (Ok tt, st1) ->
     (layers <= 2)%Z ->
     run (main args) f = (Raise (SockeyeError residual_message), st1)).
Proof.
  intros Hres Htr Hlayers.
  assert (Hcheck : forall st,
             check_rnn_residual_connections args st =
             (if (2 <? layers)%Z then Ok tt else Raise (SockeyeError residual_message), st)).
  { intros st. unfold check_rnn_residual_connections.
    rewrite bind_run, attr_run, Hres. cbn [fst snd]. rewrite Htr.
    rewrite bind_run, attr_run, Hlayers. cbn [fst snd].
    rewrite bind_run, lift_run, gt_int_int. cbn [fst snd].
    apply check_condition_run. }
  split.
  - intros st. rewrite Hcheck.
    destruct (Z.ltb_spec 2 layers); split; split; intros Hx;
      try discriminate; try reflexivity; lia.
  - intros f st1 Hpre Hfew. unfold run in *. unfold main, preflight.
    rewrite bind_run, bind_run. rewrite bind_run in Hpre.
    destruct (seed_rngs args (initial_state f)) as [[[] | e] st0]; cbn [fst snd] in *;
      [ | discriminate].
    rewrite bind_run, Hpre. cbn [fst snd]. rewrite bind_run, Hcheck.
    destruct (Z.ltb_spec 2 layers); [lia | reflexivity].
Qed.





End Validation.

(** ** The learning-rate scheduler *)

Section SchedulerFacts.
Context `{Collaborators} `{Constants} `{!Environment}.

Lemma preflight_startup (args : dict) (f : filesystem) :
  hoare (eq f) startup_event (preflight args) (fun _ => True).
Proof. hoare_walk. Qed.

Lemma check_output_folder_startup (args : dict) :
  hoare (fun _ => True) startup_event (check_output_folder args) (fun _ => True).
Proof. hoare_walk. Qed.

Lemma log_and_save_args_startup (args : dict) (o : string) :
  hoare (fun _ => True) startup_event (log_and_save_args args o) (fun _ => True).
Proof. hoare_walk. Qed.

(** [main] once the decision is taken: the trace is what came before the
    [with] block and what the training stage adds to it, on the file system
    the decision left with [args.json] rewritten. *)
Lemma main_after_decision (P : event -> Prop) (Q : unit -> Prop)
    (args : dict) (f : filesystem) (st1 st2 : state) (o t : string) (resume : bool) :
  run (preflight args) f = (Ok tt, st1) ->
  check_output_folder args st1 = (Ok (o, t, resume), st2) ->
  (forall e, startup_event e -> P e) ->
  (forall ids, P (EvReleaseGpus ids)) ->
  (forall seen,
     (resume = true -> seen = <[os_path_join o ARGS_STATE_NAME := File (CJson args)]> f) ->
     hoare (eq seen) P (train args o t resume) Q) ->
  Forall P (trace (run (main args) f).2) /\
  (forall a, (run (main args) f).1 = Ok a -> Q a).
Proof.
  intros Epre Echk Hstart Hrelease Htrain. unfold run in *.
  destruct (hoare_run (eq f) _ _ _ (initial_state f) st1 _
              (preflight_startup args f) eq_refl Epre) as (Hfs1 & (evs1 & Ht1 & Hev1) & _).
  cbn [initial_state fs trace] in Hfs1, Ht1. rewrite app_nil_l in Ht1.
  destruct (hoare_run _ _ _ _ st1 st2 _
              (check_output_folder_startup args) Logic.I Echk) as (_ & (evs2 & Ht2 & Hev2) & _).
  pose proof (check_output_folder_decides args st1) as Hdec.
  rewrite Echk in Hdec. cbn [fst snd] in Hdec.
  destruct Hdec as (Hspec & Hsame & Hquiet & _).
  rewrite main_run, Epre, Echk. cbn [fst snd].
  destruct (log_and_save_args args o st2) as [[[] | e] st3] eqn:Esave.
  - destruct (hoare_run _ _ _ _ st2 st3 _
                (log_and_save_args_startup args o) Logic.I Esave)
      as (_ & (evs3 & Ht3 & Hev3) & _).
    assert (Hseen : resume = true ->
                    fs st3 = <[os_path_join o ARGS_STATE_NAME := File (CJson args)]> f).
    { intros ->. rewrite Hfs1, <- (Hsame eq_refl).
      destruct (spec_decide_resume _ _ Hspec) as (output & persisted & _ & Hfile & _).
      pose proof (check_output_folder_decides args st1) as Hdec.
      rewrite Echk in Hdec. cbn [fst snd] in Hdec.
      destruct Hdec as (_ & _ & _ & output' & Ho' & -> & _).
      destruct (spec_decide_resume _ _ Hspec) as (output2 & persisted2 & Ho2 & Hfile2 & _).
      rewrite Ho' in Ho2. injection Ho2 as <-.
      destruct (log_and_save_args_writes args (abspath output') st2 Hquiet)
        as (st3' & Esave' & Hfs3).
      { rewrite (Hsame eq_refl), Hfile2. discriminate. }
      rewrite Esave in Esave'. injection Esave' as <-. exact Hfs3. }
    pose proof (hoare_with_exit_stack (eq (fs st3)) P _ Q Hrelease
                  (Htrain (fs st3) Hseen) st3 eq_refl) as (_ & (evs4 & Ht4 & Hev4) & HQ).
    split; [ | exact HQ].
    rewrite Ht4, Ht3, Ht2, Ht1. repeat apply Forall_app_2; try assumption;
      eapply Forall_impl; eauto.
  - destruct (hoare_run _ _ _ _ st2 st3 _
                (log_and_save_args_startup args o) Logic.I Esave)
      as (_ & (evs3 & Ht3 & Hev3) & _).
    cbn [fst snd]. split; [ | intros ? [=]].
    rewrite Ht3, Ht2, Ht1. repeat apply Forall_app_2; eapply Forall_impl; eauto.
Qed.

Lemma learning_rate_scheduling_fresh (I : filesystem -> Prop) (P : event -> Prop)
    (args : dict) (t : string) :
  (forall a b c d e, P (EvCall (get_lr_scheduler a b c d e))) ->
  hoare I P (learning_rate_scheduling args t false) (built_anew args).
Proof.
  intros HP. unfold learning_rate_scheduling. cbn [negb].
  hoare_walk; cbv beta in *.
  - apply HP.
  - unfold built_anew. repeat eexists; eassumption.
Qed.

Lemma learning_rate_scheduling_resume (P : event -> Prop) (seen : filesystem)
    (args : dict) (t : string) :
  hoare (eq seen) P (learning_rate_scheduling args t true)
    (fun lr => seen !! os_path_join t SCHEDULER_STATE_NAME = Some (File (CPickle lr))).
Proof.
  unfold learning_rate_scheduling. cbn [negb].
  eapply hoare_bind; [hoare_walk | intros ? _].
  eapply hoare_bind; [hoare_walk | intros ? _].
  eapply hoare_bind; [apply hoare_open_read_at | ].
  intros c Hc. apply hoare_pickle_load. now intros o ->.
Qed.




End SchedulerFacts.

(** * Further facts *)

Section HelperFacts.

Lemma int_float_compare_zero (f : spec_float) :
  int_float_compare 0 f =
  match f with
  | S754_nan => None
  | S754_zero _ => Some Eq
  | _ => Some (if negative_float f then Gt else Lt)
  end.
Proof.
  destruct f as [s | s | | s m e]; simpl; try reflexivity.
  - now destruct s.
  - f_equal. destruct e as [ | p | p].
    + rewrite Z.shiftl_0_r. now destruct s.
    + rewrite Z.shiftl_mul_pow2 by lia.
      pose proof (Z.pow_pos_nonneg 2 (Z.pos p) ltac:(lia) ltac:(lia)).
      destruct s; simpl cond_Zopp.
      * match goal with
        | |- match ?x with _ => _ end = _ =>
            assert (x < 0)%Z by nia; destruct x; [lia | lia | reflexivity]
        end.
      * match goal with
        | |- match ?x with _ => _ end = _ =>
            assert (0 < x)%Z by nia; destruct x; [lia | reflexivity | lia]
        end.
    + rewrite Z.shiftl_0_l. now destruct s.
Qed.

(** X1. [none_if_negative] returns None for an integer below zero and for a
    float below zero (a negative finite number or minus infinity); any
    other number comes back unchanged (zero, minus zero, NaN, a boolean);
    None, a string or a list raise [TypeError]. *)
Theorem none_if_negative_by_sign (val : value) :
  none_if_negative val =
  match val with
  | VInt z => Ok (if (z <? 0)%Z then VNone else val)
  | VFloat f => Ok (if negative_float f then VNone else val)
  | VBool _ => Ok val
  | _ => Raise TypeError
  end.
Proof.
  destruct val as [ | b | z | f | s | l]; try reflexivity.
  - now destruct b.
  - unfold none_if_negative, lt_int. cbn [as_number num_compare].
    rewrite int_float_compare_zero.
    destruct f as [s | s | | s m e]; try reflexivity; now destruct s.
Qed.

(** X2. [_dict_difference] is one-sided: it reports keys of its first
    dictionary only. From an empty first dictionary it reports nothing;
    against an empty second one, every key of the first. *)
Theorem dict_difference_one_sided (dict1 dict2 : dict) :
  _dict_difference dict1 dict2 ⊆ dom dict1 /\
  _dict_difference ∅ dict2 = ∅ /\
  _dict_difference dict1 ∅ = dom dict1.
Proof.
  split; [ | split].
  - intros k. rewrite elem_of_dict_difference, elem_of_dom.
    intros (v & Hv & _). eauto.
  - reflexivity.
  - apply set_eq. intros k. rewrite elem_of_dict_difference, elem_of_dom.
    rewrite lookup_empty. split; [intros (v & Hv & _); eauto | intros [v Hv]; eauto].
Qed.

(** X3. The union of the two one-sided differences, as line 108 takes it,
    is empty if and only if the two dictionaries have the same keys and,
    under each key, values that are [==]. *)
Theorem dict_differences_empty_iff (dict1 dict2 : dict) :
  _dict_difference dict1 dict2 ∪ _dict_difference dict2 dict1 = ∅ <->
  dom dict1 = dom dict2 /\
  forall k v w, dict1 !! k = Some v -> dict2 !! k = Some w -> py_eqb v w = true.
Proof.
  split.
  - intros Hempty.
    assert (Hno : forall k, ~ (k ∈ _dict_difference dict1 dict2) /\
                            ~ (k ∈ _dict_difference dict2 dict1)).
    { intros k. split; intros Hin;
        apply (not_elem_of_empty (C := gset string) k); rewrite <- Hempty;
        apply elem_of_union; auto. }
    split.
    + apply set_eq. intros k. rewrite !elem_of_dom.
      destruct (Hno k) as [H12 H21]. rewrite elem_of_dict_difference in H12, H21.
      destruct (dict1 !! k) as [v | ] eqn:E1, (dict2 !! k) as [w | ] eqn:E2;
        split; intros [x Hx]; try discriminate; eauto.
      * destruct H12. eauto.
      * destruct H21. eauto.
    + intros k v w Hv Hw. destruct (Hno k) as [H12 _].
      rewrite elem_of_dict_difference in H12.
      destruct (py_eqb v w) eqn:E; [reflexivity | ].
      destruct H12. exists v. split; [done | ]. rewrite Hw.
      unfold py_neb. now rewrite py_eqb_sym, E.
  - intros [Hdom Heq]. apply set_eq. intros k.
    rewrite elem_of_union, !elem_of_dict_difference.
    split; [ | intros Hin; now apply not_elem_of_empty in Hin].
    assert (Hk : is_Some (dict1 !! k) <-> is_Some (dict2 !! k)).
    { rewrite <- !elem_of_dom. now rewrite Hdom. }
    intros [(v & Hv & Hd) | (w & Hw & Hd)].
    + destruct (dict2 !! k) as [w | ] eqn:Hw.
      * unfold py_neb in Hd. rewrite py_eqb_sym, (Heq k v w Hv Hw) in Hd. discriminate.
      * destruct (proj1 Hk) as [? [=]]. eauto.
    + destruct (dict1 !! k) as [v | ] eqn:Hv.
      * unfold py_neb in Hd. rewrite (Heq k v w Hv Hw) in Hd. discriminate.
      * destruct (proj2 Hk) as [? [=]]. eauto.
Qed.

(** X4. In the union of line 108 the second difference adds only the keys
    that the first dictionary lacks: on a key that both have, the two
    directions agree. *)
Theorem dict_differences_second_adds_missing_keys (dict1 dict2 : dict) :
  _dict_difference dict1 dict2 ∪ _dict_difference dict2 dict1 =
  _dict_difference dict1 dict2 ∪ (dom dict2 ∖ dom dict1).
Proof.
  apply set_eq. intros k.
  rewrite !elem_of_union, elem_of_difference, !elem_of_dict_difference, !elem_of_dom.
  destruct (dict1 !! k) as [v | ] eqn:E1, (dict2 !! k) as [w | ] eqn:E2.
  - split.
    + intros [H1 | (x & [= <-] & Hne)]; [now left | ].
      left. exists v. split; [done | ]. now rewrite py_neb_sym.
    + intros [H1 | [_ Hno]]; [now left | ]. destruct Hno. eauto.
  - split.
    + intros [H1 | (x & [=] & _)]. now left.
    + intros [H1 | [[x [=]] _]]. now left.
  - split.
    + intros _. right. split; [eauto | ]. intros [x [=]].
    + intros _. right. eauto.
  - split.
    + intros [(x & [=] & _) | (x & [=] & _)].
    + intros [(x & [=] & _) | [[x [=]] _]].
Qed.

Lemma py_eqb_nan_r (v : value) : py_eqb v (VFloat S754_nan) = false.
Proof.
  destruct v as [ | b | z | f | s | l]; try reflexivity.
  simpl. unfold num_eqb. simpl. now destruct f.
Qed.

(** X5. A key under which the first dictionary holds a NaN is always
    reported, whatever the second dictionary holds, and even against the
    dictionary itself: NaN is [!=] to everything. *)
Theorem dict_difference_nan (dict1 dict2 : dict) (k : string) :
  dict1 !! k = Some (VFloat S754_nan) ->
  k ∈ _dict_difference dict1 dict2 /\ k ∈ _dict_difference dict1 dict1.
Proof.
  intros Hk. rewrite !elem_of_dict_difference. split.
  - eexists. split; [exact Hk | ]. destruct (dict2 !! k); [ | done].
    unfold py_neb. now rewrite py_eqb_nan_r.
  - eexists. split; [exact Hk | ]. rewrite Hk. reflexivity.
Qed.

Lemma SFcompare_refl (x : spec_float) : x <> S754_nan -> SFcompare x x = Some Eq.
Proof.
  destruct x as [s | s | | s m e]; simpl; try congruence; intros _.
  - now destruct s.
  - f_equal. destruct s; rewrite Z.compare_refl, Pos.compare_cont_refl; reflexivity.
Qed.

Lemma py_eqb_refl (v : value) : nan_free v = true -> py_eqb v v = true.
Proof.
  induction v as [ | x | x | x | x | l IH] using value_nested_ind; simpl; intros Hfree;
    try reflexivity.
  - unfold num_eqb. simpl. now rewrite Z.compare_refl.
  - unfold num_eqb. simpl. now rewrite Z.compare_refl.
  - unfold num_eqb. simpl. rewrite SFcompare_refl; [reflexivity | ].
    intros ->. discriminate.
  - apply String.eqb_refl.
  - induction IH as [ | a l Ha _ IHl]; [reflexivity | ].
    simpl in Hfree. apply andb_true_iff in Hfree as [Hf1 Hf2].
    now rewrite Ha, IHl.
Qed.

End HelperFacts.

Section StackFacts.
Context `{Collaborators} `{Constants} `{!Environment}.

Lemma held_snoc (tr : list event) (e : event) :
  held (tr ++ [e]) =
  match acquired e with Some ids => ids :: held tr | None => held tr end.
Proof.
  unfold held. rewrite omap_app. simpl.
  destruct (acquired e); simpl; [ | now rewrite app_nil_r].
  now rewrite rev_app_distr.
Qed.

Lemma held_none (tr : list event) :
  Forall (fun e => acquired e = None) tr -> held tr = [].
Proof.
  unfold held. induction 1 as [ | e tr He _ IH]; [reflexivity | ].
  simpl. rewrite He. exact IH.
Qed.

Lemma tracks_silent {A} (m : M A) :
  (forall st, (m st).2 = st) -> tracks m.
Proof. intros Hm st Hst. now rewrite Hm. Qed.

Lemma tracks_bind {A B} (m : M A) (f : A -> M B) :
  tracks m -> (forall a, tracks (f a)) -> tracks (bind m f).
Proof.
  intros Hm Hf st Hst. rewrite bind_run. specialize (Hm st Hst).
  destruct (m st) as [[a | e] st1]; cbn [fst snd] in *; [ | exact Hm].
  now apply Hf.
Qed.

Lemma tracks_emit (e : event) : acquired e = None -> tracks (emit e).
Proof.
  intros He st Hst. unfold tracked in *. simpl. now rewrite held_snoc, He.
Qed.

Lemma tracks_call {A} (c : extcall A) : acquired (EvCall c) = None -> tracks (call c).
Proof.
  intros He. unfold call. apply tracks_bind; [now apply tracks_emit | ].
  intros _. now apply tracks_silent.
Qed.

Lemma tracks_enter_acquire_gpus (device_ids lock_dir : value) :
  tracks (enter_acquire_gpus device_ids lock_dir).
Proof.
  intros st Hst. unfold enter_acquire_gpus. rewrite bind_run, call_run. cbn [fst snd].
  unfold tracked in *.
  destruct (respond _ (acquire_gpus device_ids lock_dir)) as [ids | e] eqn:E;
    cbn [snd exit_stack trace add_event]; rewrite held_snoc; simpl; rewrite E;
    now rewrite Hst.
Qed.

Ltac tracks_walk :=
  lazymatch goal with
  | |- tracks (bind _ _) => apply tracks_bind; [tracks_walk | intros ?; tracks_walk]
  | |- tracks (if ?b then _ else _) => destruct b; tracks_walk
  | |- tracks (enter_acquire_gpus _ _) => apply tracks_enter_acquire_gpus
  | |- tracks (call _) => apply tracks_call; reflexivity
  | |- tracks (emit _) => apply tracks_emit; reflexivity
  | |- tracks (new _) => apply tracks_emit; reflexivity
  | |- tracks (logger _ _ _) => apply tracks_emit; reflexivity
  | |- tracks (attr _ _) => apply tracks_silent; intros; now rewrite attr_run
  | |- tracks (check_condition _ _) =>
      apply tracks_silent; intros; now rewrite check_condition_run
  | |- tracks (os_path_abspath _) =>
      apply tracks_silent; intros; now rewrite os_path_abspath_run
  | |- tracks (open_read _) => apply tracks_silent; intros; now rewrite open_read_run
  | |- tracks (pickle_load _) => apply tracks_silent; intros; now rewrite pickle_load_run
  | |- tracks (ret _) => apply tracks_silent; reflexivity
  | |- tracks (lift _) => apply tracks_silent; reflexivity
  end.

(** The body of the [with] block keeps the exit stack in step with the
    trace. *)
Lemma train_tracks (args : dict) (o t : string) (resume : bool) :
  tracks (train args o t resume).
Proof.
  unfold train, device_context, load_or_create_vocabs, _build_or_load_vocab,
    make_data_info, create_data_iters, learning_rate_scheduling, model_configuration,
    create_training_model, make_initializer, make_optimizer_params.
  cbv zeta. tracks_walk.
Qed.

Lemma startup_not_acquired (e : event) : startup_event e -> acquired e = None.
Proof. destruct e as [A c | | | | | | ]; try done. now destruct c. Qed.

Lemma startup_not_release (e : event) : startup_event e -> not_release e.
Proof. now destruct e. Qed.

(** The trace of [main]: what the program did, then the release of the
    locks that were taken on the way. *)
Lemma main_trace (P : event -> Prop) (args : dict) (f : filesystem) :
  (forall e, startup_event e -> P e) ->
  (forall o t resume seen, hoare (eq seen) P (train args o t resume) (fun _ => True)) ->
  exists tr,
    trace (run (main args) f).2 = tr ++ map EvReleaseGpus (held tr) /\
    Forall P tr.
Proof.
  intros Hstart Htrain. unfold run. rewrite main_run.
  assert (Hquiet : forall tr, Forall startup_event tr ->
                     tr = tr ++ map EvReleaseGpus (held tr) /\ Forall P tr).
  { intros tr Htr. rewrite held_none, app_nil_r.
    - split; [reflexivity | ]. eapply Forall_impl; eauto.
    - eapply Forall_impl; [exact Htr | ]. apply startup_not_acquired. }
  destruct (preflight args (initial_state f)) as [[[] | e] st1] eqn:Epre;
    destruct (hoare_run (eq f) _ _ _ (initial_state f) st1 _
                (preflight_startup args f) eq_refl Epre) as (_ & (evs1 & Ht1 & Hev1) & _);
    cbn [initial_state trace] in Ht1; rewrite app_nil_l in Ht1;
    [ | exists (trace st1); cbn [snd]; apply Hquiet; now rewrite Ht1 ].
  destruct (check_output_folder args st1) as [[folder | e] st2] eqn:Echk;
    destruct (hoare_run _ _ _ _ st1 st2 _
                (check_output_folder_startup args) Logic.I Echk) as (_ & (evs2 & Ht2 & Hev2) & _);
    [ | exists (trace st2); cbn [snd]; apply Hquiet; rewrite Ht2, Ht1;
        now apply Forall_app ].
  destruct (log_and_save_args args folder.1.1 st2) as [[[] | e] st3] eqn:Esave;
    destruct (hoare_run _ _ _ _ st2 st3 _
                (log_and_save_args_startup args folder.1.1) Logic.I Esave)
      as (_ & (evs3 & Ht3 & Hev3) & _);
    [ | exists (trace st3); cbn [snd]; apply Hquiet; rewrite Ht3, Ht2, Ht1;
        repeat apply Forall_app_2; assumption ].
  assert (Hstartup : Forall startup_event (trace st3)).
  { rewrite Ht3, Ht2, Ht1. repeat apply Forall_app_2; assumption. }
  unfold with_exit_stack.
  set (st3' := {| fs := fs st3; trace := trace st3; exit_stack := [] |}).
  pose proof (train_tracks args folder.1.1 folder.1.2 folder.2 st3') as Htracked.
  destruct (Htrain folder.1.1 folder.1.2 folder.2 (fs st3) st3' eq_refl)
    as (_ & (evs4 & Ht4 & Hev4) & _).
  destruct (train args folder.1.1 folder.1.2 folder.2 st3') as [r st4].
  cbn [fst snd trace] in *.
  exists (trace st4). split.
  - rewrite Htracked; [reflexivity | ].
    unfold tracked. subst st3'. cbn [exit_stack trace]. symmetry. apply held_none.
    eapply Forall_impl; [exact Hstartup | ]. apply startup_not_acquired.
  - rewrite Ht4. subst st3'. cbn [trace]. apply Forall_app_2; [ | exact Hev4].
    eapply Forall_impl; eauto.
Qed.

Lemma train_never_releases (args : dict) (o t : string) (resume : bool) (seen : filesystem) :
  hoare (eq seen) not_release (train args o t resume) (fun _ => True).
Proof. hoare_walk. Qed.

(** X17. The trace of a run of [main] is what the program did, with no
    release in it, followed by the release of every set of GPU ids that
    [acquire_gpus] returned, most recent first: the locks taken are given
    back when the [with] block is left, whether training returned or
    raised, and nothing else is released. *)
Theorem gpus_released_when_main_ends (args : dict) (f : filesystem) :
  exists tr,
    trace (run (main args) f).2 = tr ++ map EvReleaseGpus (held tr) /\
    Forall not_release tr.
Proof.
  apply main_trace.
  - apply startup_not_release.
  - intros. apply train_never_releases.
Qed.

End StackFacts.

Section Cases.
Context `{Collaborators} `{Constants} `{!Environment}.

Lemma hoare_if_cases {A} (I : filesystem -> Prop) (P : event -> Prop)
    (b : bool) (m1 m2 : M A) (Q1 Q2 : A -> Prop) :
  (b = true -> hoare I P m1 Q1) -> (b = false -> hoare I P m2 Q2) ->
  hoare I P (if b then m1 else m2) (fun a => if b then Q1 a else Q2 a).
Proof. destruct b; auto. Qed.

Lemma is_none_true (v : value) : is_none v = true -> v = VNone.
Proof. now destruct v. Qed.

Lemma is_none_false (v : value) : is_none v = false -> v <> VNone.
Proof. now destruct v. Qed.

End Cases.

(** The walk of [hoare_walk_with], with the condition of each conditional
    kept in the context of its branches. *)
Ltac hoare_cases_with known :=
  lazymatch goal with
  | |- hoare _ _ (bind _ _) _ =>
      eapply hoare_bind; [hoare_cases_with known | intros ? ?; hoare_cases_with known]
  | |- hoare _ _ (if _ then _ else _) ?Q =>
      tryif is_evar Q
      then first [ eapply hoare_if_cases; intros ?; hoare_cases_with known
                 | eapply hoare_if_dec; hoare_cases_with known
                 | eapply hoare_weaken;
                   [ first [ eapply hoare_if_cases; intros ?
                           | eapply hoare_if_dec ]; hoare_cases_with known
                   | intros; exact Logic.I ] ]
      else (lazymatch goal with
            | |- hoare _ _ (if ?b then _ else _) _ => destruct b eqn:?
            end; hoare_cases_with known)
  | |- hoare _ _ (with_exit_stack _) _ =>
      apply hoare_with_exit_stack; [intros; hoare_event | hoare_cases_with known]
  | |- hoare _ _ _ _ =>
      first [ known
            | hoare_primitive
            | unfold_block; hoare_cases_with known
            | idtac ]
  | |- _ => idtac
  end.

Ltac hoare_cases := hoare_cases_with fail.

(** One step of a sequence, its result and what is known of it named. *)
Ltac hoare_step x Hx :=
  eapply hoare_bind; [hoare_cases | intros x Hx; cbv beta in Hx].

Section Devices.
Context `{Collaborators} `{Constants} `{!Environment}.

Lemma no_gpu_not_acquired (e : event) : no_gpu_event e -> acquired e = None.
Proof. destruct e as [A c | | | | | | ]; try done. now destruct c. Qed.

Lemma no_lock_not_acquired (args : dict) (e : event) :
  no_lock_event args e -> acquired e = None.
Proof. destruct e as [A c | | | | | | ]; try done. now destruct c. Qed.

Lemma train_on_cpu (args : dict) (o t : string) (resume : bool) (seen : filesystem)
    (use_cpu : value) :
  args !! "use_cpu" = Some use_cpu -> truthy use_cpu = true ->
  hoare (eq seen) no_gpu_event (train args o t resume) (fun _ => True).
Proof.
  intros Hcpu Htr. hoare_cases; simpl; congruence.
Qed.

(** X18. With use_cpu set, a run of [main] calls none of get_num_gpus,
    expand_requested_device_ids and acquire_gpus, and releases nothing. *)
Theorem cpu_training_never_touches_gpus (args : dict) (f : filesystem) (use_cpu : value) :
  args !! "use_cpu" = Some use_cpu -> truthy use_cpu = true ->
  Forall no_gpu_event (trace (run (main args) f).2).
Proof.
  intros Hcpu Htr.
  destruct (main_trace no_gpu_event args f) as (tr & -> & Hall).
  - now intros [A [] | | | | | | ].
  - intros. now apply train_on_cpu with use_cpu.
  - rewrite held_none, app_nil_r; [exact Hall | ].
    eapply Forall_impl; [exact Hall | ]. apply no_gpu_not_acquired.
Qed.

Lemma train_without_locks (args : dict) (o t : string) (resume : bool) (seen : filesystem)
    (disabled : value) :
  args !! "disable_device_locking" = Some disabled -> truthy disabled = true ->
  hoare (eq seen) (no_lock_event args) (train args o t resume) (fun _ => True).
Proof.
  intros Hdis Htr. hoare_cases; simpl; congruence.
Qed.

(** X19. With disable_device_locking set, a run of [main] never calls
    acquire_gpus and releases nothing; the device ids it expands are the
    device_ids of the request. *)
Theorem disabled_locking_takes_no_lock (args : dict) (f : filesystem) (disabled : value) :
  args !! "disable_device_locking" = Some disabled -> truthy disabled = true ->
  Forall (no_lock_event args) (trace (run (main args) f).2).
Proof.
  intros Hdis Htr.
  destruct (main_trace (no_lock_event args) args f) as (tr & -> & Hall).
  - now intros [A [] | | | | | | ].
  - intros. now apply train_without_locks with disabled.
  - rewrite held_none, app_nil_r; [exact Hall | ].
    eapply Forall_impl; [exact Hall | ]. apply no_lock_not_acquired.
Qed.

End Devices.

Lemma requested_words (args : dict) (sub : string) (given requested : value) :
  args !! sub = Some given ->
  (if is_none given then args !! "num_words" = Some requested
   else args !! sub = Some requested) ->
  if is_none given then args !! "num_words" = Some requested else given = requested.
Proof. intros Hg Hr. destruct (is_none given); congruence. Qed.

(** The vocabulary obtained for a side, from what the walk has in the context. *)
Ltac vocabulary :=
  match goal with
  | Hr : respond _ (if is_none ?p then vocab_build_from_path ?d ?n ?m
                    else vocab_from_json ?p) = Ok ?v
    |- vocabulary_of _ _ _ ?sub ?v =>
      match goal with
      | Hg : _ !! sub = Some ?g |- _ =>
          exists p, d, g, n, m;
          repeat split;
          [ eassumption | eassumption | eassumption
          | eapply requested_words; eassumption | eassumption | exact Hr ]
      end
  end.

Section Vocabularies.
Context `{Collaborators} `{Constants} `{!Environment}.

Lemma hoare_build_or_load_vocab (I : filesystem -> Prop) (P : event -> Prop)
    (existing_vocab_path data_path num_words word_min_count : value) :
  P (EvCall (if is_none existing_vocab_path
             then vocab_build_from_path data_path num_words word_min_count
             else vocab_from_json existing_vocab_path)) ->
  hoare I P (_build_or_load_vocab existing_vocab_path data_path num_words word_min_count)
    (fun v => respond _ (if is_none existing_vocab_path
                         then vocab_build_from_path data_path num_words word_min_count
                         else vocab_from_json existing_vocab_path) = Ok v).
Proof.
  unfold _build_or_load_vocab. destruct (is_none existing_vocab_path);
    intros HP; now apply hoare_call.
Qed.

Lemma creates_obtained (args : dict) (o : string)
    (existing_path data_path num_words min_count : value) :
  (args !! "source_vocab" = Some existing_path /\ args !! "source" = Some data_path) \/
  (args !! "target_vocab" = Some existing_path /\ args !! "target" = Some data_path) ->
  creates_vocabularies args o
    (EvCall (if is_none existing_path
             then vocab_build_from_path data_path num_words min_count
             else vocab_from_json existing_path)).
Proof.
  intros Hside. destruct (is_none existing_path) eqn:E; simpl.
  - apply is_none_true in E. subst. tauto.
  - apply is_none_false in E. tauto.
Qed.

Lemma load_or_create_vocabs_fresh (I : filesystem -> Prop) (args : dict) (o : string) :
  hoare I (creates_vocabularies args o) (load_or_create_vocabs args o false)
    (fun vocabs =>
       vocabulary_of args "source_vocab" "source" "num_words_source" vocabs.1 /\
       vocabulary_of args "target_vocab" "target" "num_words_target" vocabs.2).
Proof.
  unfold load_or_create_vocabs.
  hoare_cases_with ltac:(eapply hoare_build_or_load_vocab); cbv beta in *.
  - apply creates_obtained; auto.
  - simpl. left. split; [reflexivity | vocabulary].
  - apply creates_obtained; auto.
  - simpl. right. split; [reflexivity | vocabulary].
  - simpl. split; vocabulary.
Qed.

Lemma train_creates_vocabularies (args : dict) (o t : string) (seen : filesystem) :
  hoare (eq seen) (creates_vocabularies args o) (train args o t false) (fun _ => True).
Proof.
  hoare_cases_with ltac:(apply load_or_create_vocabs_fresh); cbv beta in *.
  simpl. assumption.
Qed.

(** X20. On a fresh start no vocabulary is read from the output folder;
    [vocab.build_from_path] is called only on the data of a side whose
    vocabulary file is None, [vocab.vocab_from_json] only on the vocabulary
    file of a side; what is written to VOCAB_SRC_NAME and VOCAB_TRG_NAME
    (with JSON_SUFFIX) of the output folder, and what the data iterators
    get, are the vocabularies so obtained, built with the number of words
    of the side (num_words when that is None) and word_min_count. *)
Theorem fresh_start_creates_vocabularies
    (args : dict) (f : filesystem) (st1 st2 : state) (o t : string) :
  run (preflight args) f = (Ok tt, st1) ->
  check_output_folder args st1 = (Ok (o, t, false), st2) ->
  Forall (creates_vocabularies args o) (trace (run (main args) f).2).
Proof.
  intros Epre Echk.
  destruct (main_after_decision (creates_vocabularies args o) (fun _ => True)
              args f st1 st2 o t false Epre Echk) as [Hall _].
  - now intros [A [] | | | | | | ].
  - intros ids. exact Logic.I.
  - intros seen _. apply train_creates_vocabularies.
  - exact Hall.
Qed.

Lemma train_reloads_vocabularies (args : dict) (o t : string) (seen : filesystem) :
  hoare (eq seen) (reloads_vocabularies o) (train args o t true) (fun _ => True).
Proof. hoare_cases; simpl; auto. Qed.

(** X21. On resume no vocabulary is built, loaded from a file of the
    request or written: the vocabularies are read from VOCAB_SRC_NAME and
    VOCAB_TRG_NAME of the output folder (without JSON_SUFFIX). *)
Theorem resume_reloads_vocabularies
    (args : dict) (f : filesystem) (st1 st2 : state) (o t : string) :
  run (preflight args) f = (Ok tt, st1) ->
  check_output_folder args st1 = (Ok (o, t, true), st2) ->
  Forall (reloads_vocabularies o) (trace (run (main args) f).2).
Proof.
  intros Epre Echk.
  destruct (main_after_decision (reloads_vocabularies o) (fun _ => True)
              args f st1 st2 o t true Epre Echk) as [Hall _].
  - now intros [A [] | | | | | | ].
  - intros ids. exact Logic.I.
  - intros seen _. apply train_reloads_vocabularies.
  - exact Hall.
Qed.

End Vocabularies.

Section ModelFacts.
Context `{Collaborators} `{Constants} `{!Environment}.

Lemma train_loads_parameters (args : dict) (o t : string) (resume : bool)
    (seen : filesystem) :
  hoare (eq seen) (loads_parameters args t resume) (train args o t resume) (fun _ => True).
Proof.
  destruct resume; hoare_cases; simpl; auto.
  split; congruence.
Qed.

(** X24. Parameters are loaded from TRAINING_STATE_PARAMS_NAME of the
    training state on resume, whatever params says; on a fresh start they
    are loaded from the file under params when that is truthy, and not
    at all otherwise. *)
Theorem parameters_loaded_from
    (args : dict) (f : filesystem) (st1 st2 : state) (o t : string) (resume : bool) :
  run (preflight args) f = (Ok tt, st1) ->
  check_output_folder args st1 = (Ok (o, t, resume), st2) ->
  Forall (loads_parameters args t resume) (trace (run (main args) f).2).
Proof.
  intros Epre Echk.
  destruct (main_after_decision (loads_parameters args t resume) (fun _ => True)
              args f st1 st2 o t resume Epre Echk) as [Hall _].
  - now intros [A [] | | | | | | ].
  - intros ids. exact Logic.I.
  - intros seen _. apply train_loads_parameters.
  - exact Hall.
Qed.

Lemma make_initializer_initializes (I : filesystem -> Prop) (args : dict)
    (vocab_source vocab_target : Vocab) :
  hoare I (initializes args) (make_initializer args vocab_source vocab_target)
    (fun _ => True).
Proof.
  unfold make_initializer.
  eapply hoare_bind; [hoare_primitive | intros lexical Hlexical].
  apply hoare_bind with (Q := lexicon_of args).
  - destruct (truthy lexical) eqn:Etr.
    + hoare_cases; cbv beta in *.
      * simpl. split; congruence.
      * exists lexical. split; [assumption | ]. split; [assumption | ].
        exists vocab_source, vocab_target. congruence.
    + apply hoare_ret. exists lexical. auto.
  - intros lexicon Hlexicon. hoare_cases; cbv beta in *. simpl. auto.
Qed.

Lemma main_initializes (args : dict) :
  hoare (fun _ => True) (initializes args) (main args) (fun _ => True).
Proof. hoare_walk_with ltac:(apply make_initializer_initializes). Qed.

(** X25. [lexicon.initialize_lexicon] is called only with a truthy
    lexical_bias; the weight initializer is made from rnn_h2h_init and the
    lexicon so initialized, or None when lexical_bias is falsy. *)
Theorem initializer_made_from_request (args : dict) (f : filesystem) :
  Forall (initializes args) (trace (run (main args) f).2).
Proof.
  unfold run.
  destruct (main_initializes args (initial_state f) Logic.I) as (_ & (evs & -> & Hall) & _).
  exact Hall.
Qed.

Lemma train_hands_over (args : dict) (o t : string) (resume : bool) (seen : filesystem) :
  hoare (eq seen) (hands_over args o) (train args o t resume)
    (fun _ => exists m train_iter eval_iter kw,
         respond _ (fit m train_iter eval_iter kw) = Ok tt /\ handed_over args o kw).
Proof.
  unfold train. hoare_walk; cbv beta in *.
  - simpl. unfold handed_over. simpl. tauto.
  - match goal with
    | Hr : respond _ (fit _ _ _ _) = Ok ?u |- _ =>
        destruct u; eexists _, _, _, _; split; [exact Hr | ];
        unfold handed_over; simpl; tauto
    end.
Qed.

(** X27. Every call of [fit] gets the absolute path of the output folder
    and the options of the request (keep_last_params as
    max_params_files_to_keep, max_num_checkpoint_not_improved as
    max_num_not_improved, the others under their own names); and [main]
    returns normally only if such a call has returned. *)
Theorem training_handoff
    (args : dict) (f : filesystem) (st1 st2 : state) (o t : string) (resume : bool) :
  run (preflight args) f = (Ok tt, st1) ->
  check_output_folder args st1 = (Ok (o, t, resume), st2) ->
  absolute args "output" o /\
  Forall (hands_over args o) (trace (run (main args) f).2) /\
  ((run (main args) f).1 = Ok tt ->
   exists m train_iter eval_iter kw,
     respond _ (fit m train_iter eval_iter kw) = Ok tt /\ handed_over args o kw).
Proof.
  intros Epre Echk. split.
  - pose proof (check_output_folder_decides args st1) as Hdec.
    rewrite Echk in Hdec. cbn [fst snd] in Hdec.
    destruct Hdec as (_ & _ & _ & output & Ho & -> & _). exists output. auto.
  - destruct (main_after_decision (hands_over args o)
                (fun _ => exists m train_iter eval_iter kw,
                     respond _ (fit m train_iter eval_iter kw) = Ok tt /\
                     handed_over args o kw)
                args f st1 st2 o t resume Epre Echk) as [Hall Hret].
    + now intros [A [] | | | | | | ].
    + intros ids. exact Logic.I.
    + intros seen _. apply train_hands_over.
    + split; [exact Hall | apply Hret].
Qed.

Lemma hoare_os_path_abspath_given (I : filesystem -> Prop) (P : event -> Prop) (v : value) :
  hoare I P (os_path_abspath v) (fun path => exists s, v = VStr s /\ path = abspath s).
Proof. apply hoare_os_path_abspath. eauto. Qed.

Ltac absolute_path :=
  match goal with
  | Hp : exists s, ?v = VStr s /\ ?path = abspath s |- absolute _ ?name ?path =>
      match goal with
      | Hv : _ !! name = Some v |- _ =>
          destruct Hp as (s & -> & ->); exists s; split; [exact Hv | reflexivity]
      end
  end.

Lemma make_data_info_paths (I : filesystem -> Prop) (args : dict) :
  hoare I (feeds_data args) (make_data_info args) (data_paths args).
Proof.
  assert (Hpaths : forall source target validation_source validation_target
                          (a0 a2 a4 a6 : string) a7 a8,
             args !! "source" = Some source ->
             (exists s, source = VStr s /\ a0 = abspath s) ->
             args !! "target" = Some target ->
             (exists s, target = VStr s /\ a2 = abspath s) ->
             args !! "validation_source" = Some validation_source ->
             (exists s, validation_source = VStr s /\ a4 = abspath s) ->
             args !! "validation_target" = Some validation_target ->
             (exists s, validation_target = VStr s /\ a6 = abspath s) ->
             data_paths args
               {| di_source := a0; di_target := a2; di_validation_source := a4;
                  di_validation_target := a6; di_source_vocab := a7;
                  di_target_vocab := a8 |}).
  { intros. unfold data_paths. cbn [di_source di_target di_validation_source
                                    di_validation_target].
    repeat split; absolute_path. }
  unfold make_data_info.
  hoare_walk_with ltac:(apply hoare_os_path_abspath_given); cbv beta in *;
    [simpl | ]; eapply Hpaths; eassumption.
Qed.

Lemma main_feeds_data (args : dict) :
  hoare (fun _ => True) (feeds_data args) (main args) (fun _ => True).
Proof.
  hoare_walk_with ltac:(apply make_data_info_paths); cbv beta in *; simpl;
    unfold bucketing_of.
  - match goal with Hd : data_paths _ _ |- _ => destruct Hd as (? & ? & ? & ?) end.
    repeat split; eauto.
  - eauto.
Qed.

(** X22. The data iterators get the absolute paths of the four data
    files of the request, with its batch size, fill-up and bucket width;
    they and the training model get the same bucketing flag, the negation
    of no_bucketing, and the training model the use_fused_rnn of the
    request. *)
Theorem data_read_from_absolute_paths (args : dict) (f : filesystem) :
  Forall (feeds_data args) (trace (run (main args) f).2).
Proof.
  unfold run.
  destruct (main_feeds_data args (initial_state f) Logic.I) as (_ & (evs & -> & Hall) & _).
  exact Hall.
Qed.

Lemma model_configuration_coherent (I : filesystem -> Prop) (args : dict)
    (vocab_source_size vocab_target_size : nat) (max_seq_len_source : value) :
  hoare I (configures_coherently args)
    (model_configuration args vocab_source_size vocab_target_size max_seq_len_source)
    (coherent args).
Proof.
  unfold model_configuration.
  hoare_step sub_source Hsub_source. hoare_step num_embed_source Hnum_embed_source.
  hoare_step sub_target Hsub_target. hoare_step num_embed_target Hnum_embed_target.
  hoare_step cell_type Hcell_type. hoare_step num_hidden Hnum_hidden.
  hoare_step num_layers Hnum_layers. hoare_step dropout Hdropout.
  hoare_step residual Hresidual. hoare_step forget_bias Hforget_bias.
  hoare_step u1 Hu1. hoare_step encoder Hencoder.
  apply hoare_bind
    with (Q := fun config_conv =>
                 match config_conv with
                 | Some conv =>
                     py_eqb encoder (VStr RNN_WITH_CONV_EMBED_NAME) = true /\
                     conv_num_embed conv = num_embed_source /\
                     args !! "dropout" = Some (conv_dropout conv)
                 | None => py_eqb encoder (VStr RNN_WITH_CONV_EMBED_NAME) = false
                 end).
  { destruct (py_eqb encoder (VStr RNN_WITH_CONV_EMBED_NAME)) eqn:Econv.
    - hoare_cases; cbv beta in *. simpl. auto.
    - now apply hoare_ret. }
  intros config_conv Hconv.
  hoare_step u2 Hu2. hoare_step dropout_dec Hdropout_dec.
  hoare_step weight_tying Hweight_tying. hoare_step context_gating Hcontext_gating.
  hoare_step layer_normalization Hlayer_normalization. hoare_step u3 Hu3.
  hoare_step requested Hrequested. hoare_step attention_num_hidden Hattention_num_hidden.
  hoare_step attention_type Hattention_type.
  apply hoare_bind
    with (Q := fun config_coverage =>
                 match config_coverage with
                 | Some coverage =>
                     py_eqb attention_type (VStr "coverage") = true /\
                     args !! "layer_normalization" = Some (cov_layer_normalization coverage)
                 | None => py_eqb attention_type (VStr "coverage") = false
                 end).
  { destruct (py_eqb attention_type (VStr "coverage")) eqn:Ecov.
    - hoare_cases; cbv beta in *. simpl. auto.
    - now apply hoare_ret. }
  intros config_coverage Hcoverage.
  hoare_step attention_type' Hattention_type'.
  hoare_step input_previous_word Hinput_previous_word.
  hoare_step layer_normalization' Hlayer_normalization'.
  hoare_step u4 Hu4. hoare_step loss Hloss. hoare_step normalize Hnormalize.
  hoare_step alpha Halpha. hoare_step u5 Hu5.
  hoare_step lexical Hlexical. hoare_step learn_lexical Hlearn_lexical.
  match goal with
  | |- hoare _ _ (bind (new (NewModelConfig ?c)) _) _ =>
      assert (Hcoherent : coherent args c)
  end.
  { unfold coherent. cbn. repeat split; try assumption.
    - exists encoder. split; [assumption | ]. destruct config_conv as [conv | ]; tauto.
    - replace attention_type' with attention_type by congruence.
      destruct config_coverage as [coverage | ]; [ | assumption].
      destruct Hcoverage. split; [assumption | congruence].
    - exists requested. split; [assumption | ].
      destruct (truthy requested); simpl in *; congruence. }
  hoare_cases; assumption.
Qed.

Lemma main_configures_coherently (args : dict) :
  hoare (fun _ => True) (configures_coherently args) (main args) (fun _ => True).
Proof.
  hoare_walk_with ltac:(apply model_configuration_coherent); cbv beta in *.
  simpl. assumption.
Qed.

(** X23. The model configuration that is built, frozen and handed to
    the training model is coherent: encoder and decoder share one RNN
    configuration; the vocabulary sizes of encoder, decoder and loss are
    those of the model; the one dropout of the request is that of the RNN,
    of the decoder and of the convolutional embedding; there is a
    convolutional embedding exactly when the encoder is
    RNN_WITH_CONV_EMBED_NAME, a coverage configuration exactly when the
    attention type is coverage; the hidden size of the attention is
    attention_num_hidden, or rnn_num_hidden when that is falsy (None or
    0). *)
Theorem model_configuration_is_coherent (args : dict) (f : filesystem) :
  Forall (configures_coherently args) (trace (run (main args) f).2).
Proof.
  unfold run.
  destruct (main_configures_coherently args (initial_state f) Logic.I)
    as (_ & (evs & -> & Hall) & _).
  exact Hall.
Qed.

End ModelFacts.

Section Preflight.
Context `{Collaborators} `{Constants} `{!Environment}.

Lemma bind_assoc_run {A B C} (m : M A) (f : A -> M B) (g : B -> M C) (st : state) :
  bind (bind m f) g st = bind m (fun a => bind (f a) g) st.
Proof.
  unfold bind. destruct (m st) as [[a | e] st1]; [ | reflexivity].
  reflexivity.
Qed.

(** [main] after the seeding. *)
Lemma main_past_seeding (args : dict) :
  hoare (fun _ => True) past_seeding
    ((check_fused_rnn args ;;;
      check_rnn_residual_connections args ;;;
      check_optimized_metric args) ;;;
     folder <- check_output_folder args ;;
     log_and_save_args args folder.1.1 ;;;
     with_exit_stack (train args folder.1.1 folder.1.2 folder.2))
    (fun _ => True).
Proof. hoare_walk. Qed.

(** X6. With a seed in the request and seeding calls that return, a run of
    [main] starts by seeding numpy, random and mxnet, in that order, with
    that seed; no generator is seeded again. *)
Theorem rngs_seeded_first (args : dict) (f : filesystem) (seed : value) :
  args !! "seed" = Some seed ->
  respond _ (np_random_seed seed) = Ok tt ->
  respond _ (random_seed seed) = Ok tt ->
  respond _ (mx_random_seed seed) = Ok tt ->
  exists rest,
    trace (run (main args) f).2 =
      [EvCall (np_random_seed seed); EvCall (random_seed seed);
       EvCall (mx_random_seed seed)] ++ rest /\
    Forall past_seeding rest.
Proof.
  intros Hseed Hnp Hrandom Hmx. unfold run, main, preflight.
  rewrite bind_assoc_run, bind_run.
  assert (Eseed : seed_rngs args (initial_state f) =
                  (Ok tt, {| fs := f;
                             trace := [EvCall (np_random_seed seed);
                                       EvCall (random_seed seed);
                                       EvCall (mx_random_seed seed)];
                             exit_stack := [] |})).
  { unfold seed_rngs.
    rewrite bind_run, attr_run, Hseed. cbn [fst snd].
    rewrite bind_run, call_run, Hnp. cbn [fst snd].
    rewrite bind_run, attr_run, Hseed. cbn [fst snd].
    rewrite bind_run, call_run, Hrandom. cbn [fst snd].
    rewrite bind_run, attr_run, Hseed. cbn [fst snd].
    rewrite call_run, Hmx. reflexivity. }
  rewrite Eseed. cbn [fst snd].
  match goal with
  | |- context [trace (?m ?st).2] =>
      destruct (main_past_seeding args st Logic.I) as (_ & (rest & Ht & Hrest) & _)
  end.
  exists rest. split; [exact Ht | exact Hrest].
Qed.

(** X7. With fused RNN cells requested, the check of lines 85-86 raises the
    configuration error when use_cpu is set and passes otherwise; in
    [main], once the generators are seeded, a request for fused cells on
    the CPU ends the run with that error. *)
Theorem fused_rnn_needs_gpu (args : dict) (fused use_cpu : value) :
  args !! "use_fused_rnn" = Some fused ->
  truthy fused = true ->
  args !! "use_cpu" = Some use_cpu ->
  (forall st,
     check_fused_rnn args st =
     (if truthy use_cpu then Raise (SockeyeError fused_message) else Ok tt, st)) /\
  (forall f st1,
     run (seed_rngs args) f = (Ok tt, st1) ->
     truthy use_cpu = true ->
     run (main args) f = (Raise (SockeyeError fused_message), st1)).
Proof.
  intros Hfused Htr Hcpu.
  assert (Hcheck : forall st,
             check_fused_rnn args st =
             (if truthy use_cpu then Raise (SockeyeError fused_message) else Ok tt, st)).
  { intros st. unfold check_fused_rnn.
    rewrite bind_run, attr_run, Hfused. cbn [fst snd]. rewrite Htr.
    rewrite bind_run, attr_run, Hcpu. cbn [fst snd].
    rewrite check_condition_run. now destruct (truthy use_cpu). }
  split; [exact Hcheck | ].
  intros f st1 Hseed Hon. unfold run in *. unfold main, preflight.
  rewrite bind_run, bind_run, Hseed. cbn [fst snd].
  rewrite bind_run, Hcheck, Hon. reflexivity.
Qed.

(** X8. The check of lines 91-92 passes when the optimized metric is BLEU
    or is among the tracked metrics, and raises the configuration error
    otherwise. *)
Theorem optimized_metric_must_be_tracked
    (args : dict) (metric : string) (tracked : list value) (st : state) :
  args !! "optimized_metric" = Some (VStr metric) ->
  args !! "metrics" = Some (VList tracked) ->
  check_optimized_metric args st =
  (if String.eqb metric BLEU || existsb (py_eqb (VStr metric)) tracked
   then Ok tt else Raise (SockeyeError metric_message), st).
Proof.
  intros Hmetric Htracked. unfold check_optimized_metric.
  rewrite bind_run, attr_run, Hmetric. cbn [fst snd].
  rewrite bind_run. cbn [py_eqb].
  destruct (String.eqb metric BLEU).
  - rewrite ret_run. reflexivity.
  - rewrite bind_run, attr_run, Hmetric. cbn [fst snd].
    rewrite bind_run, attr_run, Htracked. cbn [fst snd].
    rewrite lift_run. cbn [fst snd py_contains orb].
    now rewrite check_condition_run.
Qed.

Lemma preflight_seeds (args : dict) (f : filesystem) :
  hoare (eq f) seeding_event (preflight args) (fun _ => True).
Proof. hoare_walk. Qed.

(** X9. When lines 80-92 raise, [main] ends with that exception before it
    looks at the output folder: the file system is as it was found, and the
    only events are seeding calls (no logger is set up). *)
Theorem validation_precedes_output_folder
    (args : dict) (f : filesystem) (e : exn) (st1 : state) :
  run (preflight args) f = (Raise e, st1) ->
  run (main args) f = (Raise e, st1) /\
  fs st1 = f /\
  Forall seeding_event (trace st1).
Proof.
  intros Epre. unfold run in *.
  destruct (hoare_run (eq f) _ _ _ (initial_state f) st1 _
              (preflight_seeds args f) eq_refl Epre) as (Hfs & (evs & Ht & Hev) & _).
  cbn [initial_state trace] in Ht. rewrite app_nil_l in Ht.
  rewrite main_run, Epre. split; [reflexivity | ].
  split; [now symmetry | now rewrite Ht].
Qed.

End Preflight.

Section OutputFolder.
Context `{Collaborators} `{Constants} `{!Environment}.

Lemma within_refl (path : string) : within path path = true.
Proof. unfold within. now rewrite String.eqb_refl. Qed.

Lemma prefix_length (p s : string) :
  String.prefix p s = true -> String.length p <= String.length s.
Proof.
  revert s. induction p as [ | a p IH]; intros s Hpre; [cbn; lia | ].
  destruct s as [ | b s]; [discriminate Hpre | ].
  cbn [String.prefix] in Hpre. destruct (Ascii.ascii_dec a b); [ | discriminate Hpre].
  specialize (IH s Hpre). cbn [String.length]. lia.
Qed.

Lemma append_length (p s : string) :
  String.length (p ++ s) = String.length p + String.length s.
Proof. induction p as [ | a p IH]; [reflexivity | ]. simpl. now f_equal. Qed.

(** A shorter path is neither [path] nor below it. *)
Lemma within_shorter (path q : string) :
  String.length q < String.length path -> within path q = false.
Proof.
  intros Hlen. unfold within. apply orb_false_intro.
  - apply String.eqb_neq. intros ->. lia.
  - destruct (String.prefix (path ++ "/") q) eqn:Hpre; [ | reflexivity].
    apply prefix_length in Hpre. rewrite append_length in Hpre. lia.
Qed.




(** In a tree the directories above an entry are there. *)
Lemma tree_above (f : filesystem) (path a : string) :
  tree f -> is_Some (f !! path) -> a ∈ dirs_above path -> f !! a = Some Dir.
Proof.
  intros Htree [x Hx] Hin. specialize (Htree path x Hx). cbn beta in Htree.
  rewrite forallb_forall in Htree. apply list_elem_of_In in Hin.
  specialize (Htree a Hin). unfold is_dir in Htree.
  now destruct (f !! a) as [[ | c] | ].
Qed.

(** [os.makedirs] where the directory above is in place: only [path] is
    made. *)
Lemma os_makedirs_in_place (path : string) (st : state) :
  match dirs_above path with [] => True | parent :: _ => fs st !! parent = Some Dir end ->
  fs st !! path = None ->
  os_makedirs path st =
  (Ok tt, {| fs := <[path := Dir]> (fs st); trace := trace st;
             exit_stack := exit_stack st |}).
Proof.
  intros Hparent Hnone. unfold os_makedirs.
  destruct (dirs_above path) as [ | head above] eqn:Eabove; cbn [makedirs].
  - now rewrite os_mkdir_run, Eabove, Hnone.
  - rewrite bind_run, os_path_exists_run, Hparent. cbn [fst snd].
    now rewrite os_mkdir_run, Eabove, Hparent, Hnone.
Qed.



(** [check_output_folder] up to the look at the output folder. *)
Lemma check_output_folder_found (args : dict) (st : state) (quiet : value) (output : string)
    (found : node) :
  args !! "quiet" = Some quiet ->
  args !! "output" = Some (VStr output) ->
  fs st !! abspath output = Some found ->
  let o := abspath output in
  let t := os_path_join o TRAINING_STATE_DIRNAME in
  let st0 := add_event (EvSetupLogger false (negb (truthy quiet)) None) st in
  check_output_folder args st =
  (overwrite_output <- attr args "overwrite_output" ;;
   if truthy overwrite_output then
     logger Info "Removing existing output folder %s." [LStr o] ;;;
     shutil_rmtree o ;;;
     os_makedirs o ;;;
     ret (o, t, false)
   else
     state_exists <- os_path_exists t ;;
     if state_exists then
       arg_diffs <- remaining_arg_diffs args o ;;
       if decide (arg_diffs = ∅) then ret (o, t, true)
       else
         logger Error "Mismatch in arguments for training continuation." [] ;;;
         logger Error "Differing arguments: %s."
                [LStr (String.concat ", " (elements arg_diffs))] ;;;
         sys_exit 1
     else
       logger Error "Refusing to overwrite existing output folder %s." [LStr o] ;;;
       sys_exit 1) st0.
Proof.
  intros Hq Ho Hfound. cbv zeta. unfold check_output_folder.
  rewrite bind_run, attr_run, Hq. cbn [fst snd].
  rewrite bind_run, setup_main_logger_run. cbn [fst snd].
  rewrite bind_run, attr_run, Ho. cbn [fst snd].
  rewrite bind_run, os_path_abspath_run. cbn [fst snd].
  rewrite bind_run, os_path_exists_run. cbn [fst snd]. rewrite fs_add_event, Hfound.
  reflexivity.
Qed.

(** X10. With overwrite_output set and a directory at the output path,
    in a file system that is a tree (above every entry there are
    directories), the output folder is removed with all that lies below it
    and created anew: the run is a fresh start (resume_training is false,
    whatever training state was there), the folder is there and nothing
    below it, the paths outside it are as before, and the removal is
    logged. *)
Theorem overwrite_empties_output_folder
    (args : dict) (st : state) (quiet overwrite : value) (output : string) :
  args !! "quiet" = Some quiet ->
  args !! "output" = Some (VStr output) ->
  args !! "overwrite_output" = Some overwrite ->
  truthy overwrite = true ->
  fs st !! abspath output = Some Dir ->
  tree (fs st) ->
  let o := abspath output in
  let out := check_output_folder args st in
  out.1 = Ok (o, os_path_join o TRAINING_STATE_DIRNAME, false) /\
  fs out.2 !! o = Some Dir /\
  (forall q, within o q = true -> q <> o -> fs out.2 !! q = None) /\
  (forall q, within o q = false -> fs out.2 !! q = fs st !! q) /\
  trace out.2 =
    trace st ++ [EvSetupLogger false (negb (truthy quiet)) None;
                 EvLog Info "Removing existing output folder %s." [LStr o]].
Proof.
  intros Hq Ho How Htr Hdir Htree. cbv zeta.
  rewrite (check_output_folder_found args st quiet output Dir Hq Ho Hdir).
  rewrite bind_run, attr_run, How. cbn [fst snd]. rewrite Htr.
  rewrite bind_run, logger_run. cbn [fst snd].
  rewrite bind_run, shutil_rmtree_run, !fs_add_event, Hdir. cbn [fst snd].
  assert (Hgone : forall q, within (abspath output) q = true ->
                    filter (fun kv : string * node =>
                              negb (within (abspath output) kv.1) = true) (fs st) !! q = None).
  { intros q Hq'. apply map_lookup_filter_None. right. intros x _. cbn [fst].
    now rewrite Hq'. }
  assert (Hkept : forall q, within (abspath output) q = false ->
                    filter (fun kv : string * node =>
                              negb (within (abspath output) kv.1) = true) (fs st) !! q
                    = fs st !! q).
  { intros q Hout. destruct (fs st !! q) as [x | ] eqn:E.
    - apply map_lookup_filter_Some. split; [exact E | ]. cbn [fst]. now rewrite Hout.
    - apply map_lookup_filter_None. now left. }
  rewrite bind_run, os_makedirs_in_place; cbn [fs trace exit_stack].
  - cbn [fst snd]. rewrite ret_run. cbn [fst snd fs trace add_event].
    split; [reflexivity | split; [apply lookup_insert_eq | split; [ | split]]].
    + intros q Hin Hne. rewrite lookup_insert_ne by congruence. now apply Hgone.
    + intros q Hout. rewrite lookup_insert_ne; [now apply Hkept | ].
      intros <-. now rewrite within_refl in Hout.
    + now rewrite <- app_assoc.
  - destruct (dirs_above (abspath output)) as [ | parent above] eqn:Eabove; [exact Logic.I | ].
    assert (Hin : parent ∈ dirs_above (abspath output)).
    { rewrite Eabove. apply list_elem_of_here. }
    rewrite Hkept by (apply within_shorter; now apply dirs_above_shorter).
    exact (tree_above (fs st) _ parent Htree (mk_is_Some _ _ Hdir) Hin).
  - apply Hgone, within_refl.
Qed.

(** X11. With overwrite_output set and a regular file at the output path,
    [shutil.rmtree] raises [NotADirectoryError]; the file system is
    unchanged. *)
Theorem overwrite_of_a_file_fails
    (args : dict) (st : state) (quiet overwrite : value) (output : string) (c : content) :
  args !! "quiet" = Some quiet ->
  args !! "output" = Some (VStr output) ->
  args !! "overwrite_output" = Some overwrite ->
  truthy overwrite = true ->
  fs st !! abspath output = Some (File c) ->
  (check_output_folder args st).1 = Raise (NotADirectoryError (abspath output)) /\
  fs (check_output_folder args st).2 = fs st.
Proof.
  intros Hq Ho How Htr Hfile.
  rewrite (check_output_folder_found args st quiet output (File c) Hq Ho Hfile).
  rewrite bind_run, attr_run, How. cbn [fst snd]. rewrite Htr.
  rewrite bind_run, logger_run. cbn [fst snd].
  rewrite bind_run, shutil_rmtree_run, !fs_add_event, Hfile. cbn [fst snd].
  split; reflexivity.
Qed.

(** X12. Where the output folder and its training state exist, overwrite
    is not requested and args.json is missing, the check of the output
    folder raises [FileNotFoundError] for args.json (it is not a refusal
    with [sys.exit]); the only event is the set-up of the console
    logger. *)
Theorem resume_needs_the_snapshot
    (args : dict) (st : state) (quiet overwrite : value) (output : string) :
  args !! "quiet" = Some quiet ->
  args !! "output" = Some (VStr output) ->
  args !! "overwrite_output" = Some overwrite ->
  truthy overwrite = false ->
  is_Some (fs st !! abspath output) ->
  is_Some (fs st !! os_path_join (abspath output) TRAINING_STATE_DIRNAME) ->
  let snapshot := os_path_join (abspath output) ARGS_STATE_NAME in
  fs st !! snapshot = None ->
  check_output_folder args st =
  (Raise (FileNotFoundError snapshot),
   add_event (EvSetupLogger false (negb (truthy quiet)) None) st).
Proof.
  intros Hq Ho How Htr [found Hfound] [marker Hmarker]. cbv zeta. intros Hnone.
  rewrite (check_output_folder_found args st quiet output found Hq Ho Hfound).
  rewrite bind_run, attr_run, How. cbn [fst snd]. rewrite Htr.
  rewrite bind_run, os_path_exists_run. cbn [fst snd]. rewrite fs_add_event, Hmarker.
  rewrite bind_run. unfold remaining_arg_diffs.
  rewrite bind_run, open_read_run, fs_add_event, Hnone. reflexivity.
Qed.

End OutputFolder.

Section Restart.
Context `{Collaborators} `{Constants} `{!Environment}.



Lemma dict_difference_self (d : dict) :
  map_Forall (fun _ v => nan_free v = true) d -> _dict_difference d d = ∅.
Proof.
  intros Hfree. apply set_eq. intros k. rewrite elem_of_dict_difference.
  split; [ | intros Hin; now apply not_elem_of_empty in Hin].
  intros (v & Hv & Hne). rewrite Hv in Hne. unfold py_neb in Hne.
  rewrite (py_eqb_refl v (Hfree k v Hv)) in Hne. discriminate.
Qed.

(** X13. A request whose values hold no NaN resumes from its own snapshot:
    with args.json holding the arguments of the request, the check of the
    output folder returns with resume_training true. *)
Theorem same_arguments_resume
    (args : dict) (st : state) (quiet overwrite : value) (output : string) :
  args !! "quiet" = Some quiet ->
  args !! "output" = Some (VStr output) ->
  args !! "overwrite_output" = Some overwrite ->
  truthy overwrite = false ->
  is_Some (fs st !! abspath output) ->
  is_Some (fs st !! os_path_join (abspath output) TRAINING_STATE_DIRNAME) ->
  fs st !! os_path_join (abspath output) ARGS_STATE_NAME = Some (File (CJson args)) ->
  map_Forall (fun _ v => nan_free v = true) args ->
  check_output_folder args st =
  (Ok (abspath output, os_path_join (abspath output) TRAINING_STATE_DIRNAME, true),
   add_event (EvSetupLogger false (negb (truthy quiet)) None) st).
Proof.
  intros Hq Ho How Htr [found Hfound] [marker Hmarker] Hfile Hfree.
  rewrite (check_output_folder_found args st quiet output found Hq Ho Hfound).
  rewrite bind_run, attr_run, How. cbn [fst snd]. rewrite Htr.
  rewrite bind_run, os_path_exists_run. cbn [fst snd]. rewrite fs_add_event, Hmarker.
  rewrite bind_run. unfold remaining_arg_diffs.
  rewrite bind_run, open_read_run, fs_add_event, Hfile. cbn [fst snd].
  rewrite bind_run, json_load_run. cbn [fst snd].
  rewrite (dict_difference_self args Hfree).
  assert (Hnone : (∅ ∪ ∅) ∖ list_to_set ARGS_MAY_DIFFER = (∅ : gset string)).
  { apply set_eq. intros x. rewrite elem_of_difference, elem_of_union.
    split; [intros [[Hx | Hx] _]; exact Hx | intros Hx; now apply not_elem_of_empty in Hx]. }
  rewrite Hnone.
  destruct (decide ("device_ids" ∈ (∅ : gset string))) as [Hin | _];
    [now apply not_elem_of_empty in Hin | ].
  rewrite ret_run. cbn [fst snd].
  destruct (decide ((∅ : gset string) = ∅)) as [_ | Hne]; [reflexivity | contradiction].
Qed.

(** X14. A request with a NaN under a key that is neither
    resumption-neutral nor device_ids never resumes: against any snapshot,
    the check of the output folder raises. *)
Theorem nan_argument_never_resumes
    (args persisted : dict) (st : state) (quiet overwrite : value) (output k : string) :
  args !! "quiet" = Some quiet ->
  args !! "output" = Some (VStr output) ->
  args !! "overwrite_output" = Some overwrite ->
  truthy overwrite = false ->
  is_Some (fs st !! abspath output) ->
  is_Some (fs st !! os_path_join (abspath output) TRAINING_STATE_DIRNAME) ->
  fs st !! os_path_join (abspath output) ARGS_STATE_NAME = Some (File (CJson persisted)) ->
  args !! k = Some (VFloat S754_nan) ->
  k ∉ ARGS_MAY_DIFFER ->
  k <> "device_ids" ->
  exists e, (check_output_folder args st).1 = Raise e.
Proof.
  intros Hq Ho How Htr [found Hfound] [marker Hmarker] Hfile Hnan Hmatters Hk.
  rewrite (check_output_folder_found args st quiet output found Hq Ho Hfound).
  rewrite bind_run, attr_run, How. cbn [fst snd]. rewrite Htr.
  rewrite bind_run, os_path_exists_run. cbn [fst snd]. rewrite fs_add_event, Hmarker.
  rewrite bind_run.
  match goal with
  | |- context [remaining_arg_diffs args ?o ?st0] =>
      destruct (remaining_arg_diffs_spec args persisted o st0)
        as [[_ ->] | [_ (e & _ & ->)]]; [now rewrite fs_add_event | | cbn [fst snd]; eauto]
  end.
  cbn [fst snd].
  assert (Hin : k ∈ spec_remaining_diffs args persisted).
  { assert (Hid : k ∈ spec_identity_diffs args persisted).
    { unfold spec_identity_diffs. rewrite <- dict_differences_spec.
      rewrite elem_of_difference, elem_of_union, elem_of_list_to_set.
      split; [left | exact Hmatters].
      apply elem_of_dict_difference. eexists. split; [exact Hnan | ].
      destruct (persisted !! k); [ | done]. unfold py_neb. now rewrite py_eqb_nan_r. }
    unfold spec_remaining_diffs.
    destruct (_ && _); [ | exact Hid].
    rewrite elem_of_difference, elem_of_singleton. auto. }
  destruct (decide (spec_remaining_diffs args persisted = ∅)) as [Hempty | _].
  - rewrite Hempty in Hin. now apply not_elem_of_empty in Hin.
  - rewrite bind_run, logger_run. cbn [fst snd].
    rewrite bind_run, logger_run. cbn [fst snd]. rewrite sys_exit_run. eauto.
Qed.

End Restart.

Section OptimizerKeys.
Context `{Collaborators} `{Constants} `{!Environment}.

Lemma dom_insert_within (k : string) (x : param) (m : gmap string param) (K : gset string) :
  k ∈ K -> dom m ⊆ K -> dom (<[k := x]> m) ⊆ K.
Proof.
  intros Hk Hm. rewrite dom_insert. apply union_least; [ | exact Hm].
  now apply singleton_subseteq_l.
Qed.

Lemma optimizer_key (k : string) :
  k ∈ ["wd"; "learning_rate"; "lr_scheduler"; "clip_gradient"; "momentum"; "rescale_grad"] ->
  k ∈ optimizer_keys.
Proof.
  unfold optimizer_keys. rewrite !elem_of_cons, !elem_of_union, !elem_of_singleton.
  rewrite elem_of_nil. tauto.
Qed.

Ltac optimizer_key :=
  apply optimizer_key;
  repeat first [apply list_elem_of_here | apply list_elem_of_further].

(** What lines 292-307 build, key by key. *)
Lemma make_optimizer_params_keys (args : dict) (lr : option Scheduler) (st st' : state)
    (p : gmap string param) :
  make_optimizer_params args lr st = (Ok p, st') ->
  st' = st /\
  (exists weight_decay,
     args !! "weight_decay" = Some weight_decay /\ p !! "wd" = Some (PValue weight_decay)) /\
  (exists initial_learning_rate,
     args !! "initial_learning_rate" = Some initial_learning_rate /\
     p !! "learning_rate" = Some (PValue initial_learning_rate)) /\
  p !! "lr_scheduler" = PScheduler <$> lr /\
  is_Some (p !! "rescale_grad") /\
  dom p ⊆ optimizer_keys.
Proof.
  unfold make_optimizer_params.
  rewrite bind_run, attr_run.
  destruct (args !! "weight_decay") as [wd | ]; cbn [fst snd]; [ | discriminate].
  rewrite bind_run, attr_run.
  destruct (args !! "initial_learning_rate") as [lr0 | ]; cbn [fst snd]; [ | discriminate].
  rewrite bind_run, attr_run.
  destruct (args !! "clip_gradient") as [requested | ]; cbn [fst snd]; [ | discriminate].
  rewrite bind_run, lift_run. cbn [fst snd].
  destruct (none_if_negative requested) as [clip | e]; [ | discriminate].
  rewrite bind_run, attr_run.
  destruct (args !! "momentum") as [momentum | ] eqn:Emom; cbn [fst snd]; [ | discriminate].
  rewrite bind_run.
  assert (Hfinish : forall (p2 : gmap string param) r,
             (normalize_loss <- attr args "normalize_loss" ;;
              if truthy normalize_loss then
                ret (<["rescale_grad" := PValue (VFloat float_one)]> p2)
              else
                batch_size <- attr args "batch_size" ;;
                rescale <- lift (float_truediv float_one batch_size) ;;
                ret (<["rescale_grad" := PValue rescale]> p2)) st = (Ok r, st') ->
             st' = st /\ exists x, r = <["rescale_grad" := x]> p2).
  { intros p2 r. rewrite bind_run, attr_run.
    destruct (args !! "normalize_loss") as [nl | ]; cbn [fst snd]; [ | discriminate].
    destruct (truthy nl).
    - rewrite ret_run. intros [= <- <-]. eauto.
    - rewrite bind_run, attr_run.
      destruct (args !! "batch_size") as [bs | ]; cbn [fst snd]; [ | discriminate].
      rewrite bind_run, lift_run. cbn [fst snd].
      destruct (float_truediv float_one bs); [ | discriminate].
      rewrite ret_run. intros [= <- <-]. eauto. }
  assert (Hkeys : forall p2 : gmap string param,
             (exists x, p = <["rescale_grad" := x]> p2) ->
             p2 !! "wd" = Some (PValue wd) ->
             p2 !! "learning_rate" = Some (PValue lr0) ->
             p2 !! "lr_scheduler" = PScheduler <$> lr ->
             dom p2 ⊆ optimizer_keys ->
             (exists weight_decay,
                Some wd = Some weight_decay /\ p !! "wd" = Some (PValue weight_decay)) /\
             (exists initial_learning_rate,
                Some lr0 = Some initial_learning_rate /\
                p !! "learning_rate" = Some (PValue initial_learning_rate)) /\
             p !! "lr_scheduler" = PScheduler <$> lr /\
             is_Some (p !! "rescale_grad") /\
             dom p ⊆ optimizer_keys).
  { intros p2 [x ->] Hwd Hlr Hsched Hdom.
    rewrite !lookup_insert_ne by done. rewrite lookup_insert_eq.
    repeat split; eauto.
    apply dom_insert_within; [optimizer_key | exact Hdom]. }
  assert (Hbase : forall p0 : gmap string param,
             p0 = match lr with
                  | Some s => <["lr_scheduler" := PScheduler s]>
                                (<["learning_rate" := PValue lr0]> (<["wd" := PValue wd]> ∅))
                  | None => <["learning_rate" := PValue lr0]> (<["wd" := PValue wd]> ∅)
                  end ->
             p0 !! "wd" = Some (PValue wd) /\
             p0 !! "learning_rate" = Some (PValue lr0) /\
             p0 !! "lr_scheduler" = PScheduler <$> lr /\
             dom p0 ⊆ optimizer_keys).
  { intros p0 ->. unfold optimizer_keys.
    destruct lr; simpl; repeat split; try (now simplify_map_eq);
      repeat (apply dom_insert_within; [optimizer_key | ]);
      rewrite dom_empty; apply empty_subseteq. }
  match goal with
  | |- context [match lr with Some s => @?a s | None => ?b end] =>
      destruct (Hbase (match lr with Some s => a s | None => b end) eq_refl)
        as (Hwd0 & Hlr0 & Hs0 & Hd0);
      set (p0 := match lr with Some s => a s | None => b end) in *
  end.
  clearbody p0.
  match goal with
  | |- context [if negb (is_none clip) then ?x else p0] =>
      set (p1 := if negb (is_none clip) then x else p0)
  end.
  assert (Hp1 : p1 !! "wd" = Some (PValue wd) /\
                p1 !! "learning_rate" = Some (PValue lr0) /\
                p1 !! "lr_scheduler" = PScheduler <$> lr /\
                dom p1 ⊆ optimizer_keys).
  { subst p1. destruct (negb (is_none clip)); [ | auto].
    rewrite !lookup_insert_ne by done. repeat split; try assumption.
    apply dom_insert_within; [optimizer_key | assumption]. }
  destruct Hp1 as (Hwd1 & Hlr1 & Hs1 & Hd1). clearbody p1.
  destruct (negb (is_none momentum)).
  - rewrite bind_run, attr_run, Emom. cbn [fst snd].
    intros Hrun. destruct (Hfinish _ _ Hrun) as [-> Hp]. split; [reflexivity | ].
    apply (Hkeys _ Hp); rewrite ?lookup_insert_ne by done; try assumption.
    apply dom_insert_within; [optimizer_key | assumption].
  - rewrite ret_run. cbn [fst snd].
    intros Hrun. destruct (Hfinish _ _ Hrun) as [-> Hp]. split; [reflexivity | ].
    now apply (Hkeys _ Hp).
Qed.

(** X26. The optimizer parameters, when lines 292-307 build them: wd and
    learning_rate are weight_decay and initial_learning_rate; lr_scheduler
    is there exactly when there is a scheduler, and is that one;
    rescale_grad is always there; there is no key beyond these,
    clip_gradient and momentum. Building them touches neither the files
    nor the trace. *)
Theorem optimizer_params_keys (args : dict) (lr : option Scheduler) (st st' : state)
    (p : gmap string param) :
  make_optimizer_params args lr st = (Ok p, st') ->
  st' = st /\
  (exists weight_decay,
     args !! "weight_decay" = Some weight_decay /\ p !! "wd" = Some (PValue weight_decay)) /\
  (exists initial_learning_rate,
     args !! "initial_learning_rate" = Some initial_learning_rate /\
     p !! "learning_rate" = Some (PValue initial_learning_rate)) /\
  p !! "lr_scheduler" = PScheduler <$> lr /\
  is_Some (p !! "rescale_grad") /\
  dom p ⊆ optimizer_keys.
Proof. apply make_optimizer_params_keys. Qed.

End OptimizerKeys.

Section Confinement.
Context `{Collaborators} `{Constants} `{!Environment}.

Lemma confined_rmtree (f g : filesystem) (o snapshot : string) :
  confined f o snapshot g ->
  confined f o snapshot (filter (fun kv : string * node => negb (within o kv.1) = true) g).
Proof.
  intros Hg q Hout Hq.
  assert (Hkept : filter (fun kv : string * node => negb (within o kv.1) = true) g !! q
                  = g !! q).
  { destruct (g !! q) as [x | ] eqn:E.
    - apply map_lookup_filter_Some. split; [exact E | ]. cbn [fst]. now rewrite Hout.
    - apply map_lookup_filter_None. now left. }
  rewrite Hkept. now apply Hg.
Qed.

Lemma confined_makedirs (f g : filesystem) (o snapshot p : string) :
  confined f o snapshot g ->
  g !! p = None -> p ∈ o :: dirs_above o ->
  confined f o snapshot (<[p := Dir]> g).
Proof.
  intros Hg Hnone Hin q Hout Hq. destruct (decide (q = p)) as [-> | Hne].
  - rewrite lookup_insert_eq.
    apply elem_of_cons in Hin as [-> | Hin]; [now rewrite within_refl in Hout | ].
    right. split; [exact Hin | split; [ | reflexivity]].
    destruct (Hg p Hout Hq) as [E | (_ & _ & E)]; congruence.
  - rewrite lookup_insert_ne by congruence. now apply Hg.
Qed.

Lemma confined_snapshot (f g : filesystem) (o snapshot : string) (c : content) :
  confined f o snapshot g -> confined f o snapshot (<[snapshot := File c]> g).
Proof.
  intros Hg q Hout Hq. rewrite lookup_insert_ne by congruence. now apply Hg.
Qed.

Ltac output_folder :=
  match goal with
  | Ho : ?args !! "output" = Some (VStr ?output),
    Hv : ?args !! "output" = Some ?v,
    Hp : exists s, ?v = VStr s /\ ?path = abspath s |- _ =>
      let s := fresh "s" in
      let E := fresh "E" in
      destruct Hp as (s & -> & ->);
      assert (E : s = output) by congruence; subst s
  end.

Lemma check_output_folder_confined (args : dict) (f : filesystem) (output : string) :
  args !! "output" = Some (VStr output) ->
  hoare (confined f (abspath output) (os_path_join (abspath output) ARGS_STATE_NAME))
    (fun _ => True) (check_output_folder args) (fun folder => folder.1.1 = abspath output).
Proof.
  intros Ho. unfold check_output_folder.
  hoare_walk_with ltac:(apply hoare_os_path_abspath_given); cbv beta in *;
    output_folder;
    first [ now apply confined_rmtree | now apply confined_makedirs | reflexivity ].
Qed.

Lemma main_confined (args : dict) (f : filesystem) (output : string) :
  args !! "output" = Some (VStr output) ->
  hoare (confined f (abspath output) (os_path_join (abspath output) ARGS_STATE_NAME))
    (fun _ => True) (main args) (fun _ => True).
Proof.
  intros Ho.
  hoare_walk_with ltac:(apply (check_output_folder_confined args f output Ho));
    cbv beta in *.
  match goal with Hfolder : _.1.1 = abspath output |- _ => rewrite Hfolder end.
  now apply confined_snapshot.
Qed.

(** X16. [main] changes nothing outside the output folder, apart from
    the directories above it that [os.makedirs] creates: a path that is
    neither the folder, nor below it, nor args.json holds at the end of a
    run what it held at the start, or it is one of the directories above
    the folder, was missing at the start, and is a directory at the end. *)
Theorem main_confined_to_output_folder
    (args : dict) (f : filesystem) (output q : string) :
  args !! "output" = Some (VStr output) ->
  within (abspath output) q = false ->
  q <> os_path_join (abspath output) ARGS_STATE_NAME ->
  fs (run (main args) f).2 !! q = f !! q \/
  (q ∈ dirs_above (abspath output) /\ f !! q = None /\
   fs (run (main args) f).2 !! q = Some Dir).
Proof.
  intros Ho Hout Hq. unfold run.
  destruct (main_confined args f output Ho (initial_state f)) as (Hfs & _).
  - intros q' _ _. now left.
  - now apply Hfs.
Qed.

End Confinement.

Section DataFlow.
Context `{Collaborators} `{Constants} `{!Environment}.

Lemma device_context_of (I : filesystem -> Prop) (args : dict) :
  hoare I (trains_on args) (device_context args) (context_of args).
Proof.
  unfold device_context.
  hoare_step use_cpu Hcpu.
  destruct (truthy use_cpu) eqn:Etr.
  - hoare_cases. exists use_cpu. now rewrite Etr.
  - hoare_step num_gpus Hnum.
    apply hoare_bind with (Q := fun _ => (1 <=? num_gpus)%Z = true).
    { apply hoare_check_condition. auto. }
    intros _ Hge. apply Z.leb_le in Hge.
    hoare_step locking Hlocking.
    apply hoare_bind
      with (Q := fun ids =>
                   exists device_ids,
                     args !! "device_ids" = Some device_ids /\
                     if truthy locking
                     then respond _ (expand_requested_device_ids device_ids) = Ok ids
                     else exists lock_dir,
                         args !! "lock_dir" = Some lock_dir /\
                         respond _ (acquire_gpus device_ids lock_dir) = Ok ids).
    { destruct (truthy locking); hoare_cases; cbv beta in *; eauto. }
    intros ids (device_ids & Hids & Hgot).
    hoare_cases. exists use_cpu. rewrite Etr. split; [assumption | ].
    exists num_gpus, ids, locking, device_ids.
    repeat (split; [first [assumption | reflexivity] | ]). assumption.
Qed.

Lemma main_trains_on (args : dict) :
  hoare (fun _ => True) (trains_on args) (main args) (fun _ => True).
Proof.
  hoare_walk_with ltac:(apply device_context_of); cbv beta in *.
  simpl. assumption.
Qed.

(** X28. The training model is made for the CPU when use_cpu is set;
    otherwise, once [get_num_gpus] has found at least one GPU, for the
    GPUs whose ids [expand_requested_device_ids] (with device locking
    disabled) or [acquire_gpus] (with the lock_dir of the request)
    returned for the device_ids of the request. *)
Theorem model_trained_on_requested_devices (args : dict) (f : filesystem) :
  Forall (trains_on args) (trace (run (main args) f).2).
Proof.
  unfold run.
  destruct (main_trains_on args (initial_state f) Logic.I) as (_ & (evs & -> & Hall) & _).
  exact Hall.
Qed.

Lemma load_or_create_vocabs_of (I : filesystem -> Prop) (args : dict) (o : string)
    (resume : bool) :
  hoare I (sized_by_vocabularies args o resume) (load_or_create_vocabs args o resume)
    (fun vocabs => vocabularies_of args o resume vocabs.1 vocabs.2).
Proof.
  unfold load_or_create_vocabs, vocabularies_of. destruct resume.
  - hoare_cases; cbv beta in *. simpl. auto.
  - hoare_cases_with ltac:(eapply hoare_build_or_load_vocab); cbv beta in *.
    + match goal with
      | |- context [EvCall (if is_none ?p then _ else _)] => now destruct (is_none p)
      end.
    + match goal with
      | |- context [EvCall (if is_none ?p then _ else _)] => now destruct (is_none p)
      end.
    + simpl. split; vocabulary.
Qed.

Lemma model_configuration_sized (I : filesystem -> Prop) (P : event -> Prop) (args : dict)
    (vocab_source_size' vocab_target_size' : nat) (max_seq_len_source : value) :
  (forall o, match o with NewModelConfig _ => False | _ => True end -> P (EvNew o)) ->
  (forall c, vocab_source_size c = vocab_source_size' ->
             vocab_target_size c = vocab_target_size' ->
             P (EvNew (NewModelConfig c)) /\ P (EvFreeze c)) ->
  hoare I P
    (model_configuration args vocab_source_size' vocab_target_size' max_seq_len_source)
    (fun c => vocab_source_size c = vocab_source_size' /\
              vocab_target_size c = vocab_target_size').
Proof.
  intros Hother Hmodel. unfold model_configuration.
  hoare_walk; cbv beta in *;
    try (apply Hother; exact Logic.I);
    try (apply Hmodel; reflexivity).
  split; reflexivity.
Qed.

Lemma train_sized_by_vocabularies (args : dict) (o t : string) (resume : bool)
    (seen : filesystem) :
  hoare (eq seen) (sized_by_vocabularies args o resume) (train args o t resume)
    (fun _ => True).
Proof.
  hoare_walk_with
    ltac:(first [ apply load_or_create_vocabs_of | eapply model_configuration_sized ]);
    cbv beta in *.
  - simpl. assumption.
  - now intros [].
  - intros c Hsource Htarget. simpl. split; eexists _, _; repeat split; eassumption.
  - match goal with
    | Hc : vocab_source_size _ = _ /\ _ |- _ => destruct Hc
    end.
    simpl. eexists _, _; repeat split; eassumption.
  - simpl. assumption.
Qed.

(** X29. The vocabulary sizes of the model configuration that is built,
    frozen and handed to the training model are the lengths of the two
    vocabularies of the run, which are also the ones the data iterators
    and the lexicon get: those read back from the output folder on resume,
    those loaded or built for the request on a fresh start. *)
Theorem model_sized_by_vocabularies
    (args : dict) (f : filesystem) (st1 st2 : state) (o t : string) (resume : bool) :
  run (preflight args) f = (Ok tt, st1) ->
  check_output_folder args st1 = (Ok (o, t, resume), st2) ->
  Forall (sized_by_vocabularies args o resume) (trace (run (main args) f).2).
Proof.
  intros Epre Echk.
  destruct (main_after_decision (sized_by_vocabularies args o resume) (fun _ => True)
              args f st1 st2 o t resume Epre Echk) as [Hall _].
  - now intros [A [] | | | | | | ].
  - intros ids. exact Logic.I.
  - intros seen _. apply train_sized_by_vocabularies.
  - exact Hall.
Qed.

Lemma hoare_make_optimizer_params_scheduler (I : filesystem -> Prop) (P : event -> Prop)
    (args : dict) (lr : option Scheduler) :
  hoare I P (make_optimizer_params args lr)
    (fun p => p !! "lr_scheduler" = PScheduler <$> lr).
Proof.
  intros st HI.
  destruct (make_optimizer_params args lr st) as [[p | e] st'] eqn:E; cbn [fst snd].
  - destruct (make_optimizer_params_keys args lr st st' p E) as (-> & _ & _ & Hlr & _).
    split; [assumption | split].
    + exists []. now rewrite app_nil_r.
    + now intros ? [= <-].
  - destruct (make_optimizer_params_run args lr st) as (r & E' & _).
    rewrite E in E'. injection E' as _ ->.
    split; [assumption | split].
    + exists []. now rewrite app_nil_r.
    + intros ? [=].
Qed.

Lemma scheduler_of_unique (args : dict) (seen : filesystem) (t : string) (resume : bool)
    (lr lr' : option Scheduler) :
  scheduler_of args seen t resume lr -> scheduler_of args seen t resume lr' -> lr = lr'.
Proof.
  unfold scheduler_of, built_anew. destruct resume.
  - congruence.
  - intros (a & b & c & d & e & g & Ha & Hb & Hc & Hd & He & Hg & Hlr)
           (a' & b' & c' & d' & e' & g' & Ha' & Hb' & Hc' & Hd' & He' & Hg' & Hlr').
    congruence.
Qed.

Lemma train_shares_scheduler (args : dict) (o t : string) (resume : bool)
    (seen : filesystem) :
  hoare (eq seen) (shares_scheduler args seen t resume) (train args o t resume)
    (fun _ => True).
Proof.
  destruct resume.
  - hoare_walk_with
      ltac:(first [ apply learning_rate_scheduling_resume
                  | apply hoare_make_optimizer_params_scheduler ]);
      cbv beta in *; simpl; eauto.
  - hoare_walk_with
      ltac:(first [ apply learning_rate_scheduling_fresh; intros; exact Logic.I
                  | apply hoare_make_optimizer_params_scheduler ]);
      cbv beta in *; simpl; eauto.
Qed.

(** X30. The scheduler under lr_scheduler of the optimizer parameters
    handed to [fit] is the one the training model was made with (and the
    key is missing exactly when that one is None). *)
Theorem optimizer_gets_the_scheduler_of_the_model
    (args : dict) (f : filesystem) (st1 st2 : state) (o t : string) (resume : bool)
    (config : ModelConfig) (context : list device) (iter train_iter eval_iter : DataIter)
    (fused : value) (bucketing : bool) (lr : option Scheduler)
    (m : TrainingModel) (kw : fit_kwargs) :
  run (preflight args) f = (Ok tt, st1) ->
  check_output_folder args st1 = (Ok (o, t, resume), st2) ->
  EvCall (new_TrainingModel config context iter fused bucketing lr)
    ∈ trace (run (main args) f).2 ->
  EvCall (fit m train_iter eval_iter kw) ∈ trace (run (main args) f).2 ->
  fit_optimizer_params kw !! "lr_scheduler" = PScheduler <$> lr.
Proof.
  intros Epre Echk Hmodel Hfit.
  set (seen := <[os_path_join o ARGS_STATE_NAME := File (CJson args)]> f).
  destruct (main_after_decision (shares_scheduler args seen t resume) (fun _ => True)
              args f st1 st2 o t resume Epre Echk) as [Hall _].
  - now intros [A [] | | | | | | ].
  - intros ids. exact Logic.I.
  - intros seen' Hseen. destruct resume.
    + rewrite (Hseen eq_refl). apply train_shares_scheduler.
    + eapply hoare_events; [apply (train_shares_scheduler args o t false seen') | ].
      now intros [A [] | | | | | | ].
  - rewrite Forall_forall in Hall.
    pose proof (Hall _ Hmodel) as Hlr. destruct (Hall _ Hfit) as (lr' & Hlr' & Hkey).
    simpl in Hlr. now rewrite (scheduler_of_unique _ _ _ _ _ _ Hlr Hlr').
Qed.

End DataFlow.

(** ** The sample request, run *)

#[local] Existing Instance Sample.collaborators.
#[local] Existing Instance Sample.constants.
#[local] Existing Instance Sample.environment.

Lemma run_eta {A} (x : result A * state) (r : result A) : x.1 = r -> x = (r, x.2).
Proof. destruct x. simpl. now intros ->. Qed.

Ltac sample_comparing :=
  split; [exists (VBool false); reflexivity | ];
  exists "model", (VBool false);
  repeat split; try reflexivity; eexists; reflexivity.

(** C1, at a snapshot that lacks device_ids: device_ids is the remaining
    difference, so the claim has AbortIncompatible of device_ids, and
    [check_output_folder] raises [KeyError] at the lookup of line 112
    instead. A snapshot that lacks another field, num_words, is turned away
    as the claim says: [sys.exit(1)], with num_words reported. *)
Lemma resume_claim_fails_without_device_ids :
  comparing Sample.args Sample.saved_args_without_device_ids
    (Sample.interrupted Sample.saved_args_without_device_ids) /\
  spec_remaining_diffs Sample.args Sample.saved_args_without_device_ids
    = {["device_ids"]} /\
  ({["device_ids"]} : gset string) <> ∅ /\
  (run (check_output_folder Sample.args)
     (Sample.interrupted Sample.saved_args_without_device_ids)).1
    = Raise (KeyError "device_ids") /\
  ~ decided (AbortIncompatible {["device_ids"]})
      (run (check_output_folder Sample.args)
         (Sample.interrupted Sample.saved_args_without_device_ids)) /\
  spec_remaining_diffs Sample.args Sample.saved_args_without_num_words = {["num_words"]} /\
  (run (check_output_folder Sample.args)
     (Sample.interrupted Sample.saved_args_without_num_words)).1 = Raise (SystemExit 1) /\
  last (trace (run (check_output_folder Sample.args)
                 (Sample.interrupted Sample.saved_args_without_num_words)).2)
  = Some (EvLog Error "Differing arguments: %s." [LStr "num_words"]).
Proof.
  split; [sample_comparing | ].
  split; [vm_compute; reflexivity | ].
  split; [intros Hempty; apply (f_equal size) in Hempty; vm_compute in Hempty;
          discriminate Hempty | ].
  assert (Hrun : (run (check_output_folder Sample.args)
                    (Sample.interrupted Sample.saved_args_without_device_ids)).1
                 = Raise (KeyError "device_ids")) by (vm_compute; reflexivity).
  split; [exact Hrun | ].
  split; [intros [Hexit _]; rewrite Hrun in Hexit; discriminate Hexit | ].
  repeat split; vm_compute; reflexivity.
Qed.

Lemma resume_iff_no_remaining_difference_witness :
  (decided Resume
     (check_output_folder Sample.args
        (initial_state (Sample.interrupted Sample.saved_args))) <->
   spec_remaining_diffs Sample.args Sample.saved_args = ∅) /\
  (spec_remaining_diffs Sample.args Sample.saved_args <> ∅ ->
   decided (AbortIncompatible (spec_remaining_diffs Sample.args Sample.saved_args))
     (check_output_folder Sample.args
        (initial_state (Sample.interrupted Sample.saved_args)))).
Proof.
  apply (resume_iff_no_remaining_difference Sample.args Sample.saved_args
           (initial_state (Sample.interrupted Sample.saved_args))).
  - sample_comparing.
  - intros _. split; eexists; reflexivity.
Defined.

(** The sample request resumes the run saved with [--quiet] on two other
    devices, and is turned away from the run saved with another vocabulary
    size, with num_words reported. *)
Example sample_resumes :
  (run (check_output_folder Sample.args) (Sample.interrupted Sample.saved_args)).1
  = Ok ("/work/model", "/work/model/training_state", true).
Proof. vm_compute. reflexivity. Qed.

Example sample_aborts_on_vocabulary :
  spec_remaining_diffs Sample.args Sample.saved_args_other_vocabulary = {["num_words"]} /\
  (run (check_output_folder Sample.args)
     (Sample.interrupted Sample.saved_args_other_vocabulary)).1 = Raise (SystemExit 1) /\
  last (trace (run (check_output_folder Sample.args)
                 (Sample.interrupted Sample.saved_args_other_vocabulary)).2)
  = Some (EvLog Error "Differing arguments: %s." [LStr "num_words"]).
Proof. repeat split; vm_compute; reflexivity. Qed.

(** C2, as stated, fails: on this resuming invocation args.json held a
    snapshot saved with [--quiet]; when [main] ends it holds the current
    arguments, without. *)
Lemma snapshot_claim_fails_on_resume :
  spec_decide Sample.args (Sample.interrupted Sample.saved_args) = Some Resume /\
  (run (main Sample.args) (Sample.interrupted Sample.saved_args)).1 = Ok tt /\
  Sample.snapshot_quiet (Sample.interrupted Sample.saved_args) = Some (VBool true) /\
  Sample.snapshot_quiet (fs (run (main Sample.args) (Sample.interrupted Sample.saved_args)).2)
    = Some (VBool false) /\
  fs (run (main Sample.args) (Sample.interrupted Sample.saved_args)).2
    <> Sample.interrupted Sample.saved_args.
Proof.
  assert (Hafter : Sample.snapshot_quiet
                     (fs (run (main Sample.args) (Sample.interrupted Sample.saved_args)).2)
                   = Some (VBool false)) by (vm_compute; reflexivity).
  split; [vm_compute; reflexivity | ].
  split; [vm_compute; reflexivity | ].
  split; [vm_compute; reflexivity | ].
  split; [exact Hafter | ].
  intros Hsame. rewrite Hsame in Hafter. vm_compute in Hafter. discriminate Hafter.
Qed.

Lemma args_snapshot_rewritten_on_every_start_witness :
  fs (run (main Sample.args) (Sample.interrupted Sample.saved_args)).2 =
    <[os_path_join (abspath "model") ARGS_STATE_NAME := File (CJson Sample.args)]>
      (Sample.interrupted Sample.saved_args).
Proof.
  refine (proj2 (proj2 (args_snapshot_rewritten_on_every_start Sample.args
                          (Sample.interrupted Sample.saved_args)
                          (Sample.after_preflight (Sample.interrupted Sample.saved_args))
                          _)) "model" _ _ _).
  - apply run_eta. vm_compute. reflexivity.
  - reflexivity.
  - eexists. reflexivity.
  - vm_compute. reflexivity.
Defined.

(** The same invocation on the folder without training state: refused,
    and args.json is not written. *)
Example sample_refusal_writes_nothing :
  spec_decide Sample.args Sample.foreign = Some Refuse /\
  fs (run (main Sample.args) Sample.foreign).2 = Sample.foreign.
Proof. split; vm_compute; reflexivity. Qed.

Lemma model_config_only_after_go_ahead_witness :
  (forall c, EvNew (NewModelConfig c) ∉ trace (run (main Sample.args) Sample.foreign).2) /\
  exists e, (run (main Sample.args) Sample.foreign).1 = Raise e.
Proof.
  apply (proj1 (model_config_only_after_go_ahead Sample.args Sample.foreign) Refuse).
  - vm_compute. reflexivity.
  - left. reflexivity.
Defined.

(** C4, at the snapshot that lacks device_ids: the decision is
    AbortIncompatible of device_ids; [main] ends with an uncaught
    [KeyError] (status 1) and the file system as it was found, but no error
    is reported: the trace holds the seeding calls and the set-up of the
    console logger, and no line that names the differing field. *)
Lemma abort_without_device_ids_goes_unreported :
  spec_decide Sample.args (Sample.interrupted Sample.saved_args_without_device_ids)
    = Some (AbortIncompatible {["device_ids"]}) /\
  (run (main Sample.args) (Sample.interrupted Sample.saved_args_without_device_ids)).1
    = Raise (KeyError "device_ids") /\
  exit_status
    (run (main Sample.args) (Sample.interrupted Sample.saved_args_without_device_ids)).1
    = 1%Z /\
  fs (run (main Sample.args) (Sample.interrupted Sample.saved_args_without_device_ids)).2
    = Sample.interrupted Sample.saved_args_without_device_ids /\
  trace (run (main Sample.args) (Sample.interrupted Sample.saved_args_without_device_ids)).2
    = [EvCall (np_random_seed (VInt 13)); EvCall (random_seed (VInt 13));
       EvCall (mx_random_seed (VInt 13)); EvSetupLogger false true None] /\
  (forall before names,
     trace (run (main Sample.args)
              (Sample.interrupted Sample.saved_args_without_device_ids)).2
     <> before ++
        [EvLog Error "Mismatch in arguments for training continuation." [];
         EvLog Error "Differing arguments: %s." [LStr (String.concat ", " names)]]).
Proof.
  assert (Hrun : (run (main Sample.args)
                    (Sample.interrupted Sample.saved_args_without_device_ids)).1
                 = Raise (KeyError "device_ids")) by (vm_compute; reflexivity).
  assert (Htrace : trace (run (main Sample.args)
                            (Sample.interrupted Sample.saved_args_without_device_ids)).2
                   = [EvCall (np_random_seed (VInt 13)); EvCall (random_seed (VInt 13));
                      EvCall (mx_random_seed (VInt 13)); EvSetupLogger false true None])
    by (vm_compute; reflexivity).
  split; [vm_compute; reflexivity | ].
  split; [exact Hrun | ].
  split; [now rewrite Hrun | ].
  split; [vm_compute; reflexivity | ].
  split; [exact Htrace | ].
  intros before names Ht. rewrite Htrace in Ht.
  apply (f_equal last) in Ht.
  rewrite last_app in Ht. cbn [last] in Ht. discriminate Ht.
Qed.

(** Where the device ids can be compared, the refusal and the abort end
    [main] as the claim says. *)
Example sample_refused_and_aborted :
  ((run (main Sample.args) Sample.foreign).1 = Raise (SystemExit 1) /\
   exit_status (run (main Sample.args) Sample.foreign).1 = 1%Z /\
   fs (run (main Sample.args) Sample.foreign).2 = Sample.foreign /\
   decided Refuse (Raise (SystemExit 1), (run (main Sample.args) Sample.foreign).2)) /\
  spec_decide Sample.args (Sample.interrupted Sample.saved_args_other_vocabulary)
    = Some (AbortIncompatible {["num_words"]}) /\
  decided (AbortIncompatible {["num_words"]})
    (Raise (SystemExit 1),
     (run (main Sample.args) (Sample.interrupted Sample.saved_args_other_vocabulary)).2).
Proof.
  assert (Hsized : forall saved f ids,
             saved !! "device_ids" = Some (VList ids) ->
             forall persisted, comparing Sample.args persisted f ->
                               f !! "/work/model/args.json" = Some (File (CJson saved)) ->
                               device_ids_sized Sample.args persisted).
  { intros saved f ids Hids persisted (_ & output & ow & Ho & _ & _ & _ & _ & Hfile) Hsaved.
    vm_compute in Ho. injection Ho as <-.
    change (os_path_join (abspath "model") ARGS_STATE_NAME)
      with "/work/model/args.json" in Hfile.
    rewrite Hsaved in Hfile. injection Hfile as <-.
    intros _. rewrite Hids. split; [exists 2; vm_compute; reflexivity | eexists; reflexivity]. }
  split.
  - apply (refuse_and_abort_stop_main Sample.args Sample.foreign
             (Sample.after_preflight Sample.foreign) Refuse).
    + apply run_eta. vm_compute. reflexivity.
    + eexists. reflexivity.
    + vm_compute. reflexivity.
    + now left.
    + intros persisted (_ & output & ow & Ho & _ & _ & _ & [m Hm] & _).
      vm_compute in Ho. injection Ho as <-. vm_compute in Hm. discriminate Hm.
  - assert (Hd : spec_decide Sample.args
                   (Sample.interrupted Sample.saved_args_other_vocabulary)
                 = Some (AbortIncompatible {["num_words"]})) by (vm_compute; reflexivity).
    split; [exact Hd | ].
    destruct (refuse_and_abort_stop_main Sample.args
                (Sample.interrupted Sample.saved_args_other_vocabulary)
                (Sample.after_preflight
                   (Sample.interrupted Sample.saved_args_other_vocabulary))
                (AbortIncompatible {["num_words"]})) as (_ & _ & _ & Hdec).
    + apply run_eta. vm_compute. reflexivity.
    + eexists. reflexivity.
    + exact Hd.
    + right. eauto.
    + intros persisted Hcmp.
      apply (Hsized Sample.saved_args_other_vocabulary
               (Sample.interrupted Sample.saved_args_other_vocabulary) [VInt 0; VInt 1]);
        [ | exact Hcmp | ]; vm_compute; reflexivity.
    + exact Hdec.
Qed.

(** The folder without training state: refused, and reported. *)
Example sample_refused :
  spec_decide Sample.args Sample.foreign = Some Refuse /\
  trace (run (main Sample.args) Sample.foreign).2
  = [EvCall (np_random_seed (VInt 13)); EvCall (random_seed (VInt 13));
     EvCall (mx_random_seed (VInt 13)); EvSetupLogger false true None;
     EvLog Error "Refusing to overwrite existing output folder %s." [LStr "/work/model"]].
Proof. split; vm_compute; reflexivity. Qed.

Lemma device_ids_count_decides_witness :
  (length [VInt 0; VInt 1] = length [VInt 2; VInt 3] ->
   decided Resume
     (check_output_folder Sample.args
        (initial_state (Sample.interrupted Sample.saved_args)))) /\
  (length [VInt 0; VInt 1] <> length [VInt 2; VInt 3] ->
   decided (AbortIncompatible {["device_ids"]})
     (check_output_folder Sample.args
        (initial_state (Sample.interrupted Sample.saved_args)))).
Proof.
  apply (device_ids_count_decides Sample.args Sample.saved_args
           (initial_state (Sample.interrupted Sample.saved_args))).
  - sample_comparing.
  - vm_compute. reflexivity.
  - reflexivity.
  - reflexivity.
Defined.

(** Three devices saved, two requested: AbortIncompatible of device_ids. *)
Example sample_aborts_on_device_count :
  spec_remaining_diffs Sample.args Sample.saved_args_three_devices = {["device_ids"]} /\
  last (trace (run (check_output_folder Sample.args)
                 (Sample.interrupted Sample.saved_args_three_devices)).2)
  = Some (EvLog Error "Differing arguments: %s." [LStr "device_ids"]).
Proof. split; vm_compute; reflexivity. Qed.


(** The sample run resumed: the training model gets scheduler 3, the one in
    the scheduler file, no scheduler is built, and the training loop is
    entered; with the scheduler file gone, the run ends in
    [FileNotFoundError] with none of that. From an empty file system, a
    scheduler is built, number 7, and the training model gets it. *)
Example sample_restores_scheduler :
  (run (main Sample.args) (Sample.interrupted Sample.saved_args)).1 = Ok tt /\
  Sample.schedulers_seen (trace (run (main Sample.args) (Sample.interrupted Sample.saved_args)).2)
  = [Some 3; None].
Proof. split; vm_compute; reflexivity. Qed.

Example sample_fails_without_scheduler_file :
  (run (main Sample.args) (Sample.interrupted_without_scheduler Sample.saved_args)).1
  = Raise (FileNotFoundError "/work/model/training_state/scheduler.pkl") /\
  Sample.schedulers_seen
    (trace (run (main Sample.args)
              (Sample.interrupted_without_scheduler Sample.saved_args)).2)
  = [].
Proof. split; vm_compute; reflexivity. Qed.

Example sample_builds_scheduler :
  (run (main Sample.args) ∅).1 = Ok tt /\
  Sample.schedulers_seen (trace (run (main Sample.args) ∅).2) = [None; Some 7; None].
Proof. split; vm_compute; reflexivity. Qed.

Example sample_reaches_handoff :
  last (trace (run (main Sample.args) ∅).2)
  = Some (EvCall (@fit Sample.collaborators tt tt tt Sample.handoff)).
Proof. vm_compute. reflexivity. Qed.

Lemma rescale_grad_at_handoff_witness :
  exists normalize_loss,
    Sample.args !! "normalize_loss" = Some normalize_loss /\
    (truthy normalize_loss = true ->
     fit_optimizer_params Sample.handoff !! "rescale_grad"
       = Some (PValue (VFloat float_one)) /\
     exists q, float_to_Q float_one = Some q /\ (q == 1)%Q) /\
    (truthy normalize_loss = false ->
     exists batch_size rescale,
       Sample.args !! "batch_size" = Some batch_size /\
       float_truediv float_one batch_size = Ok rescale /\
       fit_optimizer_params Sample.handoff !! "rescale_grad" = Some (PValue rescale) /\
       (forall z, batch_size = VInt z ->
                  z <> 0%Z /\
                  rescale = VFloat (SFdiv prec emax float_one (float_of_int z))) /\
       (batch_size = VInt 64 ->
        exists x q, rescale = VFloat x /\ float_to_Q x = Some q /\ (q == 1 # 64)%Q)).
Proof.
  apply (@rescale_grad_at_handoff Sample.collaborators Sample.constants
           Sample.environment Sample.args ∅ tt tt tt Sample.handoff).
  apply last_Some_elem_of. vm_compute. reflexivity.
Defined.

(** Batch size 64 without loss normalization gives 1/64; with loss
    normalization, 1.0. *)
Example sample_rescale_grad :
  fit_optimizer_params Sample.handoff !! "rescale_grad"
  = Some (PValue (VFloat Sample.one_over_64)) /\
  float_truediv float_one (VInt 64) = Ok (VFloat Sample.one_over_64) /\
  (exists q, float_to_Q Sample.one_over_64 = Some q /\ (q == 1 # 64)%Q) /\
  (exists p,
     (make_optimizer_params (<["normalize_loss" := VBool true]> Sample.args) None
        (initial_state ∅)).1 = Ok p /\
     p !! "rescale_grad" = Some (PValue (VFloat float_one))).
Proof.
  split; [reflexivity | ]. split; [vm_compute; reflexivity | ].
  split; [eexists; split; reflexivity | ].
  eexists. split; [vm_compute; reflexivity | reflexivity].
Qed.

Lemma clip_gradient_and_momentum_keys_witness :
  (exists requested,
     Sample.args !! "clip_gradient" = Some requested /\
     (is_Some (fit_optimizer_params Sample.handoff !! "clip_gradient") <->
      lt_int requested 0 = Ok false) /\
     (forall z, requested = VInt z ->
                (is_Some (fit_optimizer_params Sample.handoff !! "clip_gradient")
                 <-> (0 <= z)%Z)) /\
     (forall x, fit_optimizer_params Sample.handoff !! "clip_gradient" = Some x ->
                x = PValue requested)) /\
  (exists momentum,
     Sample.args !! "momentum" = Some momentum /\
     (is_Some (fit_optimizer_params Sample.handoff !! "momentum") <-> momentum <> VNone) /\
     (forall x, fit_optimizer_params Sample.handoff !! "momentum" = Some x ->
                x = PValue momentum)).
Proof.
  apply (@clip_gradient_and_momentum_keys Sample.collaborators Sample.constants
           Sample.environment Sample.args ∅ tt tt tt Sample.handoff).
  apply last_Some_elem_of. vm_compute. reflexivity.
Defined.

Lemma residual_connections_need_three_layers_witness :
  (forall st,
     (check_rnn_residual_connections (Sample.residual_args 2) st
        = (Raise (SockeyeError residual_message), st) <-> (2 <= 2)%Z) /\
     (check_rnn_residual_connections (Sample.residual_args 2) st = (Ok tt, st)
        <-> (3 <= 2)%Z)) /\
  (forall f st1,
     run (seed_rngs (Sample.residual_args 2) ;;; check_fused_rnn (Sample.residual_args 2)) f
       = (Ok tt, st1) ->
     (2 <= 2)%Z ->
     run (main (Sample.residual_args 2)) f = (Raise (SockeyeError residual_message), st1)).
Proof.
  apply (residual_connections_need_three_layers (Sample.residual_args 2) (VBool true) 2).
  - reflexivity.
  - reflexivity.
  - reflexivity.
Defined.

(** Two layers with residual connections stop the run; three do not. *)
Example sample_residual_layers :
  (run (main (Sample.residual_args 2)) ∅).1 = Raise (SockeyeError residual_message) /\
  (run (main (Sample.residual_args 3)) ∅).1 = Ok tt.
Proof. split; vm_compute; reflexivity. Qed.


(** What the sample run hands to the vocabulary builder, the data iterators
    and the model configuration: 50000 and 30000 words, length 100 on both
    sides, embeddings of size 512. *)
Example sample_resolved_options :
  omap (fun e => match e with
                 | EvCall c =>
                     match c with
                     | vocab_build_from_path data_path num_words _ =>
                         Some [data_path; num_words]
                     | get_training_data_iters _ _ _ _ _ _ _ _ len_source len_target _ _ =>
                         Some [len_source; len_target]
                     | _ => None
                     end
                 | EvNew (NewModelConfig c) =>
                     Some [max_seq_len c; enc_num_embed (config_encoder c);
                           dec_num_embed (config_decoder c)]
                 | _ => None
                 end)
       (trace (run (main Sample.args) ∅).2)
  = [[VStr "train.src"; VInt 50000]; [VStr "train.trg"; VInt 30000];
     [VInt 100; VInt 100]; [VInt 100; VInt 512; VInt 512]].
Proof. vm_compute. reflexivity. Qed.

(** ** The further facts, on the sample request *)

Lemma dict_difference_nan_witness :
  "dropout" ∈ _dict_difference Sample.nan_args Sample.args /\
  "dropout" ∈ _dict_difference Sample.nan_args Sample.nan_args.
Proof.
  apply (dict_difference_nan Sample.nan_args Sample.args "dropout"). reflexivity.
Defined.

Lemma cpu_training_never_touches_gpus_witness :
  Forall no_gpu_event (trace (run (main Sample.args) ∅).2).
Proof.
  apply (cpu_training_never_touches_gpus Sample.args ∅ (VBool true)); reflexivity.
Defined.

Lemma disabled_locking_takes_no_lock_witness :
  Forall (no_lock_event Sample.unlocked_args) (trace (run (main Sample.unlocked_args) ∅).2).
Proof.
  apply (disabled_locking_takes_no_lock Sample.unlocked_args ∅ (VBool true)); reflexivity.
Defined.

Lemma fresh_start_creates_vocabularies_witness :
  Forall (creates_vocabularies Sample.args "/work/model") (trace (run (main Sample.args) ∅).2).
Proof.
  apply (fresh_start_creates_vocabularies Sample.args ∅
           (Sample.after_preflight ∅) (Sample.after_decision ∅)
           "/work/model" "/work/model/training_state").
  - apply run_eta. vm_compute. reflexivity.
  - apply run_eta. vm_compute. reflexivity.
Defined.

Lemma resume_reloads_vocabularies_witness :
  Forall (reloads_vocabularies "/work/model")
    (trace (run (main Sample.args) (Sample.interrupted Sample.saved_args)).2).
Proof.
  apply (resume_reloads_vocabularies Sample.args (Sample.interrupted Sample.saved_args)
           (Sample.after_preflight (Sample.interrupted Sample.saved_args))
           (Sample.after_decision (Sample.interrupted Sample.saved_args))
           "/work/model" "/work/model/training_state").
  - apply run_eta. vm_compute. reflexivity.
  - apply run_eta. vm_compute. reflexivity.
Defined.

Lemma parameters_loaded_from_witness :
  Forall (loads_parameters Sample.args "/work/model/training_state" true)
    (trace (run (main Sample.args) (Sample.interrupted Sample.saved_args)).2).
Proof.
  apply (parameters_loaded_from Sample.args (Sample.interrupted Sample.saved_args)
           (Sample.after_preflight (Sample.interrupted Sample.saved_args))
           (Sample.after_decision (Sample.interrupted Sample.saved_args))
           "/work/model" "/work/model/training_state" true).
  - apply run_eta. vm_compute. reflexivity.
  - apply run_eta. vm_compute. reflexivity.
Defined.

Lemma training_handoff_witness :
  absolute Sample.args "output" "/work/model" /\
  Forall (hands_over Sample.args "/work/model") (trace (run (main Sample.args) ∅).2) /\
  ((run (main Sample.args) ∅).1 = Ok tt ->
   exists m train_iter eval_iter kw,
     respond _ (fit m train_iter eval_iter kw) = Ok tt /\
     handed_over Sample.args "/work/model" kw).
Proof.
  apply (training_handoff Sample.args ∅
           (Sample.after_preflight ∅) (Sample.after_decision ∅)
           "/work/model" "/work/model/training_state" false).
  - apply run_eta. vm_compute. reflexivity.
  - apply run_eta. vm_compute. reflexivity.
Defined.

Lemma rngs_seeded_first_witness :
  exists rest,
    trace (run (main Sample.args) ∅).2 =
      [EvCall (np_random_seed (VInt 13)); EvCall (random_seed (VInt 13));
       EvCall (mx_random_seed (VInt 13))] ++ rest /\
    Forall past_seeding rest.
Proof.
  apply (rngs_seeded_first Sample.args ∅ (VInt 13)); reflexivity.
Defined.

Lemma fused_rnn_needs_gpu_witness :
  (forall st,
     check_fused_rnn Sample.fused_args st =
     (if truthy (VBool true) then Raise (SockeyeError fused_message) else Ok tt, st)) /\
  (forall f st1,
     run (seed_rngs Sample.fused_args) f = (Ok tt, st1) ->
     truthy (VBool true) = true ->
     run (main Sample.fused_args) f = (Raise (SockeyeError fused_message), st1)).
Proof.
  apply (fused_rnn_needs_gpu Sample.fused_args (VBool true) (VBool true)); reflexivity.
Defined.

Lemma optimized_metric_must_be_tracked_witness :
  check_optimized_metric Sample.args (initial_state ∅) =
  (if String.eqb "perplexity" BLEU
      || existsb (py_eqb (VStr "perplexity")) [VStr "perplexity"]
   then Ok tt else Raise (SockeyeError metric_message), initial_state ∅).
Proof.
  apply (optimized_metric_must_be_tracked Sample.args "perplexity"
           [VStr "perplexity"] (initial_state ∅)); reflexivity.
Defined.

Lemma validation_precedes_output_folder_witness :
  run (main (Sample.residual_args 2)) ∅ =
    (Raise (SockeyeError residual_message),
     (run (preflight (Sample.residual_args 2)) ∅).2) /\
  fs (run (preflight (Sample.residual_args 2)) ∅).2 = ∅ /\
  Forall seeding_event (trace (run (preflight (Sample.residual_args 2)) ∅).2).
Proof.
  apply (validation_precedes_output_folder (Sample.residual_args 2) ∅
           (SockeyeError residual_message)).
  apply run_eta. vm_compute. reflexivity.
Defined.

Lemma overwrite_empties_output_folder_witness :
  (check_output_folder Sample.overwrite_args
     (initial_state (Sample.interrupted Sample.saved_args))).1
    = Ok (abspath "model", os_path_join (abspath "model") TRAINING_STATE_DIRNAME, false) /\
  fs (check_output_folder Sample.overwrite_args
        (initial_state (Sample.interrupted Sample.saved_args))).2 !! abspath "model"
    = Some Dir /\
  (forall q, within (abspath "model") q = true -> q <> abspath "model" ->
     fs (check_output_folder Sample.overwrite_args
           (initial_state (Sample.interrupted Sample.saved_args))).2 !! q = None) /\
  (forall q, within (abspath "model") q = false ->
     fs (check_output_folder Sample.overwrite_args
           (initial_state (Sample.interrupted Sample.saved_args))).2 !! q
       = fs (initial_state (Sample.interrupted Sample.saved_args)) !! q) /\
  trace (check_output_folder Sample.overwrite_args
           (initial_state (Sample.interrupted Sample.saved_args))).2 =
    trace (initial_state (Sample.interrupted Sample.saved_args)) ++
    [EvSetupLogger false (negb (truthy (VBool false))) None;
     EvLog Info "Removing existing output folder %s." [LStr (abspath "model")]].
Proof.
  apply (overwrite_empties_output_folder Sample.overwrite_args
           (initial_state (Sample.interrupted Sample.saved_args))
           (VBool false) (VBool true) "model"); try reflexivity.
  unfold tree. apply (bool_decide_unpack _). vm_compute. exact Logic.I.
Defined.

Lemma overwrite_of_a_file_fails_witness :
  (check_output_folder Sample.overwrite_args (initial_state Sample.occupied)).1
    = Raise (NotADirectoryError (abspath "model")) /\
  fs (check_output_folder Sample.overwrite_args (initial_state Sample.occupied)).2
    = fs (initial_state Sample.occupied).
Proof.
  apply (overwrite_of_a_file_fails Sample.overwrite_args (initial_state Sample.occupied)
           (VBool false) (VBool true) "model" CData); reflexivity.
Defined.

Lemma resume_needs_the_snapshot_witness :
  check_output_folder Sample.args (initial_state Sample.interrupted_without_snapshot) =
  (Raise (FileNotFoundError (os_path_join (abspath "model") ARGS_STATE_NAME)),
   add_event (EvSetupLogger false (negb (truthy (VBool false))) None)
     (initial_state Sample.interrupted_without_snapshot)).
Proof.
  apply (resume_needs_the_snapshot Sample.args
           (initial_state Sample.interrupted_without_snapshot)
           (VBool false) (VBool false) "model");
    try reflexivity; eexists; reflexivity.
Defined.


Lemma same_arguments_resume_witness :
  check_output_folder Sample.args (initial_state (Sample.interrupted Sample.args)) =
  (Ok (abspath "model", os_path_join (abspath "model") TRAINING_STATE_DIRNAME, true),
   add_event (EvSetupLogger false (negb (truthy (VBool false))) None)
     (initial_state (Sample.interrupted Sample.args))).
Proof.
  apply (same_arguments_resume Sample.args (initial_state (Sample.interrupted Sample.args))
           (VBool false) (VBool false) "model");
    try reflexivity; try (eexists; reflexivity).
  apply (bool_decide_unpack _). vm_compute. exact Logic.I.
Defined.

Lemma nan_argument_never_resumes_witness :
  exists e,
    (check_output_folder Sample.nan_args
       (initial_state (Sample.interrupted Sample.args))).1 = Raise e.
Proof.
  apply (nan_argument_never_resumes Sample.nan_args Sample.args
           (initial_state (Sample.interrupted Sample.args))
           (VBool false) (VBool false) "model" "dropout");
    try reflexivity; try (eexists; reflexivity).
  - apply (bool_decide_unpack _). vm_compute. exact Logic.I.
  - intros [=].
Defined.

Lemma optimizer_params_keys_witness :
  initial_state ∅ = initial_state ∅ /\
  (exists weight_decay,
     Sample.args !! "weight_decay" = Some weight_decay /\
     fit_optimizer_params Sample.handoff !! "wd" = Some (PValue weight_decay)) /\
  (exists initial_learning_rate,
     Sample.args !! "initial_learning_rate" = Some initial_learning_rate /\
     fit_optimizer_params Sample.handoff !! "learning_rate"
       = Some (PValue initial_learning_rate)) /\
  fit_optimizer_params Sample.handoff !! "lr_scheduler"
    = PScheduler <$> Some (7 : @Scheduler Sample.collaborators) /\
  is_Some (fit_optimizer_params Sample.handoff !! "rescale_grad") /\
  dom (fit_optimizer_params Sample.handoff) ⊆ optimizer_keys.
Proof.
  apply (optimizer_params_keys Sample.args (Some (7 : @Scheduler Sample.collaborators))
           (initial_state ∅) (initial_state ∅)
           (fit_optimizer_params Sample.handoff)).
  apply run_eta. vm_compute. reflexivity.
Defined.

Lemma main_confined_to_output_folder_witness :
  fs (run (main Sample.overwrite_args) Sample.elsewhere).2 !! "/home/notes.txt"
    = Sample.elsewhere !! "/home/notes.txt" \/
  ("/home/notes.txt" ∈ dirs_above (abspath "model") /\
   Sample.elsewhere !! "/home/notes.txt" = None /\
   fs (run (main Sample.overwrite_args) Sample.elsewhere).2 !! "/home/notes.txt"
     = Some Dir).
Proof.
  apply (main_confined_to_output_folder Sample.overwrite_args Sample.elsewhere
           "model" "/home/notes.txt").
  - reflexivity.
  - reflexivity.
  - vm_compute. intros [=].
Defined.

(** The directory above the output folder, where it was missing, is made
    with it. *)
Example sample_makes_directory_above :
  Sample.elsewhere !! "/work" = None /\
  fs (run (main Sample.args) Sample.elsewhere).2 !! "/work" = Some Dir /\
  fs (run (main Sample.args) Sample.elsewhere).2 !! "/work/model" = Some Dir.
Proof. repeat split; vm_compute; reflexivity. Qed.

Lemma model_sized_by_vocabularies_witness :
  Forall (sized_by_vocabularies Sample.args "/work/model" true)
    (trace (run (main Sample.args) (Sample.interrupted Sample.saved_args)).2).
Proof.
  apply (model_sized_by_vocabularies Sample.args (Sample.interrupted Sample.saved_args)
           (Sample.after_preflight (Sample.interrupted Sample.saved_args))
           (Sample.after_decision (Sample.interrupted Sample.saved_args))
           "/work/model" "/work/model/training_state" true).
  - apply run_eta. vm_compute. reflexivity.
  - apply run_eta. vm_compute. reflexivity.
Defined.

Lemma optimizer_gets_the_scheduler_of_the_model_witness :
  fit_optimizer_params Sample.handoff !! "lr_scheduler"
  = PScheduler <$> Some (7 : @Scheduler Sample.collaborators).
Proof.
  apply (optimizer_gets_the_scheduler_of_the_model Sample.args ∅
           (Sample.after_preflight ∅) (Sample.after_decision ∅)
           "/work/model" "/work/model/training_state" false
           Sample.model_config [cpu] tt tt tt (VBool false) true
           (Some (7 : @Scheduler Sample.collaborators)) tt Sample.handoff).
  - apply run_eta. vm_compute. reflexivity.
  - apply run_eta. vm_compute. reflexivity.
  - apply (list_elem_of_lookup_2 _ 24). vm_compute. reflexivity.
  - apply last_Some_elem_of. vm_compute. reflexivity.
Defined.
